(** * QuickFileBrowser: a shallow embedding of [quick_file_browser.py]

    The plugin is a Sublime Text file browser.  This development embeds
    the parts of it that carry behaviour: the glob-to-regex compiler
    [pat2regex], the classifier table built by [initialize], the two
    listing operations [browse] and [list_files], the quick-panel callback
    [on_done], the constructor, the save-path command, the status-bar
    animation and the polling that shows it on the active view.

    Python values are modelled as follows: [str] as [string] (characters
    are 8-bit), [int] as [Z], [list] as [list], the dictionaries
    [path_list] and [file_type_icons] as [gmap], [None]-or-string keys as
    [option string].  The host editor is modelled by the trace of calls
    made to it; [os.path] is [posixpath], and [Debug.print], which only
    writes to the console, is left out. *)

From Stdlib Require Import ZArith Ascii String List Bool Lia DecimalString.
From stdpp Require Import base option list gmap strings.

Set Warnings "-register-all".
Local Open Scope Z_scope.

(** ** Python string primitives *)

Module Py.

(** [c * n] for a one-character string [c]; a negative count gives the
    empty string. *)
Fixpoint repeat_char (c : ascii) (n : nat) : string :=
  match n with
  | O => ""
  | S k => String c (repeat_char c k)
  end.

Definition str_mul (c : ascii) (n : Z) : string := repeat_char c (Z.to_nat n).

(** [s.split(sep)] for a one-character separator: the pieces between the
    separators, always at least one. *)
Fixpoint split (sep : ascii) (s : string) : list string :=
  match s with
  | "" => [""]
  | String c s' =>
      if Ascii.eqb c sep then "" :: split sep s'
      else match split sep s' with
           | w :: ws => String c w :: ws
           | [] => [String c ""]
           end
  end.

(** [sep.join(l)]. *)
Definition join (sep : string) (l : list string) : string := String.concat sep l.

(** [s.startswith(p)] and [s.endswith(p)]. *)
Definition startswith (s p : string) : bool := String.prefix p s.

Fixpoint endswith (s p : string) : bool :=
  String.eqb s p ||
  match s with
  | "" => false
  | String _ s' => endswith s' p
  end.

(** [s.replace(old, new)] for a one-character [old]. *)
Fixpoint replace (old : ascii) (new : string) (s : string) : string :=
  match s with
  | "" => ""
  | String c s' =>
      (if Ascii.eqb c old then new else String c "") +:+ replace old new s'
  end.

(** [str.translate(s, table)]: characters without an entry are kept. *)
Fixpoint translate (table : ascii -> option string) (s : string) : string :=
  match s with
  | "" => ""
  | String c s' =>
      match table c with
      | Some r => r
      | None => String c ""
      end +:+ translate table s'
  end.

(** [s.rfind(c)] for a one-character [c]: the last index, or -1. *)
Fixpoint rfind_from (c : ascii) (s : string) (i acc : Z) : Z :=
  match s with
  | "" => acc
  | String a s' => rfind_from c s' (i + 1) (if Ascii.eqb a c then i else acc)
  end.

Definition rfind (s : string) (c : ascii) : Z := rfind_from c s 0 (-1).

(** The slices [s[:i]] and [s[i:]] for [0 <= i]. *)
Definition slice_to (s : string) (i : Z) : string :=
  String.substring 0 (Z.to_nat i) s.

Definition slice_from (s : string) (i : Z) : string :=
  String.substring (Z.to_nat i) (String.length s - Z.to_nat i)%nat s.

(** [s.rstrip(c)] for a one-character [c]. *)
Fixpoint rstrip (c : ascii) (s : string) : string :=
  match s with
  | "" => ""
  | String a s' =>
      match rstrip c s' with
      | "" => if Ascii.eqb a c then "" else String a ""
      | t => String a t
      end
  end.

(** Exceptions that the embedded code can raise. *)
Inductive exn :=
| ValueError (msg : string)
| KeyError
| IndexError
| OSError (msg : string).

(** [str(e)]; for [KeyError] and [IndexError] the text depends on the
    key, which the model does not keep. *)
Definition str_exn (e : exn) : string :=
  match e with
  | ValueError m => m
  | OSError m => m
  | KeyError => "KeyError"
  | IndexError => "list index out of range"
  end.

(** A computation that returns a value or raises. *)
Inductive res (A : Type) :=
| Ok (a : A)
| Raise (e : exn).
Arguments Ok {A} a.
Arguments Raise {A} e.

Definition bind {A B} (m : res A) (f : A -> res B) : res B :=
  match m with
  | Ok a => f a
  | Raise e => Raise e
  end.

End Py.

Notation "'do' x <- m ; k" := (Py.bind m (fun x => k))
  (at level 10, x name, m at level 100, k at level 200).

(** ** [os.path] on a POSIX host ([posixpath], Python 3.8) *)

Module PosixPath.

Definition sep : ascii := "/".

Definition isabs (s : string) : bool := Py.startswith s "/".

(** One step of [join(a, *p)]. *)
Definition join2 (path b : string) : string :=
  if Py.startswith b "/" then b
  else if String.eqb path "" || Py.endswith path "/" then path +:+ b
  else path +:+ "/" +:+ b.

Definition join (a : string) (p : list string) : string := fold_left join2 p a.

(** The number that [normpath] keeps in [initial_slashes]: 0, 1 or 2. *)
Definition initial_slashes (path : string) : Z :=
  if Py.startswith path "/" then
    if Py.startswith path "//" && negb (Py.startswith path "///") then 2 else 1
  else 0.

Definition is_nil {A} (l : list A) : bool :=
  match l with [] => true | _ => false end.

(** The body of the loop of [normpath] over the components. *)
Definition normpath_step (slashes : Z) (new_comps : list string) (comp : string)
  : list string :=
  if String.eqb comp "" || String.eqb comp "." then new_comps
  else if negb (String.eqb comp "..")
          || ((slashes =? 0) && is_nil new_comps)
          || (negb (is_nil new_comps) && String.eqb (List.last new_comps "") "..")
  then new_comps ++ [comp]
  else if negb (is_nil new_comps) then removelast new_comps
  else new_comps.

Definition normpath (path : string) : string :=
  if String.eqb path "" then "."
  else
    let slashes := initial_slashes path in
    let comps := fold_left (normpath_step slashes) (Py.split sep path) [] in
    let path' := Py.str_mul sep slashes +:+ Py.join "/" comps in
    if String.eqb path' "" then "." else path'.

(** [abspath]; [cwd] is what [os.getcwd()] returns. *)
Definition abspath (cwd path : string) : string :=
  normpath (if isabs path then path else join cwd [path]).

(** [commonprefix] of two lists of components: their longest common
    prefix. *)
Fixpoint commonprefix (l1 l2 : list string) : list string :=
  match l1, l2 with
  | x :: l1', y :: l2' =>
      if String.eqb x y then x :: commonprefix l1' l2' else []
  | _, _ => []
  end.

Definition nonempty (s : string) : bool := negb (String.eqb s "").

Definition relpath (cwd path start : string) : Py.res string :=
  if String.eqb path "" then Py.Raise (Py.ValueError "no path specified")
  else
    let start_list := List.filter nonempty (Py.split sep (abspath cwd start)) in
    let path_list := List.filter nonempty (Py.split sep (abspath cwd path)) in
    let i := List.length (commonprefix start_list path_list) in
    let rel_list :=
      List.repeat ".." (List.length start_list - i)%nat ++ List.skipn i path_list in
    match rel_list with
    | [] => Py.Ok "."
    | a :: p => Py.Ok (join a p)
    end.

(** [dirname]. *)
Definition dirname (p : string) : string :=
  let i := Py.rfind p sep + 1 in
  let head := Py.slice_to p i in
  if nonempty head
     && negb (String.eqb head (Py.repeat_char sep (String.length head)))
  then Py.rstrip sep head
  else head.

(** The loop of [_splitext] that skips leading dots of the file name:
    [Some i] when the character at [i] is not a dot. *)
Fixpoint first_non_dot (fuel : nat) (p : string) (i : Z) : option Z :=
  match fuel with
  | O => None
  | S fuel' =>
      if negb (String.eqb (String.substring (Z.to_nat i) 1 p) ".") then Some i
      else first_non_dot fuel' p (i + 1)
  end.

Definition splitext (p : string) : string * string :=
  let sepIndex := Py.rfind p sep in
  let dotIndex := Py.rfind p "." in
  if sepIndex <? dotIndex then
    match first_non_dot (Z.to_nat (dotIndex - (sepIndex + 1))) p (sepIndex + 1) with
    | Some _ => (Py.slice_to p dotIndex, Py.slice_from p dotIndex)
    | None => (p, "")
    end
  else (p, "").

End PosixPath.

(** ** The regular expressions of [re] that the plugin can produce

    [pat2regex] hands [re.compile] a string assembled from user patterns.
    The syntax modelled here is the part of [sre_parse] made of literals,
    [.], [^], [$], [|], groups, backslash-escaped punctuation and the
    repeats [*] and [+].  A source that uses anything else (classes,
    counted repeats, [?], letter or digit escapes) is left to the host's
    own [re], which the development takes as a parameter. *)

Module Re.

Inductive regex :=
| Empty
| Lit (c : ascii)
| Any
| AtBeginning
| AtEnd
| Cat (r1 r2 : regex)
| Alt (r1 r2 : regex)
| Group (r : regex)
| MaxRepeat (plus : bool) (r : regex).

(** A compiled pattern: parsed by the model, or compiled by the host. *)
Inductive pattern :=
| Parsed (r : regex)
| Hosted (m : string -> bool).

Definition newline : ascii := "010".

(** Backtracking search: [run r bol s k] tries every way in which [r]
    matches a prefix of [s], handing the rest to [k]; [bol] tells
    whether [s] starts at position 0.  A repeat only iterates over
    matches that consume input. *)
Fixpoint run (r : regex) (bol : bool) (s : string)
    (k : bool -> string -> bool) {struct r} : bool :=
  match r with
  | Empty => k bol s
  | Lit c =>
      match s with
      | String a s' => Ascii.eqb a c && k false s'
      | "" => false
      end
  | Any =>
      match s with
      | String a s' => negb (Ascii.eqb a newline) && k false s'
      | "" => false
      end
  | AtBeginning => bol && k bol s
  | AtEnd => (String.eqb s "" || String.eqb s (String newline "")) && k bol s
  | Cat r1 r2 => run r1 bol s (fun b t => run r2 b t k)
  | Alt r1 r2 => run r1 bol s k || run r2 bol s k
  | Group r' => run r' bol s k
  | MaxRepeat plus r' =>
      let fix loop (fuel : nat) (bol : bool) (s : string) {struct fuel} : bool :=
        match fuel with
        | O => k bol s
        | S fuel' =>
            run r' bol s
              (fun b t => (String.length t <? String.length s)%nat && loop fuel' b t)
            || k bol s
        end in
      if plus then run r' bol s (fun b t => loop (String.length t) b t)
      else loop (String.length s) bol s
  end.

(** [pattern.match(s)], as a truth value: a match starting at 0. *)
Definition match_ (p : pattern) (s : string) : bool :=
  match p with
  | Parsed r => run r true s (fun _ _ => true)
  | Hosted m => m s
  end.

(** *** Parsing *)

(** A subpattern under construction: the finished branches of an
    alternation and the items of the branch being read, last first. *)
Record frame := Frame { branches : list regex; items : list regex }.

Definition seq_of (items_rev : list regex) : regex :=
  match rev items_rev with
  | [] => Empty
  | r :: rs => fold_left Cat rs r
  end.

Definition close_frame (f : frame) : regex :=
  match branches f ++ [seq_of (items f)] with
  | [] => Empty
  | r :: rs => fold_left Alt rs r
  end.

Definition push_item (r : regex) (f : frame) : frame :=
  Frame (branches f) (r :: items f).

Inductive outcome :=
| Compiled (r : regex)
| Error               (* [re.error] *)
| Outside.            (* syntax that the model does not cover *)

Definition is_alnum (c : ascii) : bool :=
  let n := nat_of_ascii c in
  ((48 <=? n) && (n <=? 57) || (65 <=? n) && (n <=? 90)
   || (97 <=? n) && (n <=? 122))%nat.

(** A repeat applies to the last item; [sre_parse] refuses it after
    nothing or a position assertion ("nothing to repeat") and after
    another repeat ("multiple repeat"). *)
Definition repeat (plus : bool) (f : frame) : option frame :=
  match items f with
  | [] => None
  | AtBeginning :: _ => None
  | AtEnd :: _ => None
  | MaxRepeat _ _ :: _ => None
  | r :: rs => Some (Frame (branches f) (MaxRepeat plus r :: rs))
  end.

(** One pass over the source; [stack] holds the frames of the groups
    that are open around the current one. *)
Fixpoint parse (src : string) (cur : frame) (stack : list frame) : outcome :=
  match src with
  | "" =>
      match stack with
      | [] => Compiled (close_frame cur)
      | _ :: _ => Error            (* missing ), unterminated subpattern *)
      end
  | String "(" (String "?" (String ":" rest)) =>
      parse rest (Frame [] []) (cur :: stack)
  | String "(" (String "?" _) => Outside
  | String "(" rest => parse rest (Frame [] []) (cur :: stack)
  | String ")" rest =>
      match stack with
      | [] => Error                (* unbalanced parenthesis *)
      | up :: stack' => parse rest (push_item (Group (close_frame cur)) up) stack'
      end
  | String "|" rest =>
      parse rest (Frame (branches cur ++ [seq_of (items cur)]) []) stack
  | String "*" rest =>
      match repeat false cur with
      | Some cur' => parse rest cur' stack
      | None => Error
      end
  | String "+" rest =>
      match repeat true cur with
      | Some cur' => parse rest cur' stack
      | None => Error
      end
  | String "." rest => parse rest (push_item Any cur) stack
  | String "^" rest => parse rest (push_item AtBeginning cur) stack
  | String "$" rest => parse rest (push_item AtEnd cur) stack
  | String "\" "" => Error          (* bad escape (end of pattern) *)
  | String "\" (String c rest) =>
      if is_alnum c then Outside else parse rest (push_item (Lit c) cur) stack
  | String "[" _ => Outside
  | String "{" _ => Outside
  | String "?" _ => Outside
  | String c rest => parse rest (push_item (Lit c) cur) stack
  end.

(** [re.compile(src)]; [host src] is what the host's [re] makes of a
    source outside the model: a matcher, or [None] for [re.error]. *)
Definition compile (host : string -> option (string -> bool)) (src : string)
  : option pattern :=
  match parse src (Frame [] []) [] with
  | Compiled r => Some (Parsed r)
  | Error => None
  | Outside => Hosted <$> host src
  end.

End Re.

(** ** The host: platform, editor API and file system *)

(** An argument of a command URL. *)
Inductive arg :=
| ArgStr (s : string)
| ArgBool (b : bool).

(** What the plugin takes from its host and does not define itself. *)
Class Host := {
  (** [sublime.platform() == 'windows'] *)
  is_windows : bool;
  (** [os.getcwd()] *)
  getcwd : string;
  (** [__package__] *)
  package : string;
  (** [sublime.command_url(command, args)] *)
  command_url : string -> list (string * arg) -> string;
  (** the host's [re.compile] on sources outside the modelled syntax *)
  re_host : string -> option (string -> bool)
}.

(** The file system as one directory listing sees it. *)
Record FileSystem := {
  listdir : string -> Py.res (list string);
  isfile : string -> bool;
  isdir : string -> bool
}.

(** The file system as [os.walk] sees it below its starting point.
    [Unwalked] is a directory that [os.walk] lists among [dirs] but does
    not enter: a symbolic link to a directory, or one that [scandir]
    fails on (the error is dropped, [onerror] being [None]). *)
Inductive fsnode :=
| NotDir
| Directory (entries : list (string * fsnode))
| Unwalked.

Definition is_dir (n : fsnode) : bool :=
  match n with NotDir => false | _ => true end.

(** [os.walk(top)], top-down.  The consumer may edit the yielded [dirs]
    in place and [os.walk] then enters only what is left; [list_files]
    keeps the names satisfying [keep], which is a parameter here.  Each
    element is a yielded triple [(root, dirs, files)], [dirs] after the
    edit. *)
Fixpoint walk (keep : string -> bool) (top : string) (n : fsnode)
  : list (string * list string * list string) :=
  match n with
  | Directory entries =>
      let dirs := map fst (List.filter (fun e => is_dir (snd e)) entries) in
      let nondirs := map fst (List.filter (fun e => negb (is_dir (snd e))) entries) in
      (top, List.filter keep dirs, nondirs) ::
      (fix descend (es : list (string * fsnode)) :=
         match es with
         | [] => []
         | (name, child) :: es' =>
             (if is_dir child && keep name
              then walk keep (PosixPath.join top [name]) child
              else [])
             ++ descend es'
         end) entries
  | _ => []
  end.

(** ** Calls made to the editor *)

Inductive text :=
| Str (s : string)
| InvalidPatterns (patterns : list string).  (* f'Invalid patterns: {patterns}' *)

Inductive kind :=
| KIND_FILE
| KIND_DIRECTORY.

Definition kind_eqb (k1 k2 : kind) : bool :=
  match k1, k2 with
  | KIND_FILE, KIND_FILE | KIND_DIRECTORY, KIND_DIRECTORY => true
  | _, _ => false
  end.

(** [sublime.QuickPanelItem]. *)
Record QuickPanelItem := {
  trigger : string;
  details : list string;
  annotation : string;
  item_kind : kind
}.

Inductive event :=
| error_message (t : text)
| status_message (s : string)
| set_clipboard (s : string)
| open_file (path : string)
| show_quick_panel_call (items : list QuickPanelItem).

(** ** [pat2regex] *)

Section Pat2Regex.
Context `{Host}.

Definition transtable (c : ascii) : option string :=
  if Ascii.eqb c "*" then Some ".*"
  else if Ascii.eqb c "." then Some "\."
  else if Ascii.eqb c "?" then Some "."
  else None.

Definition convert (pattern : string) : string := Py.translate transtable pattern.

(** The string handed to [re.compile] in the [try] block. *)
Definition regex_source (patterns : list string) : string :=
  "^(?:" +:+ Py.join "|" (map convert patterns) +:+ ")$".

(** The compiled pattern and the calls made to the editor; [None] when
    the fallback [re.compile('.*')] itself raised. *)
Definition pat2regex (patterns : list string) : option (Re.pattern * list event) :=
  match Re.compile re_host (regex_source patterns) with
  | Some regex => Some (regex, [])
  | None =>
      regex ← Re.compile re_host ".*";
      Some (regex, [error_message (InvalidPatterns patterns)])
  end.

End Pat2Regex.

(** ** [QuickPanelFileBrowser] *)

Record FileTypeIcon := { name : string; icon : string }.

(** The value of [extensions] in a [file_types] entry: a list, or a
    single key; a key is a string or [None] (JSON [null]). *)
Inductive extensions :=
| ExtList (l : list (option string))
| ExtOne (e : option string).

Record file_type := {
  ft_icon : option string;
  ft_extensions : option extensions
}.

(** The settings file; [None] is an absent key. *)
Record Settings := {
  debug : option bool;
  use_unix_style_path : option bool;
  file_exclude_patterns : option (list string);
  folder_exclude_patterns : option (list string);
  s_show_hidden_files : option bool;
  s_ignored_file_types : option (list string);
  file_types : option (list (string * file_type))
}.

(** What [initialize] stores: the module globals [join_path] and
    [normalize_path] and the attributes of the class. *)
Record Browser := {
  join_path : string -> string -> string;
  normalize_path : string -> string;
  exclude_file : string -> bool;
  exclude_folder : string -> bool;
  show_hidden_files : bool;
  ignored_file_types : list string;
  file_type_icons : gmap (option string) FileTypeIcon
}.

(** The process-wide table [path_list] and the calls made so far. *)
Record World := {
  path_list : gmap Z (list string);
  trace : list event
}.

Definition emit (e : event) (w : World) : World :=
  {| path_list := path_list w; trace := trace w ++ [e] |}.

(** One instance: [self.window.id()] and [self.init_path]. *)
Record Session := {
  window_id : Z;
  init_path : string
}.

(** What the callback of a shown quick panel has captured. *)
Record Panel := {
  paths : list string;
  items : list QuickPanelItem;
  curdir : string
}.

Definition dquote : string := String "034" "".
Definition nbsp (n : nat) : string := String.concat "" (List.repeat "&nbsp;" n).

(** [d[k]] *)
Definition getitem {V} (d : gmap (option string) V) (k : option string) : Py.res V :=
  match d !! k with
  | Some v => Py.Ok v
  | None => Py.Raise Py.KeyError
  end.

(** [k in d] *)
Definition contains {V} (d : gmap (option string) V) (k : option string) : bool :=
  bool_decide (is_Some (d !! k)).

(** [x in l] for a list of strings *)
Definition in_list (x : string) (l : list string) : bool :=
  existsb (String.eqb x) l.

(** [l[i]], negative indices counting from the end. *)
Definition index {A} (l : list A) (i : Z) : Py.res A :=
  let n := Z.of_nat (List.length l) in
  let j := if i <? 0 then i + n else i in
  if (0 <=? j) && (j <? n) then
    match l !! Z.to_nat j with
    | Some x => Py.Ok x
    | None => Py.Raise Py.IndexError
    end
  else Py.Raise Py.IndexError.

Section QuickPanelFileBrowser.
Context `{Host}.

(** The loop of [initialize] over [file_types]. *)
Definition add_file_type (icons : gmap (option string) FileTypeIcon)
    (entry : string * file_type) : gmap (option string) FileTypeIcon :=
  let '(name, ft) := entry in
  let file_type_icon := {| name := name; icon := default "Open" (ft_icon ft) |} in
  match default (ExtList []) (ft_extensions ft) with
  | ExtList exts =>
      fold_left (fun m extension => <[extension := file_type_icon]> m) exts icons
  | ExtOne e => <[e := file_type_icon]> icons
  end.

Definition add_fallbacks (icons : gmap (option string) FileTypeIcon)
  : gmap (option string) FileTypeIcon :=
  let icons1 :=
    if contains icons (Some ".*") then icons
    else <[Some ".*" := {| name := "file"; icon := "Open" |}]> icons in
  if contains icons1 None then icons1
  else <[None := {| name := "folder"; icon := "Open" |}]> icons1.

(** The table after the loop over [file_types], before the fallbacks. *)
Definition configured (settings : Settings) : gmap (option string) FileTypeIcon :=
  fold_left add_file_type (default [] (file_types settings)) ∅.

(** [initialize]; the trace is what [pat2regex] reported. *)
Definition initialize (settings : Settings) : option (Browser * list event) :=
  let unix_style := is_windows && default true (use_unix_style_path settings) in
  '(file_re, ev1) ← pat2regex (default [] (file_exclude_patterns settings));
  '(folder_re, ev2) ← pat2regex (default [] (folder_exclude_patterns settings));
  Some
    ({| join_path :=
          if unix_style then (fun path leaf => Py.join "/" [path; leaf])
          else (fun path leaf => PosixPath.join path [leaf]);
        normalize_path :=
          if unix_style then Py.replace "\" "/" else (fun path => path);
        exclude_file := Re.match_ file_re;
        exclude_folder := Re.match_ folder_re;
        show_hidden_files := default true (s_show_hidden_files settings);
        ignored_file_types := default [] (s_ignored_file_types settings);
        file_type_icons := add_fallbacks (configured settings) |},
     ev1 ++ ev2).

Variable b : Browser.
Variable self : Session.

(** [normalize_path(relpath(absolute, self.init_path))], the first line
    of [make_item] and the relative path of [list_files]. *)
Definition relative_path (absolute : string) : Py.res string :=
  do r <- PosixPath.relpath getcwd absolute (init_path self);
  Py.Ok (normalize_path b r).

Definition action_tags (absolute relative : string) (ext : option string)
  : Py.res (list string) :=
  do fti <- getitem (file_type_icons b) ext;
  let url :=
    command_url "quick_file_browser_open_file"
      [("path", ArgStr absolute);
       ("open_in_sublime", ArgBool (bool_decide (ext = Some ".*")))] in
  let save_path_url path :=
    command_url "quick_file_browser_save_path" [("path", ArgStr path)] in
  let insert_path_url path :=
    command_url "insert" [("characters", ArgStr path)] in
  let make_tags operation (make_url : string -> string) :=
    "<em>" +:+ operation +:+ " Path</em>:" +:+ nbsp 2 +:+
    "<a href=" +:+ dquote +:+ make_url absolute +:+ dquote +:+ ">absolute</a>," +:+
    nbsp 2 +:+
    "<a href=" +:+ dquote +:+ make_url relative +:+ dquote +:+ ">relative</a>;" in
  Py.Ok [make_tags "Copy" save_path_url;
         make_tags "Insert" insert_path_url;
         "<a href=" +:+ dquote +:+ url +:+ dquote +:+ ">" +:+ icon fti +:+ "</a>"].

Definition separator : string := nbsp 4.

Definition make_item (entry absolute : string) (ext : option string) (k : kind)
  : Py.res QuickPanelItem :=
  do relative <- relative_path absolute;
  do actions <- action_tags absolute relative ext;
  do fti <- getitem (file_type_icons b) ext;
  Py.Ok {| trigger := entry;
           details := [Py.join separator actions];
           annotation := name fti;
           item_kind := k |}.

Definition prefix_annotation (p : string) (it : QuickPanelItem) : QuickPanelItem :=
  {| trigger := trigger it; details := details it;
     annotation := p +:+ annotation it; item_kind := item_kind it |}.

(** [show_quick_panel(paths, items, curdir)]: the panel is shown with
    [on_done] closed over the three arguments. *)
Definition show_quick_panel (paths : list string) (items : list QuickPanelItem)
    (curdir : string) (w : World) : World * Panel :=
  (emit (show_quick_panel_call items) w,
   {| paths := paths; items := items; curdir := curdir |}).

(** [if ext not in self.file_type_icons: ext = '.*'] *)
Definition file_key (ext : string) : string :=
  if negb (contains (file_type_icons b) (Some ext)) then ".*" else ext.

(** The body of the loop of [browse] over [os.listdir(curdir)]. *)
Definition browse_entry (fs : FileSystem) (curdir : string)
    (acc : list string * list QuickPanelItem) (entry : string)
  : Py.res (list string * list QuickPanelItem) :=
  match entry with
  | "" => Py.Raise Py.IndexError
  | String c _ =>
      if Ascii.eqb c "." && negb (show_hidden_files b) then Py.Ok acc
      else
        let absolute := join_path b curdir entry in
        let add ext k :=
          do it <- make_item entry absolute ext k;
          Py.Ok (fst acc ++ [absolute], snd acc ++ [it]) in
        if isfile fs absolute then
          let ext := snd (PosixPath.splitext entry) in
          if in_list ext (ignored_file_types b) then Py.Ok acc
          else add (Some (file_key ext)) KIND_FILE
        else add None KIND_DIRECTORY
  end.

Fixpoint for_each {A S} (f : S -> A -> Py.res S) (l : list A) (acc : S) : Py.res S :=
  match l with
  | [] => Py.Ok acc
  | x :: l' => do acc' <- f acc x; for_each f l' acc'
  end.

Definition browse (fs : FileSystem) (curdir : string) (w : World)
  : Py.res (World * Panel) :=
  let pardir :=
    normalize_path b (PosixPath.abspath getcwd (PosixPath.join curdir [".."])) in
  let curdir := normalize_path b curdir in
  do item0 <- make_item ".." pardir None KIND_DIRECTORY;
  do item1 <- make_item curdir curdir None KIND_DIRECTORY;
  let item0 := prefix_annotation "parent " item0 in
  let item1 := prefix_annotation "current " item1 in
  do entries <- listdir fs curdir;
  do r <- for_each (browse_entry fs curdir) entries ([pardir; curdir], [item0; item1]);
  Py.Ok (show_quick_panel (fst r) (snd r) curdir w).

(** The body of the inner loop of [list_files]. *)
Definition list_file (root : string)
    (acc : list string * list QuickPanelItem) (file : string)
  : Py.res (list string * list QuickPanelItem) :=
  if exclude_file b file then Py.Ok acc
  else
    let ext := snd (PosixPath.splitext file) in
    if in_list ext (ignored_file_types b) then Py.Ok acc
    else
      let ext := file_key ext in
      let absolute := normalize_path b (PosixPath.join root [file]) in
      do relative <- relative_path absolute;
      do actions <- action_tags absolute relative (Some ext);
      do fti <- getitem (file_type_icons b) (Some ext);
      Py.Ok (fst acc ++ [absolute],
             snd acc ++ [{| trigger := file;
                            details := [relative; Py.join separator actions];
                            annotation := name fti;
                            item_kind := KIND_FILE |}]).

Definition list_files (tree : fsnode) (path : string) (w : World)
  : Py.res (World * Panel) :=
  do r <- for_each
            (fun acc '(root, _, files) => for_each (list_file root) files acc)
            (walk (fun d => negb (exclude_folder b d)) path tree)
            ([], []);
  Py.Ok (show_quick_panel (fst r) (snd r) "" w).

(** [dict.pop(key)] on [path_list]. *)
Definition pop_path_list (w : World) : Py.res (list string * World) :=
  match path_list w !! window_id self with
  | Some l =>
      Py.Ok (l, {| path_list := delete (window_id self) (path_list w);
                   trace := trace w |})
  | None => Py.Raise Py.KeyError
  end.

Definition str_of_nat (n : nat) : string :=
  NilZero.string_of_uint (Nat.to_uint n).

(** The callback [on_done(index, event)] of a panel; [primary] is
    [event.get('modifier_keys', {}).get('primary', False)].  The result
    is the world and the panel on display afterwards, if any. *)
Definition on_done (fs : FileSystem) (p : Panel) (idx : Z) (primary : bool)
    (w : World) : Py.res (World * option Panel) :=
  if idx =? -1 then
    do r <- pop_path_list w;
    let '(saved, w1) := r in
    match saved with
    | [] => Py.Ok (w1, None)
    | _ :: _ =>
        let w2 := emit (set_clipboard (Py.join (String Re.newline "") saved)) w1 in
        let w3 :=
          emit (status_message
                  ("Copied " +:+ str_of_nat (List.length saved) +:+ " paths")) w2 in
        Py.Ok (w3, None)
    end
  else
    do path <- index (paths p) idx;
    do item <- index (items p) idx;
    let show w := let '(w', p') := show_quick_panel (paths p) (items p) (curdir p) w in
                  (w', Some p') in
    if kind_eqb (item_kind item) KIND_FILE then
      let w1 := emit (open_file path) w in
      if primary then Py.Ok (show w1) else Py.Ok (w1, None)
    else if negb (String.eqb path (curdir p)) then
      match browse fs path w with
      | Py.Ok (w', p') => Py.Ok (w', Some p')
      | Py.Raise e => Py.Ok (show (emit (status_message (Py.str_exn e)) w))
      end
    else Py.Ok (show w).

End QuickPanelFileBrowser.

(** [QuickPanelFileBrowser(window, path)] with [recursive=False]: the
    world afterwards and, unless [browse] raised, the instance and its
    first panel ([None] when the path is neither a file nor a
    directory). *)
Definition new_browser `{Host} (b : Browser) (fs : FileSystem) (window : Z)
    (path : string) (w : World) : World * Py.res (option (Session * Panel)) :=
  let start self :=
    let w1 := {| path_list := <[window := []]> (path_list w); trace := trace w |} in
    match browse b self fs (init_path self) w1 with
    | Py.Ok (w2, p) => (w2, Py.Ok (Some (self, p)))
    | Py.Raise e => (w1, Py.Raise e)
    end in
  if isfile fs path then
    start {| window_id := window; init_path := PosixPath.dirname path |}
  else if negb (isdir fs path) then
    (emit (error_message
             (Str (package +:+ ": No such file or directory:" +:+
                   String Re.newline "" +:+ "    " +:+ path))) w,
     Py.Ok None)
  else start {| window_id := window; init_path := path |}.

(** [QuickFileBrowserSavePathCommand.run(path)] in the window [window]:
    [path_list.get(window.id(), []).append(path)] appends in place to the
    list stored in the table, or to a new list that is dropped. *)
Definition save_path (window : Z) (path : string) (w : World) : World :=
  let table :=
    match path_list w !! window with
    | Some l => <[window := l ++ [path]]> (path_list w)
    | None => path_list w
    end in
  emit (status_message ("Saved " +:+ path))
       {| path_list := table; trace := trace w |}.

(** ** The status-bar animation ([StatusBarThread]) *)

Module StatusBar.

(** The fields of [StatusBarThread] that [update_status_bar] touches. *)
Record t := Mk { state : Z; step : Z; status : string }.

(** [__init__]: [self.state = 7], [self.step = 1], [self.status = '']. *)
Definition init : t := {| state := 7; step := 1; status := "" |}.

(** The f-string ["[{' ' * state}={' ' * (7 - state)}]"]. *)
Definition frame (p : Z) : string :=
  "[" +:+ Py.str_mul " " p +:+ "=" +:+ Py.str_mul " " (7 - p) +:+ "]".

Definition update_status_bar (s : t) : t :=
  let step' :=
    if (state s =? 0) || (state s =? 7) then - step s else step s in
  let state' := state s + step' in
  {| state := state'; step := step'; status := frame state' |}.

(** The bar after [n] calls of [update_status_bar]. *)
Definition ticks (n : nat) : t := Nat.iter n update_status_bar init.

(** The configurations the bar can be in: moving right it sits in
    columns 1..7, moving left in columns 0..6. *)
Definition reachable (s : t) : Prop :=
  (step s = 1 /\ 1 <= state s <= 7) \/ (step s = -1 /\ 0 <= state s <= 6).

End StatusBar.

(** ** [StatusBarTask] and the polling of [StatusBarThread]

    A view is its id; [window.active_view()] gives [None] when the window
    has no view, and a view object is true when its id is not 0.  All
    calls use the one key of the thread.  Whether the worker thread is
    still alive is an input of each poll. *)

Module StatusThread.

(** The texts of a [StatusBarTask]. *)
Record task := { message : string; success : string }.

Record t := Mk {
  bar : StatusBar.t;
  last_view : option Z;
  need_refresh : bool
}.

(** The calls made to views and to the timer. *)
Inductive call :=
| set_status (view : Z) (value : string)
| erase_status (view : Z)
| set_timeout_update (delay : Z)
| set_timeout_cleanup (view : Z) (delay : Z).

(** [__init__], before its call of [update_status_message]. *)
Definition init : t :=
  {| bar := StatusBar.init; last_view := None; need_refresh := true |}.

(** [task.status_message()] *)
Definition status_message (tk : task) (s : t) : string :=
  message tk +:+ " " +:+ StatusBar.status (bar s).

(** [show_status_message]; [None] is the [AttributeError] raised on a
    window without a view. *)
Definition show_status_message (s : t) (active : option Z) (msg : string)
  : option (t * list call) :=
  match active with
  | None => None
  | Some a =>
      if bool_decide (last_view s <> Some a) then
        Some ({| bar := bar s; last_view := Some a; need_refresh := need_refresh s |},
              set_status a msg ::
              match last_view s with
              | Some v => if v =? 0 then [] else [erase_status v]
              | None => []
              end)
      else Some (s, [set_status a msg])
  end.

(** [update_status_message]; [None] is an [AttributeError], raised also
    when the thread has ended and no view was ever recorded. *)
Definition update_status_message (tk : task) (s : t) (active : option Z)
    (alive : bool) : option (t * list call) :=
  let s1 := {| bar := StatusBar.update_status_bar (bar s);
               last_view := last_view s; need_refresh := need_refresh s |} in
  r ← (if need_refresh s1
       then show_status_message s1 active (status_message tk s1)
       else Some (s1, []));
  let '(s2, calls) := r in
  if negb alive then
    v ← last_view s2;
    Some (s2, calls ++ [set_status v (success tk); set_timeout_cleanup v 2000])
  else Some (s2, calls ++ [set_timeout_update 100]).

(** The status that each view carries under the key of the thread. *)
Definition apply_call (statuses : gmap Z string) (c : call) : gmap Z string :=
  match c with
  | set_status v value => <[v := value]> statuses
  | erase_status v => delete v statuses
  | _ => statuses
  end.

(** The polls while the worker thread is alive, one per active view
    given. *)
Fixpoint poll (tk : task) (actives : list (option Z)) (s : t)
    (statuses : gmap Z string) : option (t * gmap Z string) :=
  match actives with
  | [] => Some (s, statuses)
  | a :: rest =>
      r ← update_status_message tk s a true;
      poll tk rest (fst r) (fold_left apply_call (snd r) statuses)
  end.

(** What holds between polls: the recorded view, and no other, carries
    a status. *)
Definition settled (s : t) (statuses : gmap Z string) : Prop :=
  need_refresh s = true /\
  match last_view s with
  | None => statuses = ∅
  | Some v => v <> 0 /\ exists value, statuses = {[ v := value ]}
  end.

End StatusThread.

(** ** A concrete host *)

(** A POSIX host whose [re] refuses every source outside the modelled
    syntax and whose command URLs are the command names. *)
Definition posix_host : Host :=
  {| is_windows := false;
     getcwd := "/";
     package := "QuickFileBrowser";
     command_url := fun command _ => command;
     re_host := fun _ => None |}.

(** Settings with every key absent. *)
Definition no_settings : Settings :=
  {| debug := None; use_unix_style_path := None;
     file_exclude_patterns := None; folder_exclude_patterns := None;
     s_show_hidden_files := None; s_ignored_file_types := None;
     file_types := None |}.

(** The browser that [initialize] builds from [no_settings] on
    [posix_host]: the empty pattern lists compile to a pattern that
    matches the empty name only. *)
Definition empty_name_only : Re.pattern :=
  Re.Parsed (Re.Cat (Re.Cat Re.AtBeginning (Re.Group Re.Empty)) Re.AtEnd).

Definition default_browser : Browser :=
  {| join_path := fun path leaf => PosixPath.join path [leaf];
     normalize_path := fun path => path;
     exclude_file := Re.match_ empty_name_only;
     exclude_folder := Re.match_ empty_name_only;
     show_hidden_files := true;
     ignored_file_types := [];
     file_type_icons := add_fallbacks ∅ |}.

(** Settings that exclude compiled Python files and two folders. *)
Definition sample_settings : Settings :=
  {| debug := None; use_unix_style_path := None;
     file_exclude_patterns := Some ["*.pyc"];
     folder_exclude_patterns := Some ["node_modules"; ".git"];
     s_show_hidden_files := None; s_ignored_file_types := None;
     file_types := None |}.

Definition sample_browser : Browser :=
  match @initialize posix_host sample_settings with
  | Some (b, _) => b
  | None => default_browser
  end.

(** A project with an excluded folder two levels deep. *)
Definition sample_tree : fsnode :=
  Directory
    [("main.py", NotDir);
     ("node_modules",
      Directory [("pkg", Directory [("index.js", NotDir)])]);
     ("src",
      Directory [("util.py", NotDir); ("util.pyc", NotDir);
                 (".git", Directory [("config", NotDir)])])].

Definition sample_session : Session := {| window_id := 1; init_path := "/proj" |}.

Definition empty_world : World := {| path_list := ∅; trace := [] |}.

(** A Windows host; only [initialize] is evaluated on it. *)
Definition windows_host : Host :=
  {| is_windows := true;
     getcwd := "/";
     package := "QuickFileBrowser";
     command_url := fun command _ => command;
     re_host := fun _ => None |}.

Definition unix_style_browser : Browser :=
  match @initialize windows_host no_settings with
  | Some (b, _) => b
  | None => default_browser
  end.

(** Settings in which two entries of [file_types] list '.py'. *)
Definition typed_settings : Settings :=
  {| debug := None; use_unix_style_path := None;
     file_exclude_patterns := None; folder_exclude_patterns := None;
     s_show_hidden_files := None; s_ignored_file_types := None;
     file_types :=
       Some [("python",
              {| ft_icon := Some "Run";
                 ft_extensions := Some (ExtList [Some ".py"; Some ".pyw"]) |});
             ("script",
              {| ft_icon := None;
                 ft_extensions := Some (ExtOne (Some ".py")) |})] |}.

Definition typed_browser : Browser :=
  match @initialize posix_host typed_settings with
  | Some (b, _) => b
  | None => default_browser
  end.

(** A file system in which every directory holds the one directory
    [proj]. *)
Definition tower_fs : FileSystem :=
  {| listdir := fun _ => Py.Ok ["proj"];
     isfile := fun _ => false;
     isdir := fun _ => true |}.

(** A file system in which [/proj] holds the file [main.py] and the
    directory [secret], which cannot be listed. *)
Definition locked_fs : FileSystem :=
  {| listdir := fun path =>
       if String.eqb path "/proj" then Py.Ok ["main.py"; "secret"]
       else Py.Raise (Py.OSError "[Errno 13] Permission denied");
     isfile := fun path => String.eqb path "/proj/main.py";
     isdir := fun path => negb (String.eqb path "/proj/main.py") |}.

(** ** Names, normal forms and sessions *)

Fixpoint has_char (c : ascii) (s : string) : bool :=
  match s with
  | "" => false
  | String a s' => Ascii.eqb a c || has_char c s'
  end.

(** A path component: not empty and without '/'. *)
Definition is_component (s : string) : bool :=
  negb (String.eqb s "") && negb (has_char "/" s).

(** A name as [os.listdir] and [os.scandir] give them: a component that is
    neither '.' nor '..'. *)
Definition is_name (s : string) : bool :=
  is_component s && negb (String.eqb s ".") && negb (String.eqb s "..").

Abbreviation components := (Forall (fun c => is_component c = true)).
Abbreviation names := (Forall (fun c => is_name c = true)).

(** The absolute path with [k] leading slashes and the components [comps]. *)
Definition abs_of (k : nat) (comps : list string) : string :=
  Py.repeat_char "/" k +:+ Py.join "/" comps.

(** Every listing of the file system consists of names. *)
Definition lists_names (fs : FileSystem) : Prop :=
  forall path entries,
    listdir fs path = Py.Ok entries -> names entries.

Fixpoint tree_of_names (n : fsnode) : Prop :=
  match n with
  | Directory entries =>
      (fix all (es : list (string * fsnode)) : Prop :=
         match es with
         | [] => True
         | (name, child) :: es' =>
             is_name name = true /\ tree_of_names child /\ all es'
         end) entries
  | _ => True
  end.

(** The panels of one instance: the first one comes from [__init__]
    ([browse] or, in recursive mode, [list_files] on [init_path]), every
    later one is what [on_done] leaves on display. *)
Inductive shown `{Host} (b : Browser) (self : Session) : Panel -> Prop :=
| shown_browse fs w w' p :
    lists_names fs ->
    browse b self fs (init_path self) w = Py.Ok (w', p) ->
    shown b self p
| shown_list_files tree w w' p :
    tree_of_names tree ->
    list_files b self tree (init_path self) w = Py.Ok (w', p) ->
    shown b self p
| shown_on_done fs p idx primary w w' p' :
    shown b self p ->
    lists_names fs ->
    on_done b self fs p idx primary w = Py.Ok (w', Some p') ->
    shown b self p'.

(** The paths with [k + 1] leading slashes that [normpath] leaves alone. *)
Definition in_normal_form (k : nat) (path : string) : Prop :=
  exists comps, names comps /\ path = abs_of (S k) comps.

(** The list that [relpath] joins: [start_list] and [path_list] are the
    components of the start and of the path. *)
Definition rel_list (start_list path_list : list string) : list string :=
  let i := List.length (PosixPath.commonprefix start_list path_list) in
  List.repeat ".." (List.length start_list - i) ++ skipn i path_list.

(** ** Glob matching as the specification words it *)

(** Follows the specification, not the code: '*' matches any run of
    characters, '?' any single character, every other character (the dot
    included) itself, and the whole name has to be matched.  It is what
    [pat2regex] is compared with below. *)
Fixpoint glob_match (pattern name : string) : bool :=
  match pattern with
  | "" => String.eqb name ""
  | String c pattern' =>
      if Ascii.eqb c "*" then
        (fix any_run (name : string) : bool :=
           glob_match pattern' name ||
           match name with
           | "" => false
           | String _ name' => any_run name'
           end) name
      else
        match name with
        | "" => false
        | String a name' =>
            (Ascii.eqb c "?" || Ascii.eqb a c) && glob_match pattern' name'
        end
  end.

Definition glob_set_match (patterns : list string) (name : string) : bool :=
  existsb (fun pattern => glob_match pattern name) patterns.

(** The characters that [re] reads as themselves, together with the three
    that [pat2regex] translates: everything but the remaining special
    characters of the regular-expression syntax. *)
Definition is_plain (c : ascii) : bool :=
  negb (has_char c "()|+^$\[{").

Fixpoint plain_pattern (pattern : string) : bool :=
  match pattern with
  | "" => true
  | String c pattern' => is_plain c && plain_pattern pattern'
  end.

(** The item that [re] parses the translation of one pattern character
    into. *)
Definition glob_item (c : ascii) : Re.regex :=
  if Ascii.eqb c "*" then Re.MaxRepeat false Re.Any
  else if Ascii.eqb c "?" then Re.Any
  else Re.Lit c.

Fixpoint glob_items (pattern : string) : list Re.regex :=
  match pattern with
  | "" => []
  | String c pattern' => glob_item c :: glob_items pattern'
  end.

(** Matching a sequence of items one after the other. *)
Fixpoint run_list (rs : list Re.regex) (bol : bool) (s : string)
    (k : bool -> string -> bool) : bool :=
  match rs with
  | [] => k bol s
  | r :: rs' => Re.run r bol s (fun b t => run_list rs' b t k)
  end.

(** ** Auxiliary definitions of the proofs *)

(** What [re.compile('.*')] returns. *)
Definition any_run : Re.pattern := Re.Parsed (Re.MaxRepeat false Re.Any).

(** The built-in categories of [initialize]. *)
Definition file_fallback : FileTypeIcon := {| name := "file"; icon := "Open" |}.
Definition folder_fallback : FileTypeIcon := {| name := "folder"; icon := "Open" |}.

(** "a", a newline, "b". *)
Definition a_newline_b : string := String "a" (String Re.newline "b").

(** What the listing operations rely on in the browser's attributes. *)
Record well_formed (b : Browser) : Prop := {
  wf_folder : is_Some (file_type_icons b !! None);
  wf_wildcard : is_Some (file_type_icons b !! Some ".*");
  wf_normalize : forall path, path <> "" -> normalize_path b path <> "";
  wf_join : forall path leaf, leaf <> "" -> join_path b path leaf <> ""
}.

(** The branch of the alternation that one pattern becomes. *)
Definition branch_of (pattern : string) : Re.regex :=
  Re.seq_of (rev (glob_items pattern)).

(** The pattern that [re.compile] returns for plain patterns. *)
Definition compiled_set (p : string) (ps : list string) : Re.regex :=
  Re.Cat
    (Re.Cat Re.AtBeginning
       (Re.Group
          (Re.close_frame
             (Re.Frame (map branch_of (removelast (p :: ps)))
                (rev (glob_items (List.last (p :: ps) "")))))))
    Re.AtEnd.

(** The continuation that the closing [$] leaves at the end of a match. *)
Definition at_end (_ : bool) (t : string) : bool :=
  (String.eqb t "" || String.eqb t (String Re.newline "")) && true.

(** ** What a listing shows of an entry *)

(** [entry[0] == '.'] *)
Definition is_hidden (entry : string) : bool :=
  match entry with
  | String c _ => Ascii.eqb c "."
  | "" => false
  end.

(** The entries of [curdir] that the loop of [browse] does not skip. *)
Definition is_listed (b : Browser) (fs : FileSystem) (curdir entry : string) : bool :=
  negb (is_hidden entry && negb (show_hidden_files b)) &&
  negb (isfile fs (join_path b curdir entry) &&
        in_list (snd (PosixPath.splitext entry)) (ignored_file_types b)).

(** The key under which [browse] looks an entry up in [file_type_icons]. *)
Definition entry_key (b : Browser) (fs : FileSystem) (curdir entry : string)
  : option string :=
  if isfile fs (join_path b curdir entry)
  then Some (file_key b (snd (PosixPath.splitext entry)))
  else None.

Definition entry_kind (b : Browser) (fs : FileSystem) (curdir entry : string) : kind :=
  if isfile fs (join_path b curdir entry) then KIND_FILE else KIND_DIRECTORY.

(** The name of the category stored under a key. *)
Definition category_name (b : Browser) (key : option string) : string :=
  match file_type_icons b !! key with
  | Some fti => name fti
  | None => ""
  end.

(** The fields of an item that do not depend on the command URLs. *)
Definition item_view (it : QuickPanelItem) : string * string * kind :=
  (trigger it, annotation it, item_kind it).

Definition entry_view (b : Browser) (fs : FileSystem) (curdir entry : string)
  : string * string * kind :=
  (entry, category_name b (entry_key b fs curdir entry), entry_kind b fs curdir entry).

(** The files of one directory that the inner loop of [list_files] does
    not skip. *)
Definition is_listed_file (b : Browser) (file : string) : bool :=
  negb (exclude_file b file) &&
  negb (in_list (snd (PosixPath.splitext file)) (ignored_file_types b)).

(** Following the directory names [ds] from a node leads to a node. *)
Inductive descends : fsnode -> list string -> fsnode -> Prop :=
| descends_here n : descends n [] n
| descends_into entries name child ds n :
    In (name, child) entries ->
    descends child ds n ->
    descends (Directory entries) (name :: ds) n.

(** The paths that the two loops of [list_files] collect, written as a
    comprehension over the triples of [os.walk]. *)
Definition listed_paths `{Host} (b : Browser) (top : string) (tree : fsnode)
  : list string :=
  flat_map
    (fun '(root, _, files) =>
       map (fun file => normalize_path b (PosixPath.join root [file]))
           (List.filter (is_listed_file b) files))
    (walk (fun d => negb (exclude_folder b d)) top tree).

(** What may happen while the panel of the instance [self] is open,
    between its creation and its dismissal: paths are saved in its window
    or in another one, and panels call back, its own with a selection,
    those of other windows also with a dismissal.  [during self w saved w']
    holds when such steps lead from [w] to [w'] and [saved] are the paths
    saved in the window of [self], in order. *)
Inductive during `{Host} (self : Session) : World -> list string -> World -> Prop :=
| during_start w : during self w [] w
| during_save w saved w1 path :
    during self w saved w1 ->
    during self w (saved ++ [path]) (save_path (window_id self) path w1)
| during_save_elsewhere w saved w1 window path :
    during self w saved w1 ->
    window <> window_id self ->
    during self w saved (save_path window path w1)
| during_on_done w saved w1 b other fs p idx primary w2 q :
    during self w saved w1 ->
    idx <> -1 \/ window_id other <> window_id self ->
    on_done b other fs p idx primary w1 = Py.Ok (w2, q) ->
    during self w saved w2.

(** The keys that one entry of [file_types] maps, and the category it
    maps them to. *)
Definition keys_of (ft : file_type) : list (option string) :=
  match default (ExtList []) (ft_extensions ft) with
  | ExtList l => l
  | ExtOne e => [e]
  end.

Definition category_of (entry : string * file_type) : FileTypeIcon :=
  {| name := fst entry; icon := default "Open" (ft_icon (snd entry)) |}.

(** The category of a key, read off the settings: that of the last entry
    of [file_types] listing the key, else the built-in one of '.*' and of
    [None], else none. *)
Definition category (settings : Settings) (key : option string)
  : option FileTypeIcon :=
  match find (fun entry => bool_decide (key ∈ keys_of (snd entry)))
             (rev (default [] (file_types settings))) with
  | Some entry => Some (category_of entry)
  | None =>
      if bool_decide (key = Some ".*") then Some file_fallback
      else if bool_decide (key = None) then Some folder_fallback
      else None
  end.

(** * Properties *)

(** ** Strings and paths *)

Module StrFacts.

Lemma append_cons (c : ascii) (s t : string) : String c s +:+ t = String c (s +:+ t).
Proof. reflexivity. Qed.

Lemma append_nil_l (s : string) : "" +:+ s = s.
Proof. reflexivity. Qed.

Lemma append_nil_r (s : string) : s +:+ "" = s.
Proof.
  induction s as [|c s IH]; [reflexivity|]. rewrite append_cons. f_equal; exact IH.
Qed.

Lemma append_assoc (a c d : string) : (a +:+ c) +:+ d = a +:+ c +:+ d.
Proof.
  induction a as [|x a IH]; [reflexivity|]. rewrite !append_cons. f_equal; exact IH.
Qed.

Lemma append_cancel_l (a c d : string) : a +:+ c = a +:+ d -> c = d.
Proof.
  induction a as [|x a IH]; [tauto|]. rewrite !append_cons. intros [= E]; auto.
Qed.

Lemma split_not_nil (sep : ascii) (s : string) : Py.split sep s <> [].
Proof.
  destruct s as [|c s]; cbn; [discriminate|].
  destruct (Ascii.eqb c sep); [discriminate|].
  destruct (Py.split sep s); discriminate.
Qed.

Lemma split_no_sep (sep : ascii) (s : string) :
  has_char sep s = false -> Py.split sep s = [s].
Proof.
  induction s as [|c s IH]; cbn; [reflexivity|].
  destruct (Ascii.eqb c sep); cbn; [discriminate|].
  intros Hs. rewrite (IH Hs). reflexivity.
Qed.

Lemma split_app_sep (sep : ascii) (a c : string) :
  Py.split sep (a +:+ String sep c) = Py.split sep a ++ Py.split sep c.
Proof.
  induction a as [|x a IH].
  - rewrite append_nil_l. cbn [Py.split]. rewrite Ascii.eqb_refl. reflexivity.
  - rewrite append_cons. cbn [Py.split].
    destruct (Ascii.eqb x sep); rewrite IH; [reflexivity|].
    pose proof (split_not_nil sep a).
    destruct (Py.split sep a); [contradiction | reflexivity].
Qed.

Lemma split_repeat_sep (sep : ascii) (k : nat) (s : string) :
  Py.split sep (Py.repeat_char sep k +:+ s) = List.repeat "" k ++ Py.split sep s.
Proof.
  induction k as [|k IH]; [reflexivity|].
  cbn [Py.repeat_char List.repeat]. rewrite append_cons. cbn [Py.split].
  rewrite Ascii.eqb_refl, IH. reflexivity.
Qed.

Lemma component_no_sep (s : string) : is_component s = true -> has_char "/" s = false.
Proof.
  unfold is_component. intros [_ H]%andb_true_iff.
  now apply negb_true_iff in H.
Qed.

Lemma component_nonempty (s : string) : is_component s = true -> s <> "".
Proof.
  unfold is_component. intros [H _]%andb_true_iff.
  apply negb_true_iff in H. now apply String.eqb_neq.
Qed.

Lemma name_component (s : string) : is_name s = true -> is_component s = true.
Proof. unfold is_name. intros [[H _]%andb_true_iff _]%andb_true_iff. exact H. Qed.

Lemma join_cons (x y : string) (l : list string) :
  Py.join "/" (x :: y :: l) = x +:+ "/" +:+ Py.join "/" (y :: l).
Proof. reflexivity. Qed.

Lemma join_app (l1 l2 : list string) :
  l1 <> [] -> l2 <> [] ->
  Py.join "/" (l1 ++ l2) = Py.join "/" l1 +:+ "/" +:+ Py.join "/" l2.
Proof.
  intros H1 H2. induction l1 as [|x l1 IH]; [contradiction|].
  destruct l1 as [|y l1].
  - destruct l2; [contradiction | reflexivity].
  - cbn [app]. rewrite !join_cons.
    change (y :: l1 ++ l2) with ((y :: l1) ++ l2).
    rewrite IH by discriminate. now rewrite !append_assoc.
Qed.

(** Splitting a joined list of components gives the list back. *)
Lemma split_join (l : list string) :
  l <> [] -> Forall (fun c => is_component c = true) l ->
  Py.split "/" (Py.join "/" l) = l.
Proof.
  intros Hne Hall. induction Hall as [|x l Hx Hall IH]; [contradiction|].
  destruct l as [|y l].
  - cbn. apply split_no_sep, component_no_sep, Hx.
  - rewrite join_cons. change ("/" +:+ ?t) with (String "/" t).
    rewrite split_app_sep, IH by discriminate.
    rewrite (split_no_sep _ _ (component_no_sep _ Hx)). reflexivity.
Qed.

Lemma split_join_then (l : list string) (rest : string) :
  l <> [] -> Forall (fun c => is_component c = true) l ->
  Py.split "/" (Py.join "/" l +:+ "/" +:+ rest) = l ++ Py.split "/" rest.
Proof.
  intros Hne Hall. change ("/" +:+ rest) with (String "/" rest).
  rewrite split_app_sep, split_join by assumption. reflexivity.
Qed.

Lemma endswith_app (a c : string) :
  c <> "" -> Py.endswith (a +:+ c) "/" = Py.endswith c "/".
Proof.
  intros Hc. induction a as [|x a IH]; [reflexivity|].
  rewrite append_cons. cbn [Py.endswith]. rewrite IH.
  replace (String.eqb (String x (a +:+ c)) "/") with false; [reflexivity|].
  symmetry. apply String.eqb_neq. intros [= _ E].
  destruct a; [contradiction | discriminate].
Qed.

Lemma endswith_no_sep (s : string) :
  has_char "/" s = false -> Py.endswith s "/" = false.
Proof.
  induction s as [|x s IH]; [reflexivity|].
  cbn [has_char Py.endswith]. intros [Hx Hs]%orb_false_iff.
  rewrite (IH Hs), orb_false_r. apply String.eqb_neq. intros [= -> _].
  discriminate.
Qed.

Lemma startswith_sep_cons (x : ascii) (s : string) :
  Py.startswith (String x s) "/" = Ascii.eqb x "/".
Proof.
  unfold Py.startswith.
  change (String.prefix "/" (String x s))
    with (if ascii_dec "/" x then String.prefix "" s else false).
  destruct (ascii_dec "/" x) as [<-|Hne].
  - destruct s; reflexivity.
  - symmetry. apply Ascii.eqb_neq. congruence.
Qed.

Lemma startswith_sep_component (s : string) :
  is_component s = true -> Py.startswith s "/" = false.
Proof.
  intros Hc. pose proof (component_no_sep _ Hc) as Hs.
  destruct s as [|x s]; [reflexivity|]. cbn [has_char] in Hs.
  apply orb_false_iff in Hs as [Hx _].
  rewrite startswith_sep_cons. exact Hx.
Qed.

End StrFacts.

Module StatusBarFacts.
Import StatusBar.

Lemma init_reachable : reachable init.
Proof. left; cbn; lia. Qed.

Lemma update_reachable s : reachable s -> reachable (update_status_bar s).
Proof.
  unfold reachable, update_status_bar; cbn.
  intros [[Hs Hr] | [Hs Hr]]; rewrite Hs;
    destruct (Z.eqb_spec (state s) 0), (Z.eqb_spec (state s) 7); cbn; lia.
Qed.

Lemma ticks_reachable n : reachable (ticks n).
Proof.
  induction n as [|n IH]; [apply init_reachable|].
  apply update_reachable, IH.
Qed.

Lemma ticks_add n m : ticks (n + m) = Nat.iter n update_status_bar (ticks m).
Proof. unfold ticks. apply Nat.iter_add. Qed.

(** Fourteen updates bring every reachable bar back to the same column,
    direction and frame. *)
Lemma lap s :
  reachable s ->
  Nat.iter 14 update_status_bar s
  = {| state := state s; step := step s; status := frame (state s) |}.
Proof.
  destruct s as [p d f]; unfold reachable; cbn [state step].
  intros [[-> Hr] | [-> Hr]].
  - assert (p = 1 \/ p = 2 \/ p = 3 \/ p = 4 \/ p = 5 \/ p = 6 \/ p = 7)
      as Hp by lia.
    repeat (destruct Hp as [-> | Hp]; [reflexivity|]). subst p; reflexivity.
  - assert (p = 0 \/ p = 1 \/ p = 2 \/ p = 3 \/ p = 4 \/ p = 5 \/ p = 6)
      as Hp by lia.
    repeat (destruct Hp as [-> | Hp]; [reflexivity|]). subst p; reflexivity.
Qed.

Lemma status_after_tick n : status (ticks (S n)) = frame (state (ticks (S n))).
Proof. reflexivity. Qed.

(** C4, as stated, fails: the bar starts in column 7, not 0; after seven
    ticks it is in column 0 and after eight in column 1. *)
Lemma C4_counterexample :
  ~ (state (ticks 0) = 0 /\ state (ticks 7) = 7 /\ state (ticks 8) = 6).
Proof. intros (H & _). vm_compute in H. discriminate H. Qed.

(** C4 (amended): the marker starts at tick 0 in column 7 with step +1,
    the first tick reverses it, after 7 ticks it is in column 0
    (leftmost), after 8 ticks it has reversed again and is in column 1;
    column and direction are periodic with period 14 and the column stays
    within 0..7; every tick renders the frame
    '[' + column spaces + '=' + (7 - column) spaces + ']', which depends
    on the tick count only. *)
Theorem C4_animator_ping_pong :
  state (ticks 0) = 7 /\ step (ticks 0) = 1 /\
  state (ticks 1) = 6 /\ step (ticks 1) = -1 /\
  state (ticks 7) = 0 /\
  state (ticks 8) = 1 /\ step (ticks 8) = 1 /\
  (forall n, state (ticks (14 + n)) = state (ticks n) /\
             step (ticks (14 + n)) = step (ticks n)) /\
  (forall n, 0 <= state (ticks n) <= 7) /\
  (forall n, status (ticks (S n)) = frame (state (ticks (S n))) /\
             status (ticks (14 + S n)) = status (ticks (S n))) /\
  (forall p, frame p =
     "[" +:+ Py.repeat_char " " (Z.to_nat p) +:+ "=" +:+
     Py.repeat_char " " (Z.to_nat (7 - p)) +:+ "]").
Proof.
  repeat split; try reflexivity.
  - rewrite ticks_add, lap by apply ticks_reachable. reflexivity.
  - rewrite ticks_add, lap by apply ticks_reachable. reflexivity.
  - destruct (ticks_reachable n) as [[_ H] | [_ H]]; lia.
  - destruct (ticks_reachable n) as [[_ H] | [_ H]]; lia.
  - rewrite ticks_add, lap by apply ticks_reachable. reflexivity.
Qed.

End StatusBarFacts.

(** ** The pattern compiler *)

Module PatternFacts.

Lemma compile_fallback `{Host} : Re.compile re_host ".*" = Some any_run.
Proof. reflexivity. Qed.

Lemma any_run_matches (name : string) : Re.match_ any_run name = true.
Proof.
  unfold any_run, Re.match_; cbn.
  destruct (String.length name); [reflexivity | apply orb_true_r].
Qed.

(** [pat2regex] always returns. *)
Lemma pat2regex_total `{Host} (patterns : list string) :
  exists regex ev, pat2regex patterns = Some (regex, ev).
Proof.
  unfold pat2regex.
  destruct (Re.compile re_host (regex_source patterns)) as [r|]; [eauto|].
  rewrite compile_fallback; cbn; eauto.
Qed.

Lemma initialize_total `{Host} (settings : Settings) :
  exists b ev, initialize settings = Some (b, ev).
Proof.
  unfold initialize.
  destruct (pat2regex_total (default [] (file_exclude_patterns settings)))
    as (r1 & e1 & ->).
  destruct (pat2regex_total (default [] (folder_exclude_patterns settings)))
    as (r2 & e2 & ->).
  cbn; eauto.
Qed.

(** C5: when compiling the pattern set raises, [pat2regex] still returns:
    its matcher accepts every name (so everything is excluded) and one
    error message naming the pattern list is shown; [initialize] installs
    that matcher and browsing goes on with it. *)
Theorem C5_compile_failure_falls_back_to_match_all `{Host}
    (patterns : list string) :
  Re.compile re_host (regex_source patterns) = None ->
  (exists fallback,
      pat2regex patterns
      = Some (fallback, [error_message (InvalidPatterns patterns)]) /\
      forall name, Re.match_ fallback name = true) /\
  (forall settings,
      file_exclude_patterns settings = Some patterns ->
      exists b ev,
        initialize settings = Some (b, ev) /\
        (forall name, exclude_file b name = true) /\
        In (error_message (InvalidPatterns patterns)) ev).
Proof.
  intros Hfail.
  assert (pat2regex patterns
          = Some (any_run, [error_message (InvalidPatterns patterns)])) as Hp.
  { unfold pat2regex. rewrite Hfail, compile_fallback. reflexivity. }
  split.
  - exists any_run. split; [exact Hp | apply any_run_matches].
  - intros settings Hs. unfold initialize. rewrite Hs.
    change (default [] (Some patterns)) with patterns.
    rewrite Hp; cbn.
    destruct (pat2regex_total (default [] (folder_exclude_patterns settings)))
      as (r2 & e2 & ->).
    cbn. eexists _, _. split; [reflexivity|]. cbn. split.
    + apply any_run_matches.
    + left; reflexivity.
Qed.

Lemma C5_witness :
  (exists fallback,
      @pat2regex posix_host ["("]
      = Some (fallback, [error_message (InvalidPatterns ["("])]) /\
      forall name, Re.match_ fallback name = true) /\
  (forall settings,
      file_exclude_patterns settings = Some ["("] ->
      exists b ev,
        @initialize posix_host settings = Some (b, ev) /\
        (forall name, exclude_file b name = true) /\
        In (error_message (InvalidPatterns ["("])) ev).
Proof.
  apply (@C5_compile_failure_falls_back_to_match_all posix_host ["("]).
  reflexivity.
Defined.

(** The three documented matches: with the pattern list ["*.txt"] the name
    "foo.txt" matches, with ["*.md"] it does not, and "a.b" matches with
    ["a.?"]; each list compiles without an error message. *)
Lemma glob_examples `{Host} :
  (exists rx, pat2regex ["*.txt"] = Some (rx, []) /\
              Re.match_ rx "foo.txt" = true) /\
  (exists rx, pat2regex ["*.md"] = Some (rx, []) /\
              Re.match_ rx "foo.txt" = false) /\
  (exists rx, pat2regex ["a.?"] = Some (rx, []) /\
              Re.match_ rx "a.b" = true).
Proof.
  repeat split; eexists; (split; [reflexivity | vm_compute; reflexivity]).
Qed.

End PatternFacts.

(** ** The classifier table *)

Module ClassifierFacts.

Lemma contains_spec {V} (d : gmap (option string) V) k :
  contains d k = true <-> is_Some (d !! k).
Proof. unfold contains. apply bool_decide_eq_true. Qed.

Lemma contains_false {V} (d : gmap (option string) V) k :
  contains d k = false <-> d !! k = None.
Proof.
  unfold contains. rewrite bool_decide_eq_false, eq_None_not_Some. tauto.
Qed.

Lemma add_fallbacks_wildcard `{Host} m :
  add_fallbacks m !! Some ".*" = Some (default file_fallback (m !! Some ".*")).
Proof.
  unfold add_fallbacks.
  destruct (contains m (Some ".*")) eqn:E1.
  - apply contains_spec in E1 as [v Hv].
    destruct (contains m None); rewrite ?lookup_insert_ne by discriminate;
      rewrite Hv; reflexivity.
  - apply contains_false in E1.
    destruct (contains _ None); rewrite ?lookup_insert_ne by discriminate;
      rewrite lookup_insert_eq, E1; reflexivity.
Qed.

Lemma add_fallbacks_folder `{Host} m :
  add_fallbacks m !! None = Some (default folder_fallback (m !! None)).
Proof.
  unfold add_fallbacks.
  set (m1 := if contains m (Some ".*") then m else _).
  assert (m1 !! None = m !! None) as Hm1.
  { subst m1. destruct (contains m (Some ".*")); [reflexivity|].
    apply lookup_insert_ne; discriminate. }
  destruct (contains m1 None) eqn:E.
  - apply contains_spec in E as [v Hv]. rewrite Hv. rewrite <- Hm1, Hv. reflexivity.
  - apply contains_false in E. rewrite lookup_insert_eq, <- Hm1, E. reflexivity.
Qed.

Lemma add_fallbacks_other `{Host} m (ext : string) :
  ext <> ".*" -> add_fallbacks m !! Some ext = m !! Some ext.
Proof.
  intros Hne. unfold add_fallbacks.
  destruct (contains m (Some ".*")), (contains _ None);
    rewrite ?lookup_insert_ne by congruence; reflexivity.
Qed.

Lemma initialize_icons `{Host} settings b ev :
  initialize settings = Some (b, ev) ->
  file_type_icons b = add_fallbacks (configured settings).
Proof.
  unfold initialize. intros Hi.
destruct (PatternFacts.pat2regex_total
    (default [] (file_exclude_patterns settings))) as (r1 & e1 & E1).
destruct (PatternFacts.pat2regex_total
    (default [] (folder_exclude_patterns settings))) as (r2 & e2 & E2).
rewrite E1, E2 in Hi. cbn in Hi.
injection Hi as <- _. reflexivity.
Qed.

(** The key that a file extension is looked up under is in the table. *)
Lemma file_key_present b (ext : string) :
  is_Some (file_type_icons b !! Some ".*") ->
  is_Some (file_type_icons b !! Some (file_key b ext)).
Proof.
  intros Hw. unfold file_key.
  destruct (contains (file_type_icons b) (Some ext)) eqn:E; cbn; [|exact Hw].
  apply contains_spec, E.
Qed.

(** C7: [initialize] returns for every configuration and the table it
    builds holds the keys '.*' and None, with the built-in categories
    when the configuration omits them; an extension that the
    configuration does not map is looked up under '.*' and gets the
    wildcard category, a directory ([None]) gets the directory category,
    and no lookup of the listing operations raises [KeyError]. *)
Theorem C7_classifier_lookup_total `{Host} (settings : Settings) :
  exists b ev wild folder,
    initialize settings = Some (b, ev) /\
    getitem (file_type_icons b) (Some ".*") = Py.Ok wild /\
    getitem (file_type_icons b) None = Py.Ok folder /\
    wild = default file_fallback (configured settings !! Some ".*") /\
    folder = default folder_fallback (configured settings !! None) /\
    (forall ext : string,
        configured settings !! Some ext = None ->
        getitem (file_type_icons b) (Some (file_key b ext)) = Py.Ok wild) /\
    (forall ext : string,
        exists c, getitem (file_type_icons b) (Some (file_key b ext)) = Py.Ok c).
Proof.
  destruct (PatternFacts.initialize_total settings) as (b & ev & Hi).
  pose proof (initialize_icons _ _ _ Hi) as Hicons.
  exists b, ev, (default file_fallback (configured settings !! Some ".*")),
    (default folder_fallback (configured settings !! None)).
  assert (file_type_icons b !! Some ".*"
    = Some (default file_fallback (configured settings !! Some ".*"))) as Hw.
  { rewrite Hicons. apply add_fallbacks_wildcard. }
  assert (file_type_icons b !! None
    = Some (default folder_fallback (configured settings !! None))) as Hf.
  { rewrite Hicons. apply add_fallbacks_folder. }
  repeat split; try assumption.
  - unfold getitem. rewrite Hw. reflexivity.
  - unfold getitem. rewrite Hf. reflexivity.
  - intros ext Habs. unfold file_key.
    destruct (contains (file_type_icons b) (Some ext)) eqn:E; cbn.
    + destruct (String.eqb_spec ext ".*") as [-> | Hne].
      * unfold getitem. rewrite Hw. reflexivity.
      * apply contains_spec in E as [v Hv].
        rewrite Hicons, add_fallbacks_other, Habs in Hv by exact Hne.
        discriminate.
    + unfold getitem. rewrite Hw. reflexivity.
  - intros ext.
    destruct (file_key_present b ext) as [c Hc]; [rewrite Hw; eauto|].
    exists c. unfold getitem. rewrite Hc. reflexivity.
Qed.

End ClassifierFacts.

(** ** The saved-paths table *)

Module SessionFacts.

(** C8: dismissing the panel (index -1) when the table holds [saved] for
    the window: the entry is removed, so that a later query with the
    default [[]] gives the empty list; a non-empty [saved] is copied to
    the clipboard joined by newlines and its length is reported, an
    empty one writes nothing; for ["a"; "b"] the clipboard receives
    "a", newline, "b". *)
Theorem C8_dismissal_flushes_saved_paths `{Host}
    (b : Browser) (self : Session) (fs : FileSystem) (p : Panel)
    (primary : bool) (w : World) (saved : list string) :
  path_list w !! window_id self = Some saved ->
  exists w',
    on_done b self fs p (-1) primary w = Py.Ok (w', None) /\
    path_list w' = delete (window_id self) (path_list w) /\
    default [] (path_list w' !! window_id self) = [] /\
    (saved = [] -> trace w' = trace w) /\
    (saved <> [] ->
       trace w' = trace w ++
         [set_clipboard (Py.join (String Re.newline "") saved);
          status_message
            ("Copied " +:+ str_of_nat (List.length saved) +:+ " paths")]) /\
    (saved = ["a"; "b"] ->
       trace w' = trace w ++
         [set_clipboard a_newline_b; status_message "Copied 2 paths"]).
Proof.
  intros Hs. unfold on_done, pop_path_list. cbn [Z.eqb Pos.eqb]. rewrite Hs.
  cbn [Py.bind].
  destruct saved as [|x saved'].
  - eexists; repeat split; cbn; try reflexivity; try congruence.
    rewrite lookup_delete_eq; reflexivity.
  - eexists; repeat split; cbn; try reflexivity; try congruence.
    + rewrite lookup_delete_eq; reflexivity.
    + rewrite <- app_assoc; reflexivity.
    + intros [= -> ->]. rewrite <- app_assoc; reflexivity.
Qed.

Lemma C8_witness :
  exists w',
    @on_done posix_host default_browser sample_session locked_fs
      {| paths := []; items := []; curdir := "/proj" |} (-1) false
      {| path_list := {[ 1 := ["a"; "b"] ]}; trace := [] |}
    = Py.Ok (w', None) /\
    path_list w' = delete 1 ({[ 1 := ["a"; "b"] ]} : gmap Z (list string)) /\
    default [] (path_list w' !! 1) = [] /\
    (["a"; "b"] = [] -> trace w' = []) /\
    (["a"; "b"] <> [] ->
       trace w' = [] ++
         [set_clipboard (Py.join (String Re.newline "") ["a"; "b"]);
          status_message
            ("Copied " +:+ str_of_nat (List.length ["a"; "b"]) +:+ " paths")]) /\
    (["a"; "b"] = ["a"; "b"] ->
       trace w' = [] ++
         [set_clipboard a_newline_b; status_message "Copied 2 paths"]).
Proof.
  apply (@C8_dismissal_flushes_saved_paths posix_host).
  apply lookup_singleton_eq.
Defined.

(** C9: when the selected entry is a directory other than the listed
    one and browsing it raises, the callback returns normally: the
    message of the exception goes to the status bar, the same panel
    (same paths, items and directory) is shown again, and the
    saved-paths table is as before. *)
Theorem C9_failed_descent_redisplays `{Host}
    (b : Browser) (self : Session) (fs : FileSystem) (p : Panel)
    (idx : Z) (primary : bool) (w : World)
    (path : string) (item : QuickPanelItem) (e : Py.exn) :
  idx <> -1 ->
  index (paths p) idx = Py.Ok path ->
  index (items p) idx = Py.Ok item ->
  item_kind item = KIND_DIRECTORY ->
  path <> curdir p ->
  browse b self fs path w = Py.Raise e ->
  exists w',
    on_done b self fs p idx primary w = Py.Ok (w', Some p) /\
    path_list w' = path_list w /\
    trace w' = trace w ++
      [status_message (Py.str_exn e); show_quick_panel_call (items p)].
Proof.
  intros Hidx Hp Hi Hk Hne Hb. unfold on_done.
  destruct (Z.eqb_spec idx (-1)) as [|_]; [contradiction|].
  rewrite Hp, Hi; cbn [Py.bind]. rewrite Hk; cbn [kind_eqb].
  destruct (String.eqb_spec path (curdir p)) as [|_]; [contradiction|].
  cbn [negb]. rewrite Hb.
  destruct p as [ps its cd]; cbn.
  eexists; repeat split. cbn. rewrite <- app_assoc; reflexivity.
Qed.

Lemma C9_witness :
  exists p w1,
    @browse posix_host default_browser sample_session locked_fs "/proj"
      {| path_list := {[ 1 := [] ]}; trace := [] |}
    = Py.Ok (w1, p) /\
    exists w',
      @on_done posix_host default_browser sample_session locked_fs p 3 false w1
      = Py.Ok (w', Some p) /\
      path_list w' = path_list w1 /\
      trace w' = trace w1 ++
        [status_message "[Errno 13] Permission denied";
         show_quick_panel_call (items p)].
Proof.
  eexists _, _. split; [vm_compute; reflexivity|].
  eapply (@C9_failed_descent_redisplays posix_host)
    with (path := "/proj/secret") (e := Py.OSError "[Errno 13] Permission denied").
  - lia.
  - vm_compute; reflexivity.
  - vm_compute; reflexivity.
  - reflexivity.
  - discriminate.
  - vm_compute; reflexivity.
Defined.

(** C10: the save-path command always reports 'Saved <path>'; when the
    window has no entry in the table the table is unchanged, when it
    has one the path is appended to its list, and the entries of other
    windows are as before in both cases. *)
Theorem C10_save_path_touches_only_an_existing_entry
    (window : Z) (path : string) (w : World) :
  trace (save_path window path w)
  = trace w ++ [status_message ("Saved " +:+ path)] /\
  (path_list w !! window = None ->
     path_list (save_path window path w) = path_list w) /\
  (forall l,
     path_list w !! window = Some l ->
     path_list (save_path window path w)
     = <[window := l ++ [path]]> (path_list w)) /\
  (forall other,
     other <> window ->
     path_list (save_path window path w) !! other = path_list w !! other).
Proof.
  unfold save_path; cbn. repeat split.
  - intros ->; reflexivity.
  - intros l ->; reflexivity.
  - intros other Hne. destruct (path_list w !! window); [|reflexivity].
    apply lookup_insert_ne; congruence.
Qed.

End SessionFacts.

(** ** Listing one directory *)

Module BrowseFacts.
Import ClassifierFacts.

Lemma append_nonempty_r (a c : string) : c <> "" -> a +:+ c <> "".
Proof. destruct a; cbn; [tauto | discriminate]. Qed.

Lemma append_nonempty_l (a c : string) : a <> "" -> a +:+ c <> "".
Proof. destruct a; cbn; [tauto | discriminate]. Qed.

Lemma normpath_nonempty (path : string) : PosixPath.normpath path <> "".
Proof.
  unfold PosixPath.normpath.
  destruct (String.eqb path ""); [discriminate|].
  match goal with |- context [String.eqb ?x ""] =>
    destruct (String.eqb_spec x "") as [|Hne]; [discriminate | exact Hne] end.
Qed.

Lemma replace_nonempty (old : ascii) (new path : string) :
  new <> "" -> path <> "" -> Py.replace old new path <> "".
Proof.
  intros Hn Hp. destruct path as [|c path']; [contradiction|]. cbn.
  apply append_nonempty_l. destruct (Ascii.eqb c old); [exact Hn | discriminate].
Qed.

Lemma join2_nonempty (path leaf : string) :
  leaf <> "" -> PosixPath.join2 path leaf <> "".
Proof.
  intros Hl. unfold PosixPath.join2.
  destruct (Py.startswith leaf "/"); [exact Hl|].
  destruct (_ || _); repeat apply append_nonempty_r; exact Hl.
Qed.

Lemma initialize_well_formed `{Host} settings b ev :
  initialize settings = Some (b, ev) -> well_formed b.
Proof.
  intros Hi. pose proof (initialize_icons _ _ _ Hi) as Hicons.
  unfold initialize in Hi.
  destruct (PatternFacts.pat2regex_total
    (default [] (file_exclude_patterns settings))) as (r1 & e1 & E1).
  destruct (PatternFacts.pat2regex_total
    (default [] (folder_exclude_patterns settings))) as (r2 & e2 & E2).
  rewrite E1, E2 in Hi. cbn in Hi. injection Hi as <- _.
  split; cbn.
  - rewrite add_fallbacks_folder; eauto.
  - rewrite add_fallbacks_wildcard; eauto.
  - intros path Hp. destruct (is_windows && _); [|exact Hp].
    apply replace_nonempty; [discriminate | exact Hp].
  - intros path leaf Hl. destruct (is_windows && _).
    + apply append_nonempty_r, append_nonempty_r, Hl.
    + apply join2_nonempty, Hl.
Qed.

Section Listing.
Context `{Host} (b : Browser) (self : Session).

Lemma relative_path_ok (absolute : string) :
  absolute <> "" -> exists r, relative_path b self absolute = Py.Ok r.
Proof.
  intros Ha. unfold relative_path, PosixPath.relpath.
  destruct (String.eqb_spec absolute "") as [|_]; [contradiction|].
  match goal with |- context [match ?l with [] => _ | _ => _ end] =>
    destruct l end; cbn; eauto.
Qed.

Lemma make_item_ok (entry absolute : string) ext k fti :
  absolute <> "" ->
  file_type_icons b !! ext = Some fti ->
  exists it,
    make_item b self entry absolute ext k = Py.Ok it /\
    trigger it = entry /\ annotation it = name fti /\ item_kind it = k.
Proof.
  intros Ha Hk. unfold make_item.
  destruct (relative_path_ok absolute Ha) as [r ->]. cbn [Py.bind].
  unfold action_tags, getitem. rewrite Hk. cbn [Py.bind].
  eexists; repeat split.
Qed.

Lemma browse_entry_ok (fs : FileSystem) (curdir : string) acc (entry : string) :
  well_formed b -> entry <> "" ->
  exists ps its,
    browse_entry b self fs curdir acc entry
    = Py.Ok (fst acc ++ ps, snd acc ++ its) /\
    List.length ps = List.length its.
Proof.
  intros Hwf He. unfold browse_entry.
  destruct entry as [|c entry']; [contradiction|].
  set (entry := String c entry') in *.
  assert (forall ext k, is_Some (file_type_icons b !! ext) ->
    exists it,
    make_item b self entry (join_path b curdir entry) ext k = Py.Ok it)
    as Hmk.
  { intros ext k [fti Hf].
    destruct (make_item_ok entry (join_path b curdir entry) ext k fti)
      as (it & -> & _); eauto. apply Hwf, He. }
  destruct (Ascii.eqb c "." && negb (show_hidden_files b)).
  { exists [], []. rewrite !app_nil_r. destruct acc; split; reflexivity. }
  destruct (isfile fs (join_path b curdir entry)).
  - destruct (in_list _ _).
    { exists [], []. rewrite !app_nil_r. destruct acc; split; reflexivity. }
    destruct (Hmk (Some (file_key b (PosixPath.splitext entry).2)) KIND_FILE)
      as [it ->]; [apply file_key_present, Hwf|].
    cbn. exists [join_path b curdir entry], [it]. split; reflexivity.
  - destruct (Hmk None KIND_DIRECTORY) as [it ->]; [apply Hwf|].
    cbn. exists [join_path b curdir entry], [it]. split; reflexivity.
Qed.

Lemma browse_entries_ok (fs : FileSystem) (curdir : string) (entries : list string) :
  well_formed b -> Forall (fun e => e <> "") entries ->
  forall acc, exists ps its,
    for_each (browse_entry b self fs curdir) entries acc
    = Py.Ok (fst acc ++ ps, snd acc ++ its) /\
    List.length ps = List.length its.
Proof.
  intros Hwf Hall. induction Hall as [|e entries He _ IH]; intros acc.
  - exists [], []. rewrite !app_nil_r. destruct acc; split; reflexivity.
  - cbn [for_each].
    destruct (browse_entry_ok fs curdir acc e Hwf He) as (ps & its & -> & Hl).
    cbn [Py.bind].
    destruct (IH (fst acc ++ ps, snd acc ++ its)) as (ps' & its' & -> & Hl').
    exists (ps ++ ps'), (its ++ its'). cbn [fst snd].
    rewrite !app_assoc. split; [reflexivity|].
    rewrite !length_app. congruence.
Qed.

End Listing.

(** C1: for a browser set up by [initialize] and a directory that
    [os.listdir] can read, [browse] returns a panel of at least two
    entries; the first is the parent pseudo-entry '..' and the second
    the listed directory itself, both of directory kind, annotated
    'parent ' and 'current ' followed by the name of the directory
    category, hence differently; the panel's paths start with the parent
    directory and the directory itself. *)
Theorem C1_browse_starts_with_parent_and_current `{Host}
    (settings : Settings) (b : Browser) (ev : list event) (self : Session)
    (fs : FileSystem) (dir : string) (w : World) (entries : list string) :
  initialize settings = Some (b, ev) ->
  dir <> "" ->
  listdir fs (normalize_path b dir) = Py.Ok entries ->
  Forall (fun e => e <> "") entries ->
  exists w' p folder parent current more_items more_paths,
    browse b self fs dir w = Py.Ok (w', p) /\
    items p = parent :: current :: more_items /\
    paths p =
      normalize_path b (PosixPath.abspath getcwd (PosixPath.join dir [".."]))
      :: normalize_path b dir :: more_paths /\
    List.length more_paths = List.length more_items /\
    (2 <= List.length (items p))%nat /\
    curdir p = normalize_path b dir /\
    file_type_icons b !! None = Some folder /\
    trigger parent = ".." /\
    item_kind parent = KIND_DIRECTORY /\
    annotation parent = "parent " +:+ name folder /\
    trigger current = normalize_path b dir /\
    item_kind current = KIND_DIRECTORY /\
    annotation current = "current " +:+ name folder /\
    annotation parent <> annotation current.
Proof.
  intros Hi Hd Hls Hall.
  pose proof (initialize_well_formed _ _ _ Hi) as Hwf.
  destruct (wf_folder b Hwf) as [folder Hf].
  unfold browse.
  set (pardir := normalize_path b _).
  set (cur := normalize_path b dir) in *.
  assert (pardir <> "") as Hpar by apply Hwf, normpath_nonempty.
  assert (cur <> "") as Hcur by apply Hwf, Hd.
  destruct (make_item_ok b self ".." pardir None KIND_DIRECTORY folder Hpar Hf)
    as (it0 & -> & Ht0 & Ha0 & Hk0).
  destruct (make_item_ok b self cur cur None KIND_DIRECTORY folder Hcur Hf)
    as (it1 & -> & Ht1 & Ha1 & Hk1).
  cbn [Py.bind]. rewrite Hls. cbn [Py.bind].
  destruct (browse_entries_ok b self fs cur entries Hwf Hall
    ([pardir; cur],
    [prefix_annotation "parent " it0; prefix_annotation "current " it1]))
    as (ps & its & -> & Hlen).
  cbn [Py.bind fst snd show_quick_panel].
  eexists _, _, folder, _, _, its, ps.
  repeat split; cbn; try eassumption; try reflexivity.
  - lia.
  - rewrite Ha0; reflexivity.
  - rewrite Ha1; reflexivity.
  - discriminate.
Qed.

Lemma initialize_no_settings :
  @initialize posix_host no_settings = Some (default_browser, []).
Proof. reflexivity. Qed.

Lemma C1_witness :
  exists w' p folder parent current more_items more_paths,
    @browse posix_host default_browser sample_session locked_fs "/proj"
      empty_world = Py.Ok (w', p) /\
    items p = parent :: current :: more_items /\
    paths p = "/" :: "/proj" :: more_paths /\
    List.length more_paths = List.length more_items /\
    (2 <= List.length (items p))%nat /\
    curdir p = "/proj" /\
    file_type_icons default_browser !! None = Some folder /\
    trigger parent = ".." /\
    item_kind parent = KIND_DIRECTORY /\
    annotation parent = "parent " +:+ name folder /\
    trigger current = "/proj" /\
    item_kind current = KIND_DIRECTORY /\
    annotation current = "current " +:+ name folder /\
    annotation parent <> annotation current.
Proof.
  apply (@C1_browse_starts_with_parent_and_current posix_host
    no_settings default_browser [] _ locked_fs "/proj" _
    ["main.py"; "secret"]).
  - reflexivity.
  - discriminate.
  - reflexivity.
  - repeat constructor; discriminate.
Defined.

End BrowseFacts.

(** ** Absolute paths in normal form *)

Module PathFacts.
Import StrFacts.

Lemma prefix_cons (a c : ascii) (p s : string) :
  String.prefix (String a p) (String c s) = Ascii.eqb a c && String.prefix p s.
Proof.
  change (String.prefix (String a p) (String c s))
    with (if ascii_dec a c then String.prefix p s else false).
  destruct (ascii_dec a c) as [->|Hne].
  - rewrite Ascii.eqb_refl. reflexivity.
  - apply Ascii.eqb_neq in Hne. rewrite Hne. reflexivity.
Qed.

Lemma prefix_nil (s : string) : String.prefix "" s = true.
Proof. destruct s; reflexivity. Qed.

Lemma names_components (l : list string) : names l -> components l.
Proof. intros Hl. eapply Forall_impl; [exact Hl|]. intros c. apply name_component. Qed.

(** A joined list of components does not start with a slash, whatever
    follows it. *)
Lemma startswith_join (l : list string) (rest : string) :
  components l -> l <> [] ->
  Py.startswith (Py.join "/" l +:+ rest) "/" = false.
Proof.
  intros Hall Hne. destruct Hall as [|x l Hx _]; [contradiction|].
  pose proof (component_nonempty _ Hx) as Hx0.
  pose proof (startswith_sep_component _ Hx) as Hx1.
  destruct x as [|c x]; [contradiction|].
  rewrite startswith_sep_cons in Hx1.
  destruct l as [|y l]; [cbn [Py.join String.concat] | rewrite join_cons];
    rewrite !append_cons, startswith_sep_cons; exact Hx1.
Qed.

Lemma endswith_join (l : list string) :
  components l -> l <> [] -> Py.endswith (Py.join "/" l) "/" = false.
Proof.
  intros Hall Hne. induction Hall as [|x l Hx Hall IH]; [contradiction|].
  destruct l as [|y l].
  - apply endswith_no_sep, component_no_sep, Hx.
  - rewrite join_cons, <- append_assoc, endswith_app.
    + apply IH; discriminate.
    + inversion Hall as [|? ? Hy _]; subst.
      pose proof (component_nonempty _ Hy).
      destruct l; [assumption|]. rewrite join_cons.
      destruct y; [contradiction | discriminate].
Qed.

Lemma endswith_slashes (k : nat) : Py.endswith (Py.repeat_char "/" (S k)) "/" = true.
Proof.
  induction k as [|k IH]; [reflexivity|].
  change (Py.repeat_char "/" (S (S k))) with (String "/" (Py.repeat_char "/" (S k))).
  cbn [Py.endswith]. rewrite IH. apply orb_true_r.
Qed.

Lemma join_nonempty (l : list string) :
  components l -> l <> [] -> Py.join "/" l <> "".
Proof.
  intros Hall Hne. destruct Hall as [|x l Hx _]; [contradiction|].
  pose proof (component_nonempty _ Hx).
  destruct x; [contradiction|]. destruct l; [discriminate|].
  rewrite join_cons, append_cons. discriminate.
Qed.

(** Joining a relative path made of components onto a normal form. *)
Lemma join2_abs_of (k : nat) (comps l : list string) :
  components comps -> components l -> l <> [] ->
  PosixPath.join2 (abs_of (S k) comps) (Py.join "/" l) = abs_of (S k) (comps ++ l).
Proof.
  intros Hc Hl Hne. unfold PosixPath.join2.
  rewrite <- (append_nil_r (Py.join "/" l)) at 1.
  rewrite (startswith_join l "" Hl Hne).
  unfold abs_of. destruct comps as [|c comps].
  - cbn [Py.join String.concat app]. rewrite append_nil_r, endswith_slashes.
    rewrite orb_true_r. reflexivity.
  - rewrite endswith_app by (apply join_nonempty; [assumption | discriminate]).
    rewrite (endswith_join (c :: comps)) by (assumption || discriminate).
    rewrite orb_false_r.
    replace (String.eqb _ "") with false by reflexivity.
    rewrite join_app by (assumption || discriminate).
    rewrite append_assoc. reflexivity.
Qed.

Lemma join2_abs_of_leaf (k : nat) (comps : list string) (leaf : string) :
  components comps -> is_component leaf = true ->
  PosixPath.join2 (abs_of (S k) comps) leaf = abs_of (S k) (comps ++ [leaf]).
Proof.
  intros Hc Hl. apply (join2_abs_of k comps [leaf]); [assumption | | discriminate].
  constructor; [assumption | constructor].
Qed.


(** Joining components one by one onto a path that already ends with
    components appends them with slashes. *)
Lemma fold_join2 (pre : string) (p done : list string) :
  components p -> components done -> done <> [] ->
  fold_left PosixPath.join2 p (pre +:+ Py.join "/" done)
  = pre +:+ Py.join "/" (done ++ p).
Proof.
  intros Hp. revert done.
  induction Hp as [|x p Hx Hp IH]; intros done Hd Hne; cbn [fold_left].
  - rewrite app_nil_r. reflexivity.
  - assert (PosixPath.join2 (pre +:+ Py.join "/" done) x
            = pre +:+ Py.join "/" (done ++ [x])) as ->.
    { unfold PosixPath.join2.
      pose proof (join_nonempty done Hd Hne) as Hj.
      rewrite (startswith_sep_component _ Hx), (endswith_app _ _ Hj),
        (endswith_join done Hd Hne).
      replace (String.eqb (pre +:+ Py.join "/" done) "") with false.
      - cbn [orb]. rewrite join_app by (assumption || discriminate).
        rewrite !append_assoc. reflexivity.
      - symmetry. apply String.eqb_neq. intros E.
        destruct pre; [contradiction | discriminate]. }
    rewrite IH.
    + rewrite <- app_assoc. reflexivity.
    + apply Forall_app; split; [assumption | repeat constructor; assumption].
    + destruct done; discriminate.
Qed.


(** What [join] puts between [top] and the first component. *)
Lemma join_below (top : string) (l : list string) :
  components l -> l <> [] ->
  PosixPath.join top l
  = (if String.eqb top "" || Py.endswith top "/" then top else top +:+ "/")
    +:+ Py.join "/" l.
Proof.
  intros Hl Hne. destruct Hl as [|x l Hx Hl]; [contradiction|].
  unfold PosixPath.join. cbn [fold_left].
  set (pre := if String.eqb top "" || Py.endswith top "/" then top
              else top +:+ "/").
  assert (PosixPath.join2 top x = pre +:+ Py.join "/" [x]) as ->.
  { unfold PosixPath.join2. rewrite (startswith_sep_component _ Hx). subst pre.
    destruct (_ || _); [reflexivity | now rewrite append_assoc]. }
  apply (fold_join2 pre l [x]);
    [assumption | repeat constructor; assumption | discriminate].
Qed.

(** *** [normpath] *)

Lemma abs_of_nonempty (k : nat) (comps : list string) : abs_of (S k) comps <> "".
Proof. unfold abs_of. cbn [Py.repeat_char]. rewrite append_cons. discriminate. Qed.

Lemma initial_slashes_abs_of (k : nat) (comps : list string) :
  (k < 2)%nat -> components comps ->
  PosixPath.initial_slashes (abs_of (S k) comps) = Z.of_nat (S k).
Proof.
  intros Hk Hc. unfold PosixPath.initial_slashes, Py.startswith, abs_of.
  assert (String.prefix "/" (Py.join "/" comps) = false) as Hfirst.
  { destruct comps; [reflexivity|].
    rewrite <- (append_nil_r (Py.join "/" _)).
    apply (startswith_join _ "" Hc). discriminate. }
  destruct k as [|[|k]]; [| |lia]; cbn [Py.repeat_char];
    rewrite !append_cons, append_nil_l, !prefix_cons, Hfirst, ?prefix_nil;
    reflexivity.
Qed.

Lemma step_skip_empty (k : Z) (acc : list string) :
  PosixPath.normpath_step k acc "" = acc.
Proof. reflexivity. Qed.


Lemma name_spec (s : string) :
  is_name s = true <-> is_component s = true /\ s <> "." /\ s <> "..".
Proof.
  unfold is_name. rewrite !andb_true_iff, !negb_true_iff, !String.eqb_neq. tauto.
Qed.

Lemma step_name (k : Z) (acc : list string) (c : string) :
  is_name c = true -> PosixPath.normpath_step k acc c = acc ++ [c].
Proof.
  intros (Hc & Hd & Hdd)%name_spec. unfold PosixPath.normpath_step.
  apply component_nonempty in Hc.
  apply String.eqb_neq in Hc, Hd, Hdd. rewrite Hc, Hd, Hdd. reflexivity.
Qed.

Lemma last_name (acc : list string) :
  names acc -> String.eqb (List.last acc "") ".." = false.
Proof.
  intros Hall. induction Hall as [|x acc Hx Hall IH]; [reflexivity|].
  destruct acc as [|y acc]; [|exact IH].
  cbn [List.last]. apply String.eqb_neq. now apply name_spec in Hx.
Qed.

Lemma step_dotdot (k : Z) (acc : list string) :
  k <> 0 -> names acc -> PosixPath.normpath_step k acc ".." = removelast acc.
Proof.
  intros Hk Hall. unfold PosixPath.normpath_step.
  rewrite (last_name acc Hall). apply Z.eqb_neq in Hk. rewrite Hk.
  cbn. destruct acc; reflexivity.
Qed.

Lemma fold_names (k : Z) (l acc : list string) :
  names l -> fold_left (PosixPath.normpath_step k) l acc = acc ++ l.
Proof.
  intros Hl. revert acc. induction Hl as [|x l Hx Hl IH]; intros acc; cbn [fold_left].
  - rewrite app_nil_r. reflexivity.
  - rewrite step_name, IH, <- app_assoc by assumption. reflexivity.
Qed.




Lemma fold_skip_empties (k : Z) (n : nat) (l acc : list string) :
  fold_left (PosixPath.normpath_step k) (List.repeat "" n ++ l) acc
  = fold_left (PosixPath.normpath_step k) l acc.
Proof. induction n as [|n IH]; [reflexivity | exact IH]. Qed.

(** [normpath] on a path that starts with one or two slashes followed by
    components: the loop runs over exactly these components. *)
Lemma normpath_abs_of (k : nat) (l : list string) :
  (k < 2)%nat -> components l ->
  PosixPath.normpath (abs_of (S k) l)
  = abs_of (S k) (fold_left (PosixPath.normpath_step (Z.of_nat (S k))) l []).
Proof.
  intros Hk Hl. unfold PosixPath.normpath.
  pose proof (abs_of_nonempty k l) as Hne. apply String.eqb_neq in Hne. rewrite Hne.
  rewrite initial_slashes_abs_of by assumption.
  unfold Py.str_mul. rewrite Nat2Z.id.
  change (Py.repeat_char PosixPath.sep (S k) +:+ Py.join "/" ?c) with (abs_of (S k) c).
  assert (fold_left (PosixPath.normpath_step (Z.of_nat (S k)))
    (Py.split PosixPath.sep (abs_of (S k) l)) []
    = fold_left (PosixPath.normpath_step (Z.of_nat (S k))) l []) as ->.
  { unfold abs_of, PosixPath.sep. rewrite split_repeat_sep, fold_skip_empties.
    destruct l as [|x l]; [reflexivity|].
    rewrite split_join by (assumption || discriminate). reflexivity. }
  match goal with |- context [abs_of (S k) ?c] =>
    pose proof (abs_of_nonempty k c) as Hne' end.
  apply String.eqb_neq in Hne'. rewrite Hne'. reflexivity.
Qed.


Lemma isabs_abs_of (k : nat) (comps : list string) :
  PosixPath.isabs (abs_of (S k) comps) = true.
Proof.
  unfold PosixPath.isabs, abs_of. cbn [Py.repeat_char]. rewrite append_cons.
  apply startswith_sep_cons.
Qed.






(** *** [relpath] and the way back *)









End PathFacts.

(** ** The paths of a session *)

Module ListingFacts.
Import StrFacts PathFacts.

Lemma for_each_inv {A S} (f : S -> A -> Py.res S) (P : S -> Prop)
    (l : list A) (acc r : S) :
  P acc ->
  (forall s a s', In a l -> P s -> f s a = Py.Ok s' -> P s') ->
  for_each f l acc = Py.Ok r -> P r.
Proof.
  revert acc. induction l as [|x l IH]; intros acc Hacc Hstep; cbn [for_each].
  - intros [= <-]. exact Hacc.
  - destruct (f acc x) as [acc'|e] eqn:E; cbn [Py.bind]; [|discriminate].
    apply IH.
    + apply (Hstep acc x); [now left | assumption | assumption].
    + intros s a s' Hin. apply Hstep. now right.
Qed.

Section Posix.
Context `{Host} (b : Browser) (self : Session).
Hypothesis normalize_id : forall path, normalize_path b path = path.
Hypothesis join_posix :
  forall path leaf, join_path b path leaf = PosixPath.join2 path leaf.







End Posix.

End ListingFacts.

(** ** Walking a tree *)

Module WalkFacts.
Import StrFacts PathFacts ListingFacts.

Lemma fsnode_induction (P : fsnode -> Prop) :
  P NotDir -> P Unwalked ->
  (forall entries, Forall (fun e => P (snd e)) entries -> P (Directory entries)) ->
  forall n, P n.
Proof.
  intros Hn Hu Hd. fix IH 1. intros [|entries|]; [exact Hn | | exact Hu].
  apply Hd. revert entries. fix IHes 1. intros [|[name child] es].
  - constructor.
  - constructor; [apply IH | apply IHes].
Qed.

Lemma tree_of_names_entries (entries : list (string * fsnode)) :
  tree_of_names (Directory entries) <->
  Forall (fun e => is_name (fst e) = true /\ tree_of_names (snd e)) entries.
Proof.
  induction entries as [|[name child] es IH].
  - split; [constructor | exact (fun _ => I)].
  - split.
    + intros (Hn & Hc & Hes). constructor; [split; assumption | apply IH, Hes].
    + intros Hall. inversion Hall as [|? ? [Hn Hc] Hes]; subst.
      split; [exact Hn | split; [exact Hc | apply IH, Hes]].
Qed.

Lemma names_of_entries (f : string * fsnode -> bool) (entries : list (string * fsnode)) :
  Forall (fun e => is_name (fst e) = true /\ tree_of_names (snd e)) entries ->
  names (map fst (List.filter f entries)).
Proof.
  intros Hall. induction Hall as [|e es [He _] _ IH]; [constructor|].
  cbn [List.filter]. destruct (f e); [constructor; assumption | assumption].
Qed.

(** Every triple that [walk] yields has as root the starting point joined
    with names of directories that were all kept, and lists names. *)
Lemma walk_roots (keep : string -> bool) (tree : fsnode) :
  tree_of_names tree ->
  forall top root dirs files,
    In (root, dirs, files) (walk keep top tree) ->
    exists ds,
      names ds /\ Forall (fun d => keep d = true) ds /\
      root = PosixPath.join top ds /\ names files.
Proof.
  induction tree as [| |entries IH] using fsnode_induction;
    intros Hnames top root dirs files Hin; try contradiction.
  apply tree_of_names_entries in Hnames.
  cbn [walk] in Hin. destruct Hin as [[= <- _ <-] | Hin].
  { exists []. repeat split; [constructor | constructor |].
    apply names_of_entries, Hnames. }
  revert Hin.
  induction entries as [|[name child] es IHes]; [contradiction|].
  inversion IH as [|? ? IHchild IHrest]; subst.
  inversion Hnames as [|? ? [Hname Hchild] Hrest]; subst.
  cbn [fst snd] in *. intros Hin. apply in_app_or in Hin as [Hin | Hin].
  - destruct (is_dir child && keep name) eqn:E; [|contradiction].
    apply andb_true_iff in E as [_ Hkeep].
    destruct (IHchild Hchild _ _ _ _ Hin) as (ds & Hds & Hk & -> & Hf).
    exists (name :: ds). repeat split; try (constructor; assumption); assumption.
  - apply IHes; assumption.
Qed.

Section Posix.
Context `{Host} (b : Browser) (self : Session).
Hypothesis normalize_id : forall path, normalize_path b path = path.

Lemma list_file_paths (root : string) acc (file : string) acc' :
  list_file b self root acc file = Py.Ok acc' ->
  fst acc' = fst acc \/ fst acc' = fst acc ++ [PosixPath.join2 root file].
Proof.
  unfold list_file. rewrite normalize_id.
  destruct (exclude_file b file); [intros [= <-]; now left|].
  destruct (in_list _ _); [intros [= <-]; now left|].
  destruct (relative_path _ _ _); cbn [Py.bind]; [|discriminate].
  destruct (action_tags _ _ _ _); cbn [Py.bind]; [|discriminate].
  destruct (getitem _ _); cbn [Py.bind]; [|discriminate].
  intros [= <-]. now right.
Qed.

(** The paths of the panel that [list_files] shows. *)
Lemma list_files_paths (tree : fsnode) (top : string) (w w' : World) (p : Panel) :
  list_files b self tree top w = Py.Ok (w', p) ->
  forall x, In x (paths p) ->
    exists root dirs files f,
      In (root, dirs, files) (walk (fun d => negb (exclude_folder b d)) top tree) /\
      In f files /\ x = PosixPath.join2 root f.
Proof.
  unfold list_files.
  destruct (for_each _ _ _) as [r|] eqn:E; cbn [Py.bind]; [|discriminate].
  intros [= <- <-]. cbn [paths show_quick_panel snd].
  set (triples := walk _ top tree) in *.
  set (P := fun s : list string * list QuickPanelItem =>
              forall x, In x (fst s) ->
                exists root dirs files f,
                  In (root, dirs, files) triples /\ In f files /\
                  x = PosixPath.join2 root f).
  eapply (for_each_inv _ P); [| |exact E].
  - intros x [].
  - intros s [[root dirs] files] s' Hin Hs Hstep.
    eapply (for_each_inv _ P); [exact Hs| |exact Hstep].
    intros s1 f s2 Hf Hs1 Hstep1 x Hx.
    apply list_file_paths in Hstep1 as [Es | Es]; rewrite Es in Hx;
      [now apply Hs1|].
    apply in_app_or in Hx as [Hx | [<-|[]]]; [now apply Hs1|].
    exists root, dirs, files, f. auto.
Qed.

(** Where [normalize_path] leaves paths as [os.path.join] builds them:
    for names [ds ++ [d]] leading from the starting point [top] to a
    directory named [d] that is excluded, nothing of the form
    top/ds/d/... is listed, whatever the tree holds there and however
    deep. *)
Lemma nothing_beneath_a_pruned_folder
    (tree : fsnode) (top : string) (w w' : World) (p : Panel)
    (ds : list string) (d rest : string) :
  tree_of_names tree ->
  list_files b self tree top w = Py.Ok (w', p) ->
  names (ds ++ [d]) ->
  exclude_folder b d = true ->
  ~ In (PosixPath.join top (ds ++ [d]) +:+ "/" +:+ rest) (paths p).
Proof.
  intros Htree Hlist Hchain Hex Hin.
  destruct (list_files_paths tree top w w' p Hlist _ Hin)
    as (root & dirs & files & f & Htriple & Hf & Heq).
  destruct (walk_roots _ tree Htree _ _ _ _ Htriple)
    as (kept & Hkept & Hkeep & -> & Hfiles).
  assert (names (kept ++ [f])) as Hkf.
  { apply Forall_app; split; [assumption|]. repeat constructor.
    rewrite Forall_forall in Hfiles. apply Hfiles, list_elem_of_In, Hf. }
  change (PosixPath.join2 (PosixPath.join top kept) f)
    with (fold_left PosixPath.join2 [f] (fold_left PosixPath.join2 kept top)) in Heq.
  rewrite <- fold_left_app in Heq. fold (PosixPath.join top (kept ++ [f])) in Heq.
  assert (forall (l : list string) x, l ++ [x] <> []) as Hsnoc
    by (intros [|? ?] ?; discriminate).
  rewrite (join_below top (ds ++ [d])), (join_below top (kept ++ [f])) in Heq
    by first [apply names_components; assumption | apply Hsnoc].
  rewrite append_assoc in Heq. apply append_cancel_l in Heq.
  apply (f_equal (Py.split "/")) in Heq.
  rewrite split_join_then in Heq
    by first [apply names_components; assumption | apply Hsnoc].
  rewrite split_join in Heq
    by first [apply names_components; assumption | apply Hsnoc].
  destruct (exists_last (split_not_nil "/" rest)) as (r' & z & Er).
  rewrite Er, !app_assoc in Heq. apply app_inj_tail in Heq as [Heq _].
  assert (In d kept) as Hd.
  { rewrite <- Heq. apply in_or_app. left. apply in_or_app. right. now left. }
  rewrite Forall_forall in Hkeep. apply list_elem_of_In, Hkeep in Hd.
  rewrite Hex in Hd. discriminate.
Qed.

End Posix.

End WalkFacts.

(** ** Relative paths and the anchor *)

Module AnchorFacts.
Import StrFacts PathFacts ListingFacts WalkFacts.

Lemma initialize_posix `{Host} (settings : Settings) (b : Browser) (ev : list event) :
  is_windows = false ->
  initialize settings = Some (b, ev) ->
  (forall path, normalize_path b path = path) /\
  (forall path leaf, join_path b path leaf = PosixPath.join2 path leaf).
Proof.
  intros Hposix Hi. unfold initialize in Hi.
  destruct (PatternFacts.pat2regex_total
              (default [] (file_exclude_patterns settings))) as (r1 & e1 & E1).
  destruct (PatternFacts.pat2regex_total
              (default [] (folder_exclude_patterns settings))) as (r2 & e2 & E2).
  rewrite E1, E2, Hposix in Hi. cbn in Hi. injection Hi as <- _.
  split; reflexivity.
Qed.

Section Posix.
Context `{Host} (b : Browser) (self : Session).
Hypothesis normalize_id : forall path, normalize_path b path = path.
Hypothesis join_posix :
  forall path leaf, join_path b path leaf = PosixPath.join2 path leaf.




End Posix.

(** The first panel of a new instance is a panel of its session. *)
Lemma new_browser_shown `{Host} (b : Browser) (fs : FileSystem) (window : Z)
    (path : string) (w w' : World) (self : Session) (p : Panel) :
  lists_names fs ->
  new_browser b fs window path w = (w', Py.Ok (Some (self, p))) ->
  shown b self p /\
  (init_path self = path \/ init_path self = PosixPath.dirname path).
Proof.
  intros Hfs. unfold new_browser.
  destruct (isfile fs path); [|destruct (negb (isdir fs path)); [discriminate|]];
    match goal with |- context [browse b ?s fs ?d ?w1] =>
      destruct (browse b s fs d w1) as [[w2 p2]|e] eqn:Eb end;
    try discriminate; intros [= <- <- <-];
    (split; [exact (shown_browse b _ fs _ _ _ Hfs Eb) | cbn; tauto]).
Qed.



(** With unix-style paths on Windows an absolute anchor in normal form
    is not enough: [join_path] puts a '/' after the root, the entry
    "proj" of the root gets the absolute path "//proj", its relative path
    is "proj", and joining and normalizing gives "/proj". *)
Lemma unix_style_entry_does_not_lead_back :
  ~ (forall (self : Session) (p : Panel),
       PosixPath.isabs (init_path self) = true ->
       PosixPath.normpath (init_path self) = init_path self ->
       @shown windows_host unix_style_browser self p ->
       forall absolute, In absolute (paths p) ->
         exists relative,
           @relative_path windows_host unix_style_browser self absolute
           = Py.Ok relative /\
           PosixPath.normpath (PosixPath.join (init_path self) [relative])
           = absolute).
Proof.
  intros Hclaim.
  pose (self := {| window_id := 1; init_path := "/" |}).
  destruct (@browse windows_host unix_style_browser self tower_fs "/"
              {| path_list := ∅; trace := [] |}) as [[w' p]|] eqn:Eb;
    [|vm_compute in Eb; discriminate].
  assert (In "//proj" (paths p)) as Hin.
  { vm_compute in Eb. injection Eb as _ <-. right; right; left; reflexivity. }
  destruct (Hclaim self p eq_refl eq_refl) with (absolute := "//proj")
    as (rel & Hrel & Hback); [|exact Hin|].
  - eapply (@shown_browse windows_host) with (fs := tower_fs); [|exact Eb].
    intros path entries [= <-]. repeat constructor.
  - vm_compute in Hrel. injection Hrel as <-. vm_compute in Hback. discriminate.
Qed.



End AnchorFacts.

(** ** The compiled pattern set and glob matching *)

Module GlobFacts.
Import StrFacts.

(** *** What [re] parses the translated patterns into *)

Lemma parse_literal (c : ascii) (rest : string) (cur : Re.frame) (stack : list Re.frame) :
  is_plain c = true ->
  Ascii.eqb c "*" = false -> Ascii.eqb c "." = false -> Ascii.eqb c "?" = false ->
  Re.parse (String c rest) cur stack = Re.parse rest (Re.push_item (Re.Lit c) cur) stack.
Proof.
  destruct c as [[] [] [] [] [] [] [] []]; intros H1 H2 H3 H4;
    cbv in H1, H2, H3, H4; first [discriminate | reflexivity].
Qed.

Lemma convert_cons (c : ascii) (pattern : string) :
  convert (String c pattern)
  = match transtable c with Some r => r | None => String c "" end
    +:+ convert pattern.
Proof. reflexivity. Qed.

Lemma parse_glob_char (c : ascii) (rest : string) (br its : list Re.regex)
    (stack : list Re.frame) :
  is_plain c = true ->
  Re.parse (match transtable c with Some r => r | None => String c "" end +:+ rest)
    (Re.Frame br its) stack
  = Re.parse rest (Re.Frame br (glob_item c :: its)) stack.
Proof.
  intros Hc. unfold transtable, glob_item.
  destruct (Ascii.eqb_spec c "*") as [->|H1]; [reflexivity|].
  destruct (Ascii.eqb_spec c ".") as [->|H2]; [reflexivity|].
  destruct (Ascii.eqb_spec c "?") as [->|H3]; [reflexivity|].
  apply Ascii.eqb_neq in H1, H2, H3.
  rewrite append_cons, append_nil_l.
  apply parse_literal; assumption.
Qed.

Lemma parse_convert (pattern rest : string) (br its : list Re.regex)
    (stack : list Re.frame) :
  plain_pattern pattern = true ->
  Re.parse (convert pattern +:+ rest) (Re.Frame br its) stack
  = Re.parse rest (Re.Frame br (rev (glob_items pattern) ++ its)) stack.
Proof.
  revert its. induction pattern as [|c pattern IH]; intros its Hp.
  - reflexivity.
  - cbn [plain_pattern] in Hp. apply andb_true_iff in Hp as [Hc Hp].
    rewrite convert_cons, append_assoc, parse_glob_char by assumption.
    rewrite IH by assumption. cbn [glob_items rev].
    rewrite <- app_assoc. reflexivity.
Qed.

Lemma parse_patterns (ps : list string) :
  forall (p rest : string) (br : list Re.regex) (stack : list Re.frame),
    Forall (fun q => plain_pattern q = true) (p :: ps) ->
    Re.parse (Py.join "|" (map convert (p :: ps)) +:+ rest) (Re.Frame br []) stack
    = Re.parse rest
        (Re.Frame (br ++ map branch_of (removelast (p :: ps)))
           (rev (glob_items (List.last (p :: ps) ""))))
        stack.
Proof.
  induction ps as [|q ps IH]; intros p rest br stack Hall;
    inversion Hall as [|? ? Hp Hps]; subst.
  - cbn [map Py.join String.concat removelast List.last].
    rewrite parse_convert, !app_nil_r by assumption. reflexivity.
  - change (Py.join "|" (map convert (p :: q :: ps)))
      with (convert p +:+ "|" +:+ Py.join "|" (map convert (q :: ps))).
    rewrite !append_assoc, parse_convert, app_nil_r by assumption.
    rewrite append_cons, append_nil_l.
    change (Re.parse (String "|" ?r) ?cur ?st)
      with (Re.parse r (Re.Frame (Re.branches cur ++ [Re.seq_of (Re.items cur)]) []) st).
    cbn [Re.branches Re.items]. rewrite IH by assumption.
    change (removelast (p :: q :: ps)) with (p :: removelast (q :: ps)).
    change (List.last (p :: q :: ps) "") with (List.last (q :: ps) "").
    cbn [map]. rewrite <- app_assoc. reflexivity.
Qed.

Lemma parse_source (p : string) (ps : list string) :
  Forall (fun q => plain_pattern q = true) (p :: ps) ->
  Re.parse (regex_source (p :: ps)) (Re.Frame [] []) []
  = Re.Compiled (compiled_set p ps).
Proof.
  intros Hall. unfold regex_source.
  change ("^(?:" +:+ ?x) with (String "^" (String "(" (String "?" (String ":" x)))).
  change (Re.parse (String "^" (String "(" (String "?" (String ":" ?x)))) ?cur ?st)
    with (Re.parse x (Re.Frame [] []) (Re.push_item Re.AtBeginning cur :: st)).
  rewrite parse_patterns by assumption. reflexivity.
Qed.

(** *** What the parsed pattern matches *)

Lemma run_fold_cat (rs : list Re.regex) :
  forall r bol s k,
    Re.run (fold_left Re.Cat rs r) bol s k
    = Re.run r bol s (fun b t => run_list rs b t k).
Proof.
  induction rs as [|x rs IH]; intros r bol s k; [reflexivity|].
  cbn [fold_left]. rewrite IH. reflexivity.
Qed.

Lemma run_seq_of (its : list Re.regex) bol s k :
  Re.run (Re.seq_of its) bol s k = run_list (rev its) bol s k.
Proof.
  unfold Re.seq_of. destruct (rev its) as [|r rs]; [reflexivity|].
  apply run_fold_cat.
Qed.

Lemma run_fold_alt (rs : list Re.regex) :
  forall r bol s k,
    Re.run (fold_left Re.Alt rs r) bol s k
    = Re.run r bol s k || existsb (fun x => Re.run x bol s k) rs.
Proof.
  induction rs as [|x rs IH]; intros r bol s k; cbn [fold_left existsb].
  - rewrite orb_false_r. reflexivity.
  - rewrite IH. cbn [Re.run]. rewrite orb_assoc. reflexivity.
Qed.

Lemma run_close_frame (br its : list Re.regex) bol s k :
  Re.run (Re.close_frame (Re.Frame br its)) bol s k
  = existsb (fun x => Re.run x bol s k) (br ++ [Re.seq_of its]).
Proof.
  unfold Re.close_frame. cbn [Re.branches Re.items].
  destruct (br ++ [Re.seq_of its]) as [|r rs] eqn:E.
  - destruct br; discriminate.
  - apply run_fold_alt.
Qed.

Lemma at_end_no_newline (bol : bool) (s : string) :
  has_char Re.newline s = false -> at_end bol s = String.eqb s "".
Proof.
  intros Hs. unfold at_end. rewrite andb_true_r.
  destruct (String.eqb_spec s (String Re.newline "")) as [->|_];
    [discriminate | apply orb_false_r].
Qed.

Lemma run_star_any (K : bool -> string -> bool) (f : string -> bool) (s : string) :
  (forall b t, has_char Re.newline t = false -> K b t = f t) ->
  has_char Re.newline s = false ->
  forall bol,
    Re.run (Re.MaxRepeat false Re.Any) bol s K
    = (fix any_run (name : string) : bool :=
         f name ||
         match name with
         | "" => false
         | String _ name' => any_run name'
         end) s.
Proof.
  intros HK. induction s as [|a s IH]; intros Hs bol.
  - cbn. rewrite orb_false_r. apply HK. reflexivity.
  - cbn [has_char] in Hs. apply orb_false_iff in Hs as [Ha Hs].
    specialize (IH Hs false). cbn [Re.run] in IH.
    cbn [Re.run String.length]. rewrite Ha. cbn [negb andb].
    replace (String.length s <? S (String.length s))%nat with true
      by (symmetry; apply Nat.ltb_lt; lia).
    cbn [andb]. rewrite IH, orb_comm. f_equal.
    apply HK. cbn [has_char]. rewrite Ha. exact Hs.
Qed.

(** On names without a newline the items of a pattern match what the
    glob pattern matches. *)
Lemma run_glob_items (pattern : string) :
  forall bol s,
    has_char Re.newline s = false ->
    run_list (glob_items pattern) bol s at_end = glob_match pattern s.
Proof.
  induction pattern as [|c pattern IH]; intros bol s Hs.
  - apply at_end_no_newline, Hs.
  - cbn [glob_items run_list glob_match]. unfold glob_item.
    destruct (Ascii.eqb c "*").
    { apply run_star_any; [|exact Hs]. intros b t Ht. apply IH, Ht. }
    destruct s as [|a s]; [destruct (Ascii.eqb c "?"); reflexivity|].
    cbn [has_char] in Hs. apply orb_false_iff in Hs as [Ha Hs].
    destruct (Ascii.eqb c "?"); cbn [Re.run orb].
    + rewrite Ha, IH by assumption. reflexivity.
    + rewrite IH by assumption. reflexivity.
Qed.

Lemma run_branch_of (pattern : string) bol s :
  has_char Re.newline s = false ->
  Re.run (branch_of pattern) bol s at_end = glob_match pattern s.
Proof.
  intros Hs. unfold branch_of.
  rewrite run_seq_of, rev_involutive. apply run_glob_items, Hs.
Qed.

Lemma existsb_map_ext {A B} (g : A -> B) (f : B -> bool) (h : A -> bool)
    (l : list A) :
  (forall x, f (g x) = h x) -> existsb f (map g l) = existsb h l.
Proof.
  intros Hfg. induction l as [|x l IH]; [reflexivity|].
  cbn [map existsb]. rewrite Hfg, IH. reflexivity.
Qed.

Lemma match_compiled_set (p : string) (ps : list string) (name : string) :
  has_char Re.newline name = false ->
  Re.match_ (Re.Parsed (compiled_set p ps)) name = glob_set_match (p :: ps) name.
Proof.
  intros Hs. unfold Re.match_, compiled_set. cbn [Re.run andb].
  change (fun (b : bool) (t : string) =>
            (String.eqb t "" || String.eqb t (String Re.newline "")) && true)
    with at_end.
  rewrite run_close_frame.
  change (Re.seq_of (rev (glob_items (List.last (p :: ps) ""))))
    with (branch_of (List.last (p :: ps) "")).
  change (map branch_of (removelast (p :: ps)) ++ [branch_of (List.last (p :: ps) "")])
    with (map branch_of (removelast (p :: ps)) ++ map branch_of [List.last (p :: ps) ""]).
  rewrite <- map_app, <- app_removelast_last by discriminate.
  unfold glob_set_match.
  apply existsb_map_ext. intros q. apply run_branch_of, Hs.
Qed.

Lemma pat2regex_plain `{Host} (p : string) (ps : list string) :
  Forall (fun q => plain_pattern q = true) (p :: ps) ->
  pat2regex (p :: ps) = Some (Re.Parsed (compiled_set p ps), []).
Proof.
  intros Hall. unfold pat2regex, Re.compile.
  rewrite parse_source by assumption. reflexivity.
Qed.

(** C6: the compiled matcher does not match the entire name against the
    glob set.  [pat2regex] translates '*', '?' and '.' only, escapes no
    other character and compiles without [re.DOTALL], so that, each list
    compiling without an error message:
    - under ["*.txt"] the name made of "a", a newline and "b.txt" is not
      matched, although it is a run of characters followed by ".txt", and
      "foo.txt" followed by a newline is matched, although ".txt" is not
      at its end;
    - under ["lost+found"] the name "lost+found" is not matched and
      "losttfound" is, '+' being read as a repetition;
    - under ["$RECYCLE.BIN"] the name "$RECYCLE.BIN" is not matched, '$'
      being read as the end of the name.
    [glob_set_match] is the matching that the claim describes. *)
Theorem C6_matcher_diverges_from_glob_matching :
  (exists rx,
     @pat2regex posix_host ["*.txt"] = Some (rx, []) /\
     Re.match_ rx (String "a" (String Re.newline "b.txt")) = false /\
     glob_set_match ["*.txt"] (String "a" (String Re.newline "b.txt")) = true /\
     Re.match_ rx ("foo.txt" +:+ String Re.newline "") = true /\
     glob_set_match ["*.txt"] ("foo.txt" +:+ String Re.newline "") = false) /\
  (exists rx,
     @pat2regex posix_host ["lost+found"] = Some (rx, []) /\
     Re.match_ rx "lost+found" = false /\
     glob_set_match ["lost+found"] "lost+found" = true /\
     Re.match_ rx "losttfound" = true /\
     glob_set_match ["lost+found"] "losttfound" = false) /\
  (exists rx,
     @pat2regex posix_host ["$RECYCLE.BIN"] = Some (rx, []) /\
     Re.match_ rx "$RECYCLE.BIN" = false /\
     glob_set_match ["$RECYCLE.BIN"] "$RECYCLE.BIN" = true).
Proof.
  repeat split; eexists; (split; [reflexivity|]); repeat split;
    vm_compute; reflexivity.
Qed.

(** X19: where the matcher does match as a glob.  For a non-empty
    pattern list in which every character other than '*', '?' and '.' is
    one that [re] reads as itself, and for a name without a newline, the
    pattern list compiles without an error message and the compiled
    matcher accepts the name exactly when one of the patterns matches the
    entire name as a glob, '*' standing for any run of characters, '?'
    for one character and '.' for a dot; in particular "foo.txt" is
    matched under ["*.txt"] and not under ["*.md"], and "a.b" is matched
    under ["a.?"]. *)
Theorem X19_plain_patterns_match_as_globs `{Host} :
  (forall (patterns : list string) (name : string),
      patterns <> [] ->
      Forall (fun p => plain_pattern p = true) patterns ->
      has_char Re.newline name = false ->
      exists rx,
        pat2regex patterns = Some (rx, []) /\
        Re.match_ rx name = glob_set_match patterns name) /\
  (exists rx, pat2regex ["*.txt"] = Some (rx, []) /\
              Re.match_ rx "foo.txt" = true) /\
  (exists rx, pat2regex ["*.md"] = Some (rx, []) /\
              Re.match_ rx "foo.txt" = false) /\
  (exists rx, pat2regex ["a.?"] = Some (rx, []) /\
              Re.match_ rx "a.b" = true).
Proof.
  split; [|apply PatternFacts.glob_examples].
  intros [|p ps] name Hne Hall Hname; [contradiction|].
  exists (Re.Parsed (compiled_set p ps)). split.
  - apply pat2regex_plain, Hall.
  - apply match_compiled_set, Hname.
Qed.

Lemma X19_witness :
  exists rx,
    @pat2regex posix_host ["*.md"; "*.txt"; "a.?"] = Some (rx, []) /\
    Re.match_ rx "notes.txt" = glob_set_match ["*.md"; "*.txt"; "a.?"] "notes.txt".
Proof.
  apply (proj1 (@X19_plain_patterns_match_as_globs posix_host)).
  - discriminate.
  - repeat constructor.
  - reflexivity.
Defined.

End GlobFacts.

(** ** What exactly [browse] lists *)

Module ListingExact.
Import ClassifierFacts BrowseFacts.

Section Listing.
Context `{Host} (b : Browser) (self : Session).
Hypothesis Hwf : well_formed b.

Lemma browse_entry_exact (fs : FileSystem) (cur : string) acc (entry : string) :
  entry <> "" ->
  (is_listed b fs cur entry = false ->
   browse_entry b self fs cur acc entry = Py.Ok acc) /\
  (is_listed b fs cur entry = true ->
   exists it,
     browse_entry b self fs cur acc entry
     = Py.Ok (fst acc ++ [join_path b cur entry], snd acc ++ [it]) /\
     item_view it = entry_view b fs cur entry).
Proof.
  intros He. unfold browse_entry, is_listed, entry_view, entry_key, entry_kind.
  destruct entry as [|c entry']; [contradiction|].
  set (entry := String c entry') in *.
  change (is_hidden entry) with (Ascii.eqb c ".").
  destruct (Ascii.eqb c "." && negb (show_hidden_files b)); cbn [negb andb];
    [split; [reflexivity | discriminate]|].
  assert (join_path b cur entry <> "") as Habs by apply Hwf, He.
  destruct (isfile fs (join_path b cur entry)); cbn [andb].
  - destruct (in_list _ _); cbn [negb]; [split; [reflexivity | discriminate]|].
    split; [discriminate | intros _].
    destruct (file_key_present b (PosixPath.splitext entry).2 (wf_wildcard b Hwf))
      as [fti Hf].
    destruct (make_item_ok b self entry _ _ KIND_FILE fti Habs Hf)
      as (it & -> & Ht & Ha & Hk).
    exists it. split; [reflexivity|].
    unfold item_view, category_name. rewrite Hf, Ht, Ha, Hk. reflexivity.
  - cbn [negb]. split; [discriminate | intros _].
    destruct (wf_folder b Hwf) as [fti Hf].
    destruct (make_item_ok b self entry _ _ KIND_DIRECTORY fti Habs Hf)
      as (it & -> & Ht & Ha & Hk).
    exists it. split; [reflexivity|].
    unfold item_view, category_name. rewrite Hf, Ht, Ha, Hk. reflexivity.
Qed.

Lemma browse_entries_exact (fs : FileSystem) (cur : string) (entries : list string) :
  Forall (fun e => e <> "") entries ->
  forall acc, exists its,
    for_each (browse_entry b self fs cur) entries acc
    = Py.Ok (fst acc ++ map (join_path b cur) (List.filter (is_listed b fs cur) entries),
             snd acc ++ its) /\
    map item_view its
    = map (entry_view b fs cur) (List.filter (is_listed b fs cur) entries).
Proof.
  intros Hall. induction Hall as [|e entries He _ IH]; intros acc.
  - exists []. cbn. rewrite !app_nil_r. destruct acc; split; reflexivity.
  - cbn [for_each List.filter].
    destruct (browse_entry_exact fs cur acc e He) as [Hskip Hadd].
    destruct (is_listed b fs cur e).
    + destruct (Hadd eq_refl) as (it & -> & Hv). cbn [Py.bind].
      destruct (IH (fst acc ++ [join_path b cur e], snd acc ++ [it]))
        as (its & -> & Hvs).
      exists (it :: its). cbn [fst snd map]. rewrite <- !app_assoc, Hv, Hvs.
      split; reflexivity.
    + rewrite (Hskip eq_refl). cbn [Py.bind]. apply IH.
Qed.

(** The panel and the world that [browse] gives for a readable directory. *)
Lemma browse_result (fs : FileSystem) (dir : string) (w : World)
    (entries : list string) :
  dir <> "" ->
  listdir fs (normalize_path b dir) = Py.Ok entries ->
  Forall (fun e => e <> "") entries ->
  exists parent current its,
    let cur := normalize_path b dir in
    let shown_entries := List.filter (is_listed b fs cur) entries in
    let p := {| paths :=
                  normalize_path b
                    (PosixPath.abspath getcwd (PosixPath.join dir [".."]))
                  :: cur :: map (join_path b cur) shown_entries;
                items := parent :: current :: its;
                curdir := cur |} in
    browse b self fs dir w = Py.Ok (emit (show_quick_panel_call (items p)) w, p) /\
    item_view parent = ("..", "parent " +:+ category_name b None, KIND_DIRECTORY) /\
    item_view current = (cur, "current " +:+ category_name b None, KIND_DIRECTORY) /\
    map item_view its = map (entry_view b fs cur) shown_entries.
Proof.
  intros Hd Hls Hall. cbn zeta.
  destruct (wf_folder b Hwf) as [folder Hf].
  unfold browse.
  set (pardir := normalize_path b _).
  set (cur := normalize_path b dir) in *.
  assert (pardir <> "") as Hpar by apply Hwf, normpath_nonempty.
  assert (cur <> "") as Hcur by apply Hwf, Hd.
  destruct (make_item_ok b self ".." pardir None KIND_DIRECTORY folder Hpar Hf)
    as (it0 & -> & Ht0 & Ha0 & Hk0).
  destruct (make_item_ok b self cur cur None KIND_DIRECTORY folder Hcur Hf)
    as (it1 & -> & Ht1 & Ha1 & Hk1).
  cbn [Py.bind]. rewrite Hls. cbn [Py.bind].
  destruct (browse_entries_exact fs cur entries Hall
              ([pardir; cur],
               [prefix_annotation "parent " it0; prefix_annotation "current " it1]))
    as (its & -> & Hvs).
  cbn [Py.bind fst snd show_quick_panel app].
  exists (prefix_annotation "parent " it0), (prefix_annotation "current " it1), its.
  unfold item_view, category_name. rewrite Hf. cbn [prefix_annotation trigger
    annotation item_kind]. rewrite Ht0, Ha0, Hk0, Ht1, Ha1, Hk1.
  repeat split. exact Hvs.
Qed.

End Listing.

(** X1: for a browser set up by [initialize] and a readable directory,
    [browse] lists, after the parent and the directory itself, exactly the
    entries that are not hidden (unless hidden files are shown) and are not
    files of an ignored type, in the order in which [os.listdir] gave them;
    each is shown under its name, with its kind and the name of its
    category; the panel is shown once and the saved paths are left
    alone. *)
Theorem X1_browse_lists_the_visible_entries_in_order `{Host}
    (settings : Settings) (b : Browser) (ev : list event) (self : Session)
    (fs : FileSystem) (dir : string) (w : World) (entries : list string) :
  initialize settings = Some (b, ev) ->
  dir <> "" ->
  listdir fs (normalize_path b dir) = Py.Ok entries ->
  Forall (fun e => e <> "") entries ->
  exists w' p,
    let cur := normalize_path b dir in
    let shown_entries := List.filter (is_listed b fs cur) entries in
    browse b self fs dir w = Py.Ok (w', p) /\
    skipn 2 (paths p) = map (join_path b cur) shown_entries /\
    map item_view (skipn 2 (items p)) = map (entry_view b fs cur) shown_entries /\
    trace w' = trace w ++ [show_quick_panel_call (items p)] /\
    path_list w' = path_list w.
Proof.
  intros Hi Hd Hls Hall.
  pose proof (initialize_well_formed _ _ _ Hi) as Hwf.
  destruct (browse_result b self Hwf fs dir w entries Hd Hls Hall)
    as (parent & current & its & Hb & _ & _ & Hvs).
  cbn zeta in *. eexists _, _. split; [exact Hb|].
  cbn [paths items skipn]. repeat split. exact Hvs.
Qed.

Lemma X1_witness :
  exists w' p,
    @browse posix_host default_browser sample_session locked_fs "/proj" empty_world
    = Py.Ok (w', p) /\
    skipn 2 (paths p) = ["/proj/main.py"; "/proj/secret"] /\
    map item_view (skipn 2 (items p))
    = [("main.py", "file", KIND_FILE); ("secret", "folder", KIND_DIRECTORY)] /\
    trace w' = [show_quick_panel_call (items p)] /\
    path_list w' = ∅.
Proof.
  apply (@X1_browse_lists_the_visible_entries_in_order posix_host no_settings
           default_browser [] sample_session locked_fs "/proj" empty_world
           ["main.py"; "secret"]).
  - reflexivity.
  - discriminate.
  - reflexivity.
  - repeat constructor; discriminate.
Defined.

End ListingExact.

(** ** Selecting entries *)

Module NavigationFacts.
Import StrFacts PathFacts ListingFacts.

Lemma make_item_inv `{Host} (b : Browser) (self : Session)
    (entry absolute : string) ext k it :
  make_item b self entry absolute ext k = Py.Ok it ->
  trigger it = entry /\ item_kind it = k.
Proof.
  unfold make_item.
  destruct (relative_path _ _ _); cbn [Py.bind]; [|discriminate].
  destruct (action_tags _ _ _ _); cbn [Py.bind]; [|discriminate].
  destruct (getitem _ _); cbn [Py.bind]; [|discriminate].
  intros [= <-]. split; reflexivity.
Qed.

Lemma browse_entry_extends `{Host} (b : Browser) (self : Session)
    (fs : FileSystem) (cur : string) acc (e : string) acc' :
  browse_entry b self fs cur acc e = Py.Ok acc' ->
  exists ps its, fst acc' = fst acc ++ ps /\ snd acc' = snd acc ++ its.
Proof.
  unfold browse_entry. destruct e as [|c e']; [discriminate|].
  assert (exists ps its, fst acc = fst acc ++ ps /\ snd acc = snd acc ++ its) as Hsame
    by (exists [], []; rewrite !app_nil_r; split; reflexivity).
  destruct (_ && _); [intros [= <-]; exact Hsame|].
  destruct (isfile fs _).
  - destruct (in_list _ _); [intros [= <-]; exact Hsame|].
    destruct (make_item _ _ _ _ _ _); cbn [Py.bind]; [|discriminate].
    intros [= <-]. eexists _, _. split; reflexivity.
  - destruct (make_item _ _ _ _ _ _); cbn [Py.bind]; [|discriminate].
    intros [= <-]. eexists _, _. split; reflexivity.
Qed.

(** The shape of every panel that [browse] shows, and what it does to the
    world. *)
Lemma browse_shape `{Host} (b : Browser) (self : Session) (fs : FileSystem)
    (dir : string) (w w' : World) (p : Panel) :
  browse b self fs dir w = Py.Ok (w', p) ->
  exists parent current ps its,
    paths p
    = normalize_path b (PosixPath.abspath getcwd (PosixPath.join dir [".."]))
      :: curdir p :: ps /\
    items p = parent :: current :: its /\
    item_kind parent = KIND_DIRECTORY /\
    item_kind current = KIND_DIRECTORY /\
    curdir p = normalize_path b dir /\
    w' = emit (show_quick_panel_call (items p)) w.
Proof.
  unfold browse.
  destruct (make_item _ _ _ _ _ _) as [it0|] eqn:E0; cbn [Py.bind]; [|discriminate].
  destruct (make_item _ _ _ _ _ KIND_DIRECTORY) as [it1|] eqn:E1 in |- *;
    cbn [Py.bind]; [|discriminate].
  destruct (listdir fs _) as [entries|]; cbn [Py.bind]; [|discriminate].
  destruct (for_each _ _ _) as [r|] eqn:E; cbn [Py.bind]; [|discriminate].
  intros [= <- <-]. cbn [paths items curdir show_quick_panel fst snd].
  apply make_item_inv in E0 as [_ Hk0], E1 as [_ Hk1].
  set (acc0 := (_, _)) in E.
  assert (exists ps its, fst r = fst acc0 ++ ps /\ snd r = snd acc0 ++ its)
    as (ps & its & -> & ->).
  { eapply (for_each_inv _
              (fun s => exists ps its, fst s = fst acc0 ++ ps /\ snd s = snd acc0 ++ its));
      [| |exact E].
    - exists [], []. rewrite !app_nil_r. split; reflexivity.
    - intros s e s' _ (ps & its & Hp & Hi) Hstep.
      apply browse_entry_extends in Hstep as (ps' & its' & -> & ->).
      exists (ps ++ ps'), (its ++ its'). rewrite Hp, Hi, <- !app_assoc.
      split; reflexivity. }
  subst acc0. cbn [fst snd app].
  eexists _, _, ps, its. repeat split; assumption.
Qed.

Lemma index_head {A} (x : A) (l : list A) : index (x :: l) 0 = Py.Ok x.
Proof.
  unfold index. cbn [List.length Z.ltb Z.compare].
  replace (0 <? Z.of_nat (S (List.length l))) with true
    by (symmetry; apply Z.ltb_lt; lia).
  reflexivity.
Qed.

Lemma index_second {A} (x y : A) (l : list A) : index (x :: y :: l) 1 = Py.Ok y.
Proof.
  unfold index. cbn [List.length Z.ltb Z.compare].
  replace (1 <? Z.of_nat (S (S (List.length l)))) with true
    by (symmetry; apply Z.ltb_lt; lia).
  reflexivity.
Qed.

Lemma index_in {A} (l : list A) (i : Z) (x : A) : index l i = Py.Ok x -> In x l.
Proof.
  unfold index. destruct (_ && _); [|discriminate].
  destruct (l !! _) as [y|] eqn:E; [|discriminate].
  intros [= <-]. apply list_elem_of_In. eapply list_elem_of_lookup_2, E.
Qed.

(** X2: a selection (any index other than -1) that the callback handles
    without raising leaves the table of saved paths as it was and only
    adds calls to the trace, whether it opens a file, shows the same panel
    again, enters a directory or fails to. *)
Theorem X2_selection_keeps_saved_paths `{Host}
    (b : Browser) (self : Session) (fs : FileSystem) (p : Panel)
    (idx : Z) (primary : bool) (w w' : World) (q : option Panel) :
  idx <> -1 ->
  on_done b self fs p idx primary w = Py.Ok (w', q) ->
  path_list w' = path_list w /\
  exists calls, trace w' = trace w ++ calls.
Proof.
  intros Hidx. unfold on_done.
  destruct (Z.eqb_spec idx (-1)) as [|_]; [contradiction|].
  destruct (index (paths p) idx) as [path|]; cbn [Py.bind]; [|discriminate].
  destruct (index (items p) idx) as [item|]; cbn [Py.bind]; [|discriminate].
  destruct p as [ps its cd]. cbn [paths items curdir show_quick_panel].
  destruct (kind_eqb _ _).
  { destruct primary; intros [= <- _]; (split; [reflexivity|]); cbn [emit trace].
    - rewrite <- app_assoc. eauto.
    - eauto. }
  destruct (negb _); [|intros [= <- _]; split; [reflexivity | cbn; eauto]].
  destruct (browse b self fs path w) as [[w1 p1]|e] eqn:Eb.
  - intros [= <- _]. apply browse_shape in Eb as (? & ? & ? & ? & _ & _ & _ & _ & _ & ->).
    split; [reflexivity | cbn; eauto].
  - intros [= <- _]. split; [reflexivity|]. cbn [emit trace].
    rewrite <- app_assoc. eauto.
Qed.

Lemma X2_witness :
  exists p w1 w',
    @browse posix_host default_browser sample_session locked_fs "/proj"
      {| path_list := {[ 1 := ["/saved"] ]}; trace := [] |} = Py.Ok (w1, p) /\
    @on_done posix_host default_browser sample_session locked_fs p 2 false w1
    = Py.Ok (w', None) /\
    path_list w' = path_list w1 /\
    exists calls, trace w' = trace w1 ++ calls.
Proof.
  eexists _, _, _. split; [vm_compute; reflexivity|].
  match goal with |- ?A /\ _ => assert (Hd : A) by (vm_compute; reflexivity) end.
  split; [exact Hd|].
  eapply (@X2_selection_keeps_saved_paths posix_host default_browser sample_session
            locked_fs _ 2 false); [|exact Hd].
  lia.
Defined.

(** X3: in a panel that [browse] has shown, selecting the second entry,
    the listed directory itself, shows the same panel again and does
    nothing else: no directory is read, whatever the file system holds by
    then, and nothing is opened. *)
Theorem X3_current_entry_redisplays `{Host}
    (b : Browser) (self : Session) (fs : FileSystem) (dir : string)
    (w w1 : World) (p : Panel) :
  browse b self fs dir w = Py.Ok (w1, p) ->
  forall (fs' : FileSystem) (primary : bool) (w2 : World),
    on_done b self fs' p 1 primary w2
    = Py.Ok (emit (show_quick_panel_call (items p)) w2, Some p).
Proof.
  intros Hb fs' primary w2.
  apply browse_shape in Hb as (parent & current & ps & its & Hp & Hi & _ & Hk & _ & _).
  destruct p as [ps0 its0 cd]. cbn [paths items curdir] in Hp, Hi. subst ps0 its0.
  unfold on_done. cbn [Z.eqb paths items curdir]. rewrite !index_second.
  cbn [Py.bind]. rewrite Hk. cbn [kind_eqb]. rewrite String.eqb_refl.
  reflexivity.
Qed.

Lemma X3_witness :
  exists w1 p,
    @browse posix_host default_browser sample_session locked_fs "/proj" empty_world
    = Py.Ok (w1, p) /\
    forall (fs' : FileSystem) (primary : bool) (w2 : World),
      @on_done posix_host default_browser sample_session fs' p 1 primary w2
      = Py.Ok (emit (show_quick_panel_call (items p)) w2, Some p).
Proof.
  eexists _, _.
  match goal with |- ?A /\ _ => assert (Hb : A) by (vm_compute; reflexivity) end.
  split; [exact Hb|].
  exact (@X3_current_entry_redisplays posix_host default_browser sample_session
           locked_fs "/proj" empty_world _ _ Hb).
Defined.

End NavigationFacts.

(** ** Going up *)

Module AscentFacts.
Import StrFacts PathFacts ListingFacts AnchorFacts NavigationFacts.

Lemma append_length (a b : string) :
  String.length (a +:+ b) = (String.length a + String.length b)%nat.
Proof.
  induction a as [|c a IH]; [rewrite append_nil_l; reflexivity|].
  rewrite append_cons. cbn [String.length]. rewrite IH. reflexivity.
Qed.

(** Joining a component makes a path longer. *)
Lemma join2_longer (path leaf : string) :
  is_component leaf = true ->
  (String.length path < String.length (PosixPath.join2 path leaf))%nat.
Proof.
  intros Hc. unfold PosixPath.join2.
  rewrite (startswith_sep_component _ Hc).
  pose proof (component_nonempty _ Hc) as Hne.
  assert (0 < String.length leaf)%nat by (destruct leaf; [contradiction | cbn; lia]).
  destruct (_ || _); rewrite !append_length; lia.
Qed.

(** [abspath(join(dir, '..'))] drops the last name of a path in normal
    form, and stops at the root. *)
Lemma parent_of `{Host} (k : nat) (comps : list string) :
  (k < 2)%nat -> names comps ->
  PosixPath.abspath getcwd (PosixPath.join (abs_of (S k) comps) [".."])
  = abs_of (S k) (removelast comps).
Proof.
  intros Hk Hcc. unfold PosixPath.join. cbn [fold_left].
  rewrite join2_abs_of_leaf by (apply names_components, Hcc || reflexivity).
  unfold PosixPath.abspath. rewrite isabs_abs_of.
  rewrite normpath_abs_of.
  - rewrite fold_left_app, (fold_names _ comps []) by assumption. cbn [app fold_left].
    rewrite step_dotdot by (lia || assumption). reflexivity.
  - assumption.
  - apply Forall_app; split; [apply names_components, Hcc | repeat constructor].
Qed.

(** X4: on a POSIX host, for a browser set up by [initialize], a
    directory in normal form and a name [e]: in the panel that [browse]
    shows for the child [dir/e], the first entry leads back to [dir].
    Selecting it lists [dir] again as [browse] does, and if that fails it
    reports the error and shows the child's panel again. *)
Theorem X4_parent_entry_of_a_child_leads_back `{Host}
    (settings : Settings) (b : Browser) (ev : list event) (self : Session)
    (k : nat) (fs : FileSystem) (dir e : string) (w w1 : World) (p : Panel) :
  is_windows = false ->
  initialize settings = Some (b, ev) ->
  (k < 2)%nat -> in_normal_form k dir -> is_name e = true ->
  browse b self fs (join_path b dir e) w = Py.Ok (w1, p) ->
  forall (fs' : FileSystem) (primary : bool) (w2 : World),
    on_done b self fs' p 0 primary w2
    = match browse b self fs' dir w2 with
      | Py.Ok (w3, p3) => Py.Ok (w3, Some p3)
      | Py.Raise err =>
          Py.Ok (emit (show_quick_panel_call (items p))
                   (emit (status_message (Py.str_exn err)) w2), Some p)
      end.
Proof.
  intros posix initialized Hk Hdir He Hb fs' primary w2.
  destruct (initialize_posix settings b ev posix initialized) as [Hn Hj].
  apply browse_shape in Hb as (parent & current & ps & its & Hp & Hi & Hk0 & _ & Hc & _).
  rewrite Hn, Hj in Hp, Hc.
  destruct Hdir as (cc & Hcc & ->).
  assert (PosixPath.join2 (abs_of (S k) cc) e <> abs_of (S k) cc) as Hneq.
  { intros Heq. pose proof (join2_longer (abs_of (S k) cc) e (name_component _ He)).
    rewrite Heq in *. lia. }
  rewrite join2_abs_of_leaf in Hp, Hc, Hneq
    by (apply names_components, Hcc || apply name_component, He).
  rewrite parent_of, removelast_last in Hp
    by (assumption || (apply Forall_app; split; [assumption | repeat constructor; assumption])).
  destruct p as [ps0 its0 cd]. cbn [paths items curdir] in Hp, Hi, Hc. subst ps0 its0.
  unfold on_done. cbn [Z.eqb paths items curdir]. rewrite !index_head.
  cbn [Py.bind]. rewrite Hk0. cbn [kind_eqb].
  replace (abs_of (S k) cc =? cd)%string with false
    by (symmetry; apply String.eqb_neq; rewrite Hc; congruence).
  cbn [negb]. reflexivity.
Qed.

Lemma X4_witness :
  exists w1 p,
    @browse posix_host default_browser sample_session locked_fs "/proj" empty_world
    = Py.Ok (w1, p) /\
    forall (fs' : FileSystem) (primary : bool) (w2 : World),
      @on_done posix_host default_browser sample_session fs' p 0 primary w2
      = match @browse posix_host default_browser sample_session fs' "/" w2 with
        | Py.Ok (w3, p3) => Py.Ok (w3, Some p3)
        | Py.Raise err =>
            Py.Ok (emit (show_quick_panel_call (items p))
                     (emit (status_message (Py.str_exn err)) w2), Some p)
        end.
Proof.
  eexists _, _.
  match goal with |- ?A /\ _ => assert (Hb : A) by (vm_compute; reflexivity) end.
  split; [exact Hb|].
  refine (@X4_parent_entry_of_a_child_leads_back posix_host no_settings
            default_browser [] sample_session 0 locked_fs "/" "proj" empty_world
            _ _ _ _ _ _ _ Hb).
  - reflexivity.
  - reflexivity.
  - lia.
  - exists []. split; [constructor | reflexivity].
  - reflexivity.
Defined.

(** X5: on a POSIX host, for a browser set up by [initialize]: in the
    panel that [browse] shows for a root directory ([/] or [//]) the
    parent entry is the root itself, so selecting it only shows the same
    panel again, without reading a directory. *)
Theorem X5_parent_entry_of_the_root_redisplays `{Host}
    (settings : Settings) (b : Browser) (ev : list event) (self : Session)
    (k : nat) (fs : FileSystem) (w w1 : World) (p : Panel) :
  is_windows = false ->
  initialize settings = Some (b, ev) ->
  (k < 2)%nat ->
  browse b self fs (Py.repeat_char "/" (S k)) w = Py.Ok (w1, p) ->
  forall (fs' : FileSystem) (primary : bool) (w2 : World),
    on_done b self fs' p 0 primary w2
    = Py.Ok (emit (show_quick_panel_call (items p)) w2, Some p).
Proof.
  intros posix initialized Hk Hb fs' primary w2.
  destruct (initialize_posix settings b ev posix initialized) as [Hn Hj].
  apply browse_shape in Hb as (parent & current & ps & its & Hp & Hi & Hk0 & _ & Hc & _).
  rewrite Hn in Hp, Hc.
  assert (Py.repeat_char "/" (S k) = abs_of (S k) []) as Hroot
    by (unfold abs_of; cbn [Py.join String.concat]; rewrite append_nil_r; reflexivity).
  rewrite Hroot, parent_of in Hp by (assumption || constructor).
  cbn [removelast] in Hp. rewrite <- Hroot, <- Hc in Hp.
  destruct p as [ps0 its0 cd]. cbn [paths items curdir] in Hp, Hi, Hc. subst ps0 its0.
  unfold on_done. cbn [Z.eqb paths items curdir]. rewrite !index_head.
  cbn [Py.bind]. rewrite Hk0. cbn [kind_eqb]. rewrite String.eqb_refl.
  reflexivity.
Qed.

Lemma X5_witness :
  exists w1 p,
    @browse posix_host default_browser sample_session tower_fs "/" empty_world
    = Py.Ok (w1, p) /\
    forall (fs' : FileSystem) (primary : bool) (w2 : World),
      @on_done posix_host default_browser sample_session fs' p 0 primary w2
      = Py.Ok (emit (show_quick_panel_call (items p)) w2, Some p).
Proof.
  eexists _, _.
  match goal with |- ?A /\ _ => assert (Hb : A) by (vm_compute; reflexivity) end.
  split; [exact Hb|].
  refine (@X5_parent_entry_of_the_root_redisplays posix_host no_settings
            default_browser [] sample_session 0 tower_fs empty_world
            _ _ _ _ _ Hb).
  - reflexivity.
  - reflexivity.
  - lia.
Defined.

End AscentFacts.

(** ** The deep listing *)

Module DeepListing.
Import StrFacts PathFacts ListingFacts WalkFacts NavigationFacts.

Lemma list_file_extends `{Host} (b : Browser) (self : Session)
    (root : string) acc (file : string) acc' :
  list_file b self root acc file = Py.Ok acc' ->
  exists ps its,
    fst acc' = fst acc ++ ps /\ snd acc' = snd acc ++ its /\
    List.length ps = List.length its /\
    Forall (fun it => item_kind it = KIND_FILE) its.
Proof.
  unfold list_file.
  assert (exists ps its,
             fst acc = fst acc ++ ps /\ snd acc = snd acc ++ its /\
             List.length ps = List.length its /\
             Forall (fun it => item_kind it = KIND_FILE) its) as Hsame
    by (exists [], []; rewrite !app_nil_r; repeat split; constructor).
  destruct (exclude_file b file); [intros [= <-]; exact Hsame|].
  destruct (in_list _ _); [intros [= <-]; exact Hsame|].
  destruct (relative_path _ _ _); cbn [Py.bind]; [|discriminate].
  destruct (action_tags _ _ _ _); cbn [Py.bind]; [|discriminate].
  destruct (getitem _ _); cbn [Py.bind]; [|discriminate].
  intros [= <-]. eexists [_], [_]. cbn [fst snd].
  repeat split. repeat constructor.
Qed.

(** The shape of every panel that [list_files] shows. *)
Lemma list_files_shape `{Host} (b : Browser) (self : Session) (tree : fsnode)
    (top : string) (w w' : World) (p : Panel) :
  list_files b self tree top w = Py.Ok (w', p) ->
  List.length (paths p) = List.length (items p) /\
  Forall (fun it => item_kind it = KIND_FILE) (items p) /\
  curdir p = "" /\
  w' = emit (show_quick_panel_call (items p)) w.
Proof.
  unfold list_files.
  destruct (for_each _ _ _) as [r|] eqn:E; cbn [Py.bind]; [|discriminate].
  intros [= <- <-]. cbn [paths items curdir show_quick_panel].
  set (P := fun s : list string * list QuickPanelItem =>
              List.length (fst s) = List.length (snd s) /\
              Forall (fun it => item_kind it = KIND_FILE) (snd s)).
  assert (P r) as [Hlen Hkind]; [|repeat split; assumption].
  eapply (for_each_inv _ P); [| |exact E].
  - split; [reflexivity | constructor].
  - intros s [[root dirs] files] s' _ Hs Hstep.
    eapply (for_each_inv _ P); [exact Hs| |exact Hstep].
    intros s1 f s2 _ [Hl Hk] Hf.
    apply list_file_extends in Hf as (ps & its & Ep & Ei & Hlen & Hall).
    split.
    + rewrite Ep, Ei, !length_app. congruence.
    + rewrite Ei. apply Forall_app; split; assumption.
Qed.

Lemma index_same_length {A B} (l : list A) (m : list B) (i : Z) (x : A) :
  List.length l = List.length m ->
  index l i = Py.Ok x ->
  exists y, index m i = Py.Ok y /\ In y m.
Proof.
  intros Hlen. unfold index. rewrite <- Hlen.
  set (j := if i <? 0 then i + Z.of_nat (List.length l) else i).
  destruct (_ && _); [|discriminate].
  destruct (l !! Z.to_nat j) as [x'|] eqn:El; [|discriminate]. intros _.
  apply lookup_lt_Some in El. change (@length A) with (@List.length A) in El.
  rewrite Hlen in El.
  apply lookup_lt_is_Some_2 in El as [y Ey]. rewrite Ey.
  exists y. split; [reflexivity|].
  apply list_elem_of_In. eapply list_elem_of_lookup_2, Ey.
Qed.

(** X6: in a panel that [list_files] has shown, every selection of an
    entry (an index other than -1 that [paths] has) opens the file of that
    entry and reads no directory; with the primary modifier key the same
    panel is shown again, otherwise the session ends.  Negative indices
    count from the end, as in Python. *)
Theorem X6_deep_selection_opens_the_file `{Host}
    (b : Browser) (self : Session) (tree : fsnode) (top : string)
    (w w1 : World) (p : Panel) (idx : Z) (path : string) :
  list_files b self tree top w = Py.Ok (w1, p) ->
  idx <> -1 ->
  index (paths p) idx = Py.Ok path ->
  forall (fs : FileSystem) (primary : bool) (w2 : World),
    on_done b self fs p idx primary w2
    = Py.Ok (if primary
             then (emit (show_quick_panel_call (items p)) (emit (open_file path) w2),
                   Some p)
             else (emit (open_file path) w2, None)).
Proof.
  intros Hl Hidx Hpath fs primary w2.
  apply list_files_shape in Hl as (Hlen & Hkind & _ & _).
  destruct (index_same_length _ _ _ _ Hlen Hpath) as (item & Hitem & Hin).
  rewrite Forall_forall in Hkind. apply list_elem_of_In, Hkind in Hin.
  unfold on_done. destruct (Z.eqb_spec idx (-1)) as [|_]; [contradiction|].
  rewrite Hpath, Hitem. cbn [Py.bind]. rewrite Hin. cbn [kind_eqb].
  destruct p, primary; reflexivity.
Qed.

Lemma X6_witness :
  exists w1 p,
    @list_files posix_host sample_browser sample_session sample_tree "/proj"
      empty_world = Py.Ok (w1, p) /\
    forall (fs : FileSystem) (primary : bool) (w2 : World),
      @on_done posix_host sample_browser sample_session fs p 1 primary w2
      = Py.Ok (if primary
               then (emit (show_quick_panel_call (items p))
                       (emit (open_file "/proj/src/util.py") w2), Some p)
               else (emit (open_file "/proj/src/util.py") w2, None)).
Proof.
  eexists _, _.
  match goal with |- ?A /\ _ => assert (Hl : A) by (vm_compute; reflexivity) end.
  split; [exact Hl|].
  refine (@X6_deep_selection_opens_the_file posix_host sample_browser sample_session
            sample_tree "/proj" empty_world _ _ 1 "/proj/src/util.py" Hl _ _).
  - lia.
  - reflexivity.
Defined.

Lemma walk_child (keep : string -> bool) (top : string)
    (es : list (string * fsnode)) (name : string) (child : fsnode) x :
  In (name, child) es -> is_dir child && keep name = true ->
  In x (walk keep (PosixPath.join top [name]) child) ->
  In x (walk keep top (Directory es)).
Proof.
  intros Hin Hk Hx. cbn [walk]. right.
  induction es as [|[n c] es IH]; [contradiction|].
  apply in_or_app. destruct Hin as [[= -> ->] | Hin].
  - left. rewrite Hk. exact Hx.
  - right. apply IH, Hin.
Qed.

(** [os.walk] reaches every directory to which kept names lead. *)
Lemma walk_descends (keep : string -> bool) (tree : fsnode) (ds : list string)
    (entries : list (string * fsnode)) :
  descends tree ds (Directory entries) ->
  Forall (fun d => keep d = true) ds ->
  forall top, exists dirs,
    In (PosixPath.join top ds, dirs,
        map fst (List.filter (fun e => negb (is_dir (snd e))) entries))
       (walk keep top tree).
Proof.
  intros Hd. remember (Directory entries) as target eqn:Et.
  induction Hd as [n | es name child ds n Hin Hd IH]; intros Hkeep top.
  - subst n. eexists. cbn [walk]. left. reflexivity.
  - inversion Hkeep as [|? ? Hk Hrest]; subst.
    destruct (IH eq_refl Hrest (PosixPath.join top [name])) as [dirs Hx].
    exists dirs. eapply walk_child; [exact Hin| |exact Hx].
    rewrite Hk, andb_true_r. inversion Hd; reflexivity.
Qed.

Section Listing.
Context `{Host} (b : Browser) (self : Session).
Hypothesis Hwf : well_formed b.

Lemma list_file_exact (root : string) acc (file : string) :
  file <> "" ->
  exists its,
    list_file b self root acc file
    = Py.Ok (fst acc ++
             (if is_listed_file b file
              then [normalize_path b (PosixPath.join root [file])] else []),
             snd acc ++ its).
Proof.
  intros Hf. unfold list_file, is_listed_file.
  destruct (exclude_file b file);
    [exists []; rewrite !app_nil_r; destruct acc; reflexivity|].
  destruct (in_list _ _);
    [exists []; rewrite !app_nil_r; destruct acc; reflexivity|].
  cbn [negb andb].
  destruct (BrowseFacts.relative_path_ok b self
              (normalize_path b (PosixPath.join root [file]))) as [r Hr].
  { apply (wf_normalize _ Hwf). apply BrowseFacts.join2_nonempty, Hf. }
  rewrite Hr. cbn [Py.bind]. unfold action_tags, getitem.
  destruct (ClassifierFacts.file_key_present b
              (snd (PosixPath.splitext file)) (wf_wildcard _ Hwf)) as [fti Hk].
  rewrite Hk. cbn [Py.bind]. eexists [_]. reflexivity.
Qed.

Lemma list_dir_exact (root : string) (files : list string) acc :
  Forall (fun f => f <> "") files ->
  exists its,
    for_each (list_file b self root) files acc
    = Py.Ok (fst acc ++
             map (fun file => normalize_path b (PosixPath.join root [file]))
                 (List.filter (is_listed_file b) files),
             snd acc ++ its).
Proof.
  intros Hall. revert acc.
  induction Hall as [|f files Hf _ IH]; intros acc; cbn [for_each List.filter map].
  - exists []. rewrite !app_nil_r. destruct acc; reflexivity.
  - destruct (list_file_exact root acc f Hf) as [its1 ->]. cbn [Py.bind].
    destruct (IH (fst acc ++
                  (if is_listed_file b f
                   then [normalize_path b (PosixPath.join root [f])] else []),
                  snd acc ++ its1)) as [its2 ->].
    cbn [fst snd]. exists (its1 ++ its2). rewrite <- !app_assoc.
    destruct (is_listed_file b f); reflexivity.
Qed.

Lemma list_triples_exact (triples : list (string * list string * list string))
    acc :
  Forall (fun t => Forall (fun f => f <> "") (snd t)) triples ->
  exists its,
    for_each (fun acc '(root, _, files) => for_each (list_file b self root) files acc)
      triples acc
    = Py.Ok (fst acc ++
             flat_map
               (fun '(root, _, files) =>
                  map (fun file => normalize_path b (PosixPath.join root [file]))
                      (List.filter (is_listed_file b) files))
               triples,
             snd acc ++ its).
Proof.
  intros Hall. revert acc.
  induction Hall as [|[[root dirs] files] ts Hf _ IH]; intros acc;
    cbn [for_each flat_map].
  - exists []. rewrite !app_nil_r. destruct acc; reflexivity.
  - destruct (list_dir_exact root files acc Hf) as [its1 ->]. cbn [Py.bind].
    match goal with |- context [for_each _ ts ?a] =>
      destruct (IH a) as [its2 ->] end.
    cbn [fst snd]. exists (its1 ++ its2). rewrite <- !app_assoc. reflexivity.
Qed.

Lemma list_files_result (tree : fsnode) (top : string) (w : World) :
  tree_of_names tree ->
  exists its,
    list_files b self tree top w
    = Py.Ok (emit (show_quick_panel_call its) w,
             {| paths := listed_paths b top tree; items := its; curdir := "" |}).
Proof.
  intros Htree. unfold list_files.
  destruct (list_triples_exact
              (walk (fun d => negb (exclude_folder b d)) top tree) ([], []))
    as [its ->].
  - apply Forall_forall. intros [[root dirs] files] Hin%list_elem_of_In.
    destruct (walk_roots _ tree Htree _ _ _ _ Hin) as (_ & _ & _ & _ & Hfiles).
    cbn [snd]. eapply Forall_impl; [exact Hfiles|].
    intros f Hn. apply component_nonempty, name_component, Hn.
  - cbn [Py.bind fst snd app]. exists its. reflexivity.
Qed.

End Listing.

(** X7: for a browser set up by [initialize] and a tree whose entries are
    names, [list_files] does not raise and shows one panel.  Its paths
    are, directory by directory in the order of [os.walk] with excluded
    folders pruned, the files that the file matcher does not exclude and
    whose extension is not ignored; there is one item of file kind per
    path, the panel has no current directory, and the table of saved
    paths is unchanged. *)
Theorem X7_list_files_lists_exactly_the_files_not_skipped `{Host}
    (settings : Settings) (b : Browser) (ev : list event) (self : Session)
    (tree : fsnode) (top : string) (w : World) :
  initialize settings = Some (b, ev) ->
  tree_of_names tree ->
  exists w' p,
    list_files b self tree top w = Py.Ok (w', p) /\
    paths p = listed_paths b top tree /\
    List.length (items p) = List.length (paths p) /\
    Forall (fun it => item_kind it = KIND_FILE) (items p) /\
    curdir p = "" /\
    trace w' = trace w ++ [show_quick_panel_call (items p)] /\
    path_list w' = path_list w.
Proof.
  intros Hi Htree.
  pose proof (BrowseFacts.initialize_well_formed _ _ _ Hi) as Hwf.
  destruct (list_files_result b self Hwf tree top w Htree) as [its Hl].
  eexists _, _. split; [exact Hl|].
  apply list_files_shape in Hl as (Hlen & Hkind & _ & _).
  cbn [paths items curdir] in *.
  repeat split; try reflexivity; [congruence | exact Hkind].
Qed.

Lemma X7_witness :
  exists w' p,
    @list_files posix_host sample_browser sample_session sample_tree "/proj"
      empty_world = Py.Ok (w', p) /\
    paths p = ["/proj/main.py"; "/proj/src/util.py"] /\
    List.length (items p) = List.length (paths p) /\
    Forall (fun it => item_kind it = KIND_FILE) (items p) /\
    curdir p = "" /\
    trace w' = [show_quick_panel_call (items p)] /\
    path_list w' = ∅.
Proof.
  apply (@X7_list_files_lists_exactly_the_files_not_skipped posix_host
           sample_settings sample_browser [] sample_session sample_tree "/proj"
           empty_world).
  - reflexivity.
  - cbn. tauto.
Defined.

(** X8: the deep listing leaves out no file it should show.  For a
    browser set up by [initialize] and a tree of names: if directory
    names [ds], none of them excluded by the folder matcher, lead from
    the starting point to a directory that holds the file [f], and [f] is
    neither excluded by the file matcher nor of an ignored type, then
    [list_files] succeeds and the path of [f] is among its paths. *)
Theorem X8_list_files_reaches_every_file_not_skipped `{Host}
    (settings : Settings) (b : Browser) (ev : list event) (self : Session)
    (tree : fsnode) (top : string) (w : World)
    (ds : list string) (entries : list (string * fsnode)) (f : string) :
  initialize settings = Some (b, ev) ->
  tree_of_names tree ->
  descends tree ds (Directory entries) ->
  Forall (fun d => exclude_folder b d = false) ds ->
  In (f, NotDir) entries ->
  exclude_file b f = false ->
  in_list (snd (PosixPath.splitext f)) (ignored_file_types b) = false ->
  exists w' p,
    list_files b self tree top w = Py.Ok (w', p) /\
    In (normalize_path b (PosixPath.join top (ds ++ [f]))) (paths p).
Proof.
  intros Hi Htree Hd Hkept Hf Hex Hig.
  pose proof (BrowseFacts.initialize_well_formed _ _ _ Hi) as Hwf.
  destruct (list_files_result b self Hwf tree top w Htree) as [its Hl].
  eexists _, _. split; [exact Hl|]. cbn [paths]. unfold listed_paths.
  destruct (walk_descends (fun d => negb (exclude_folder b d)) tree ds entries Hd)
    with (top := top) as [dirs Hin].
  { eapply Forall_impl; [exact Hkept|]. intros d ->. reflexivity. }
  apply in_flat_map. eexists. split; [exact Hin|]. cbn beta iota.
  unfold PosixPath.join at 1. rewrite fold_left_app. fold (PosixPath.join top ds).
  apply (in_map (fun file =>
                   normalize_path b (PosixPath.join (PosixPath.join top ds) [file]))).
  apply filter_In. split.
  - apply (in_map fst) in Hf as Hf'. cbn [fst] in Hf'.
    apply in_map_iff. exists (f, NotDir). split; [reflexivity|].
    apply filter_In. split; [exact Hf | reflexivity].
  - unfold is_listed_file. rewrite Hex, Hig. reflexivity.
Qed.

Lemma X8_witness :
  exists w' p,
    @list_files posix_host sample_browser sample_session sample_tree "/proj"
      empty_world = Py.Ok (w', p) /\
    In "/proj/src/util.py" (paths p).
Proof.
  apply (@X8_list_files_reaches_every_file_not_skipped posix_host
           sample_settings sample_browser [] sample_session sample_tree "/proj"
           empty_world ["src"]
           [("util.py", NotDir); ("util.pyc", NotDir);
            (".git", Directory [("config", NotDir)])] "util.py").
  - reflexivity.
  - cbn. tauto.
  - eapply descends_into; [right; right; left; reflexivity | apply descends_here].
  - repeat constructor.
  - left. reflexivity.
  - reflexivity.
  - reflexivity.
Defined.

End DeepListing.

(** ** A session from creation to dismissal *)

Module SavedPaths.
Import NavigationFacts.

Lemma new_browser_table `{Host} (b : Browser) (fs : FileSystem) (window : Z)
    (path : string) (w w1 : World) (self : Session) (p : Panel) :
  new_browser b fs window path w = (w1, Py.Ok (Some (self, p))) ->
  window_id self = window /\
  path_list w1 = <[window := []]> (path_list w).
Proof.
  unfold new_browser.
  assert (forall s : Session,
            window_id s = window ->
            match browse b s fs (init_path s)
                    {| path_list := <[window := []]> (path_list w); trace := trace w |}
            with
            | Py.Ok (w2, p0) => (w2, Py.Ok (Some (s, p0)))
            | Py.Raise e =>
                ({| path_list := <[window := []]> (path_list w); trace := trace w |},
                 Py.Raise e)
            end = (w1, Py.Ok (Some (self, p))) ->
            window_id self = window /\
            path_list w1 = <[window := []]> (path_list w)) as Hstart.
  { intros s Hs. destruct (browse _ _ _ _ _) as [[w2 p0]|e] eqn:Eb; [|discriminate].
    intros [= <- <- <-]. split; [exact Hs|].
    apply browse_shape in Eb as (? & ? & ? & ? & _ & _ & _ & _ & _ & ->).
    reflexivity. }
  destruct (isfile fs path); [apply Hstart; reflexivity|].
  destruct (negb _); [discriminate|]. apply Hstart; reflexivity.
Qed.

Lemma on_done_elsewhere `{Host} (b : Browser) (self other : Session)
    (fs : FileSystem) (p : Panel) (idx : Z) (primary : bool) (w w' : World)
    (q : option Panel) :
  idx <> -1 \/ window_id other <> window_id self ->
  on_done b other fs p idx primary w = Py.Ok (w', q) ->
  path_list w' !! window_id self = path_list w !! window_id self.
Proof.
  intros Hwhere Hd. destruct (Z.eq_dec idx (-1)) as [-> | Hsel].
  - destruct Hwhere as [|Hother]; [contradiction|].
    unfold on_done, pop_path_list in Hd. cbn [Z.eqb Pos.eqb] in Hd.
    destruct (path_list w !! window_id other) as [l|]; [|discriminate].
    cbn [Py.bind] in Hd.
    destruct l; injection Hd as <- _; cbn [path_list emit];
      apply lookup_delete_ne; congruence.
  - unfold on_done in Hd.
    destruct (Z.eqb_spec idx (-1)) as [|_]; [contradiction|].
    destruct (index (paths p) idx) as [path|]; cbn [Py.bind] in Hd; [|discriminate].
    destruct (index (items p) idx) as [item|]; cbn [Py.bind] in Hd; [|discriminate].
    destruct p as [ps its cd]. cbn [paths items curdir show_quick_panel] in Hd.
    destruct (kind_eqb _ _).
    { destruct primary; injection Hd as <- _; reflexivity. }
    destruct (negb _); [|injection Hd as <- _; reflexivity].
    destruct (browse b other fs path w) as [[w1 p1]|e] eqn:Eb;
      injection Hd as <- _; [|reflexivity].
    apply browse_shape in Eb as (? & ? & ? & ? & _ & _ & _ & _ & _ & ->).
    reflexivity.
Qed.

(** The entry of the window grows by what was saved in it. *)
Lemma during_table `{Host} (self : Session) (w w' : World) (saved l0 : list string) :
  during self w saved w' ->
  path_list w !! window_id self = Some l0 ->
  path_list w' !! window_id self = Some (l0 ++ saved).
Proof.
  intros Hd H0.
  induction Hd as [w | w saved w1 path _ IH | w saved w1 window path _ IH Hne
                   | w saved w1 b other fs p idx primary w2 q _ IH Hwhere Hdone].
  - rewrite app_nil_r. exact H0.
  - specialize (IH H0). unfold save_path. rewrite IH. cbn [path_list emit].
    rewrite lookup_insert_eq, app_assoc. reflexivity.
  - specialize (IH H0). unfold save_path. cbn [path_list emit].
    destruct (path_list w1 !! window); [|exact IH].
    rewrite lookup_insert_ne by congruence. exact IH.
  - rewrite (on_done_elsewhere b self other fs p idx primary w1 w2 q Hwhere Hdone).
    exact (IH H0).
Qed.

(** X9: a session as a whole.  When the browser has been opened on a
    window and, while its panel is open, paths are saved in that window,
    however this is interleaved with selections, with saves in other
    windows and with the panels of other windows, then dismissing the
    panel copies exactly the paths saved since the opening, in the order
    of saving and joined by newlines, reports their number, and removes
    the entry of the window; when nothing was saved it writes nothing.
    Nothing saved before the opening is copied. *)
Theorem X9_dismissal_copies_the_paths_saved_since_opening `{Host}
    (b : Browser) (fs : FileSystem) (window : Z) (path : string)
    (w w1 w2 : World) (self : Session) (p : Panel) (saved : list string)
    (fs' : FileSystem) (p' : Panel) (primary : bool) :
  new_browser b fs window path w = (w1, Py.Ok (Some (self, p))) ->
  during self w1 saved w2 ->
  exists w3,
    on_done b self fs' p' (-1) primary w2 = Py.Ok (w3, None) /\
    path_list w3 !! window = None /\
    trace w3
    = trace w2 ++
      match saved with
      | [] => []
      | _ :: _ =>
          [set_clipboard (Py.join (String Re.newline "") saved);
           status_message ("Copied " +:+ str_of_nat (List.length saved) +:+ " paths")]
      end.
Proof.
  intros Hnew Hd.
  apply new_browser_table in Hnew as [Hid Ht].
  assert (path_list w2 !! window_id self = Some saved) as Hs.
  { apply (during_table self w1 w2 saved [] Hd).
    rewrite Ht, Hid. apply lookup_insert_eq. }
  unfold on_done, pop_path_list. cbn [Z.eqb Pos.eqb]. rewrite Hs. cbn [Py.bind].
  rewrite <- Hid.
  destruct saved as [|x saved']; eexists; (split; [reflexivity|]);
    cbn [path_list trace emit]; (split; [apply lookup_delete_eq|]).
  - rewrite app_nil_r. reflexivity.
  - rewrite <- app_assoc. reflexivity.
Qed.

Lemma X9_witness :
  exists w1 self p,
    @new_browser posix_host default_browser locked_fs 1 "/proj"
      {| path_list := {[ 1 := ["/stale"] ]}; trace := [] |}
    = (w1, Py.Ok (Some (self, p))) /\
    exists w3,
      @on_done posix_host default_browser self locked_fs p (-1) false
        (save_path (window_id self) "/proj/secret"
           (save_path 2 "/elsewhere"
              (save_path (window_id self) "/proj/main.py" w1)))
      = Py.Ok (w3, None) /\
      path_list w3 !! 1 = None /\
      trace w3
      = trace (save_path (window_id self) "/proj/secret"
                 (save_path 2 "/elsewhere"
                    (save_path (window_id self) "/proj/main.py" w1)))
        ++ [set_clipboard
              (Py.join (String Re.newline "") ["/proj/main.py"; "/proj/secret"]);
            status_message "Copied 2 paths"].
Proof.
  eexists _, _, _.
  match goal with |- ?A /\ _ => assert (Hnew : A) by (vm_compute; reflexivity) end.
  split; [exact Hnew|].
  refine (@X9_dismissal_copies_the_paths_saved_since_opening posix_host
            default_browser locked_fs 1 "/proj" _ _ _ _ _
            ([] ++ ["/proj/main.py"] ++ ["/proj/secret"]) locked_fs _ false Hnew _).
  apply (during_save _ _ ([] ++ ["/proj/main.py"])).
  apply during_save_elsewhere; [|discriminate].
  apply (during_save _ _ []).
  apply during_start.
Defined.

End SavedPaths.

(** ** Settings left at their defaults *)

Module DefaultFacts.

Lemma pat2regex_nil `{Host} : pat2regex [] = Some (empty_name_only, []).
Proof. reflexivity. Qed.

Lemma match_empty_name_only (name : string) :
  Re.match_ empty_name_only name = true <->
  name = "" \/ name = String Re.newline "".
Proof.
  unfold empty_name_only, Re.match_. cbn [Re.run andb].
  rewrite andb_true_r, orb_true_iff, !String.eqb_eq. reflexivity.
Qed.

(** X10: when no exclusion patterns are configured (the keys are absent
    or hold empty lists), [initialize] reports no error and the two
    matchers it installs accept the empty name and the name that is a
    lone newline, and nothing else: no file or folder with any other
    name is excluded. *)
Theorem X10_without_patterns_nothing_is_excluded `{Host}
    (settings : Settings) (b : Browser) (ev : list event) :
  default [] (file_exclude_patterns settings) = [] ->
  default [] (folder_exclude_patterns settings) = [] ->
  initialize settings = Some (b, ev) ->
  ev = [] /\
  forall name,
    (exclude_file b name = true <-> name = "" \/ name = String Re.newline "") /\
    (exclude_folder b name = true <-> name = "" \/ name = String Re.newline "").
Proof.
  intros Hf Hd Hi. unfold initialize in Hi.
  rewrite Hf, Hd, pat2regex_nil in Hi. cbn in Hi. injection Hi as <- <-.
  split; [reflexivity|]. intros name. cbn [exclude_file exclude_folder].
  split; apply match_empty_name_only.
Qed.

Lemma X10_witness :
  ([] : list event) = [] /\
  forall name,
    (exclude_file default_browser name = true <->
     name = "" \/ name = String Re.newline "") /\
    (exclude_folder default_browser name = true <->
     name = "" \/ name = String Re.newline "").
Proof.
  apply (@X10_without_patterns_nothing_is_excluded posix_host no_settings
           default_browser []); reflexivity.
Defined.

End DefaultFacts.

(** ** Relative paths around the anchor *)

Module RelativeFacts.
Import StrFacts PathFacts AnchorFacts.







End RelativeFacts.

(** ** The classifier table, entry by entry *)

Module CategoryFacts.
Import ClassifierFacts.

Lemma fold_insert_lookup {V} (v : V) (keys : list (option string))
    (m : gmap (option string) V) (key : option string) :
  fold_left (fun m k => <[k := v]> m) keys m !! key
  = if bool_decide (key ∈ keys) then Some v else m !! key.
Proof.
  revert m. induction keys as [|k keys IH]; intros m; cbn [fold_left].
  - rewrite bool_decide_eq_false_2 by apply not_elem_of_nil. reflexivity.
  - rewrite IH. destruct (decide (key ∈ keys)) as [Hin | Hnin].
    + rewrite !bool_decide_eq_true_2 by (assumption || (right; assumption)).
      reflexivity.
    + rewrite (bool_decide_eq_false_2 _ Hnin).
      destruct (decide (key = k)) as [-> | Hne].
      * rewrite lookup_insert_eq, bool_decide_eq_true_2 by left. reflexivity.
      * rewrite lookup_insert_ne by congruence.
        rewrite bool_decide_eq_false_2; [reflexivity|].
        intros [?|?]%elem_of_cons; contradiction.
Qed.

Lemma add_file_type_lookup `{Host} (m : gmap (option string) FileTypeIcon)
    (entry : string * file_type) (key : option string) :
  add_file_type m entry !! key
  = if bool_decide (key ∈ keys_of (snd entry)) then Some (category_of entry)
    else m !! key.
Proof.
  destruct entry as [nm ft]. unfold add_file_type, keys_of, category_of.
  cbn [fst snd].
  destruct (default (ExtList []) (ft_extensions ft)) as [exts | e].
  - apply fold_insert_lookup.
  - destruct (decide (key = e)) as [-> | Hne].
    + rewrite lookup_insert_eq, bool_decide_eq_true_2 by left. reflexivity.
    + rewrite lookup_insert_ne by congruence.
      rewrite bool_decide_eq_false_2; [reflexivity|].
      intros [?|Hin]%elem_of_cons; [contradiction | inversion Hin].
Qed.

Lemma configured_lookup `{Host} (entries : list (string * file_type))
    (m : gmap (option string) FileTypeIcon) (key : option string) :
  fold_left add_file_type entries m !! key
  = match find (fun entry => bool_decide (key ∈ keys_of (snd entry)))
               (rev entries) with
    | Some entry => Some (category_of entry)
    | None => m !! key
    end.
Proof.
  induction entries as [|e entries IH] using rev_ind; [reflexivity|].
  rewrite fold_left_app, rev_app_distr. cbn [fold_left rev app find].
  rewrite add_file_type_lookup.
  destruct (bool_decide _); [reflexivity | exact IH].
Qed.

(** X12: the table that [initialize] builds, key by key.  A key listed
    by entries of [file_types] has the name and icon (default 'Open') of
    the last entry listing it, whether the entry gives a list of
    extensions or a single one; a key that no entry lists has the
    built-in category if it is '.*' (file) or [None] (folder) and is
    absent otherwise, so that such an extension is classified under
    '.*'. *)
Theorem X12_classifier_table_entry_by_entry `{Host}
    (settings : Settings) (b : Browser) (ev : list event) :
  initialize settings = Some (b, ev) ->
  (forall key, file_type_icons b !! key = category settings key) /\
  (forall ext : string,
     category settings (Some ext) = None -> file_key b ext = ".*").
Proof.
  intros Hi. pose proof (initialize_icons _ _ _ Hi) as Hicons.
  assert (forall key, file_type_icons b !! key = category settings key) as Hall.
  { intros key. rewrite Hicons. unfold category.
    pose proof (configured_lookup (default [] (file_types settings)) ∅ key) as Hc.
    fold (configured settings) in Hc. rewrite lookup_empty in Hc.
    destruct key as [ext|].
    - destruct (decide (ext = ".*")) as [-> | Hne].
      + rewrite add_fallbacks_wildcard, Hc.
        destruct (find _ _); [reflexivity|].
        rewrite bool_decide_eq_true_2 by reflexivity. reflexivity.
      + rewrite add_fallbacks_other, Hc by exact Hne.
        destruct (find _ _); [reflexivity|].
        rewrite bool_decide_eq_false_2 by congruence.
        rewrite bool_decide_eq_false_2 by discriminate. reflexivity.
    - rewrite add_fallbacks_folder, Hc.
      destruct (find _ _); [reflexivity|].
      rewrite bool_decide_eq_false_2 by discriminate.
      rewrite bool_decide_eq_true_2 by reflexivity. reflexivity. }
  split; [exact Hall|].
  intros ext Hnone. unfold file_key.
  replace (contains (file_type_icons b) (Some ext)) with false; [reflexivity|].
  symmetry. apply contains_false. rewrite Hall. exact Hnone.
Qed.

Lemma X12_witness :
  (forall key, file_type_icons typed_browser !! key = category typed_settings key) /\
  (forall ext : string,
     category typed_settings (Some ext) = None ->
     @file_key typed_browser ext = ".*").
Proof.
  apply (@X12_classifier_table_entry_by_entry posix_host typed_settings
           typed_browser []).
  reflexivity.
Defined.

End CategoryFacts.

(** ** The status of the views while files are listed *)

Module StatusThreadFacts.
Import StatusThread.

Lemma insert_over_singleton (a v : Z) (x y : string) :
  v <> a -> delete v (<[a := x]> ({[ v := y ]} : gmap Z string)) = {[ a := x ]}.
Proof.
  intros Hne. rewrite delete_insert_ne by congruence.
  rewrite delete_singleton_eq. apply insert_empty.
Qed.

(** One poll with the worker alive and a view [a] active. *)
Lemma tick_alive (tk : task) (s : t) (statuses : gmap Z string) (a : Z) :
  settled s statuses -> a <> 0 ->
  exists s' calls,
    update_status_message tk s (Some a) true = Some (s', calls) /\
    bar s' = StatusBar.update_status_bar (bar s) /\
    last_view s' = Some a /\
    fold_left apply_call calls statuses = {[ a := status_message tk s' ]} /\
    settled s' (fold_left apply_call calls statuses).
Proof.
  intros [Hr Hv] Ha. unfold update_status_message. cbn [need_refresh last_view].
  rewrite Hr. unfold show_status_message. cbn [last_view bar need_refresh].
  assert (forall s' calls,
            bar s' = StatusBar.update_status_bar (bar s) ->
            last_view s' = Some a -> need_refresh s' = true ->
            fold_left apply_call calls statuses = {[ a := status_message tk s' ]} ->
            bar s' = StatusBar.update_status_bar (bar s) /\
            last_view s' = Some a /\
            fold_left apply_call calls statuses = {[ a := status_message tk s' ]} /\
            settled s' (fold_left apply_call calls statuses)) as Hdone.
  { intros s' calls Hb Hl Hn Hf. repeat split; try assumption.
    rewrite Hl. split; [exact Ha | eauto]. }
  destruct (last_view s) as [v|] eqn:El.
  - destruct Hv as [Hv0 [old ->]].
    destruct (decide (Some v <> Some a)) as [Hne | Heq].
    + rewrite bool_decide_eq_true_2 by exact Hne. cbn [mbind option_bind negb].
      destruct (Z.eqb_spec v 0) as [|_]; [contradiction|].
      eexists _, _. split; [reflexivity|]. apply Hdone; try reflexivity.
      cbn [app fold_left apply_call]. apply insert_over_singleton. congruence.
    + rewrite bool_decide_eq_false_2 by exact Heq. cbn [mbind option_bind negb].
      assert (v = a) as ->
        by (destruct (decide (v = a)); [assumption | exfalso; apply Heq; congruence]).
      eexists _, _. split; [reflexivity|]. apply Hdone; try assumption; try reflexivity.
      cbn [app fold_left apply_call]. apply insert_singleton_eq.
  - subst statuses. rewrite bool_decide_eq_true_2 by discriminate.
    cbn [mbind option_bind negb].
    eexists _, _. split; [reflexivity|]. apply Hdone; reflexivity.
Qed.

Lemma poll_settled (tk : task) (vs : list Z) (s : t) (statuses : gmap Z string) :
  settled s statuses -> Forall (fun v => v <> 0) vs ->
  exists s' statuses',
    poll tk (map Some vs) s statuses = Some (s', statuses') /\
    bar s' = Nat.iter (List.length vs) StatusBar.update_status_bar (bar s) /\
    settled s' statuses' /\
    forall v, last vs = Some v ->
      last_view s' = Some v /\ statuses' = {[ v := status_message tk s' ]}.
Proof.
  intros Hs Hvs. revert s statuses Hs.
  induction Hvs as [|a vs Ha _ IH]; intros s statuses Hs.
  - exists s, statuses. split; [reflexivity|]. split; [reflexivity|].
    split; [exact Hs | discriminate].
  - destruct (tick_alive tk s statuses a Hs Ha)
      as (s1 & calls & Eu & Hb & Hl & Hf & Hs1).
    cbn [map poll]. rewrite Eu. cbn [mbind option_bind fst snd].
    destruct (IH s1 _ Hs1) as (s' & st' & Ep & Hb' & Hs' & Hlast).
    exists s', st'. split; [exact Ep|]. split; [|split; [exact Hs'|]].
    + rewrite Hb', Hb. cbn [List.length]. rewrite Nat.iter_succ_r. reflexivity.
    + intros v Hv. destruct vs as [|b vs'].
      * cbn in Hv. injection Hv as <-. cbn [map poll] in Ep.
        injection Ep as <- <-. split; assumption.
      * apply Hlast. rewrite <- Hv. reflexivity.
Qed.

Lemma init_settled : settled init ∅.
Proof. split; reflexivity. Qed.

(** What [show_status_message] does to the views. *)
Lemma show_settled (s : t) (statuses : gmap Z string) (a : Z) (msg : string) :
  settled s statuses -> a <> 0 ->
  exists s' calls,
    show_status_message s (Some a) msg = Some (s', calls) /\
    bar s' = bar s /\ last_view s' = Some a /\ need_refresh s' = true /\
    fold_left apply_call calls statuses = {[ a := msg ]}.
Proof.
  intros [Hr Hv] Ha. unfold show_status_message.
  destruct (last_view s) as [v|] eqn:El.
  - destruct Hv as [Hv0 [old ->]].
    destruct (decide (Some v <> Some a)) as [Hne | Heq].
    + rewrite bool_decide_eq_true_2 by exact Hne.
      destruct (Z.eqb_spec v 0) as [|_]; [contradiction|].
      eexists _, _. split; [reflexivity|]. repeat split; try assumption.
      cbn [fold_left apply_call]. apply insert_over_singleton. congruence.
    + rewrite bool_decide_eq_false_2 by exact Heq.
      assert (v = a) as ->
        by (destruct (decide (v = a)); [assumption | exfalso; apply Heq; congruence]).
      eexists _, _. split; [reflexivity|]. repeat split; try assumption.
      cbn [fold_left apply_call]. apply insert_singleton_eq.
  - subst statuses. rewrite bool_decide_eq_true_2 by discriminate.
    eexists _, _. split; [reflexivity|]. repeat split; assumption.
Qed.

(** X13: while the worker thread is alive.  Starting from the thread as
    [__init__] leaves it and with no view carrying the key, after any
    number of polls, whichever views were active, exactly one view
    carries a status under the key: the view active at the latest poll.
    Its text is the message of the task, a space and the frame of the
    bar after that many updates; the view is recorded as [last_view]. *)
Theorem X13_only_the_active_view_carries_the_status
    (tk : task) (vs : list Z) (v : Z) :
  Forall (fun v => v <> 0) vs ->
  last vs = Some v ->
  exists s statuses,
    poll tk (map Some vs) init ∅ = Some (s, statuses) /\
    statuses
    = {[ v := message tk +:+ " " +:+
              StatusBar.frame (StatusBar.state (StatusBar.ticks (List.length vs))) ]} /\
    last_view s = Some v /\
    bar s = StatusBar.ticks (List.length vs).
Proof.
  intros Hvs Hlast.
  destruct (poll_settled tk vs init ∅ init_settled Hvs)
    as (s & statuses & Ep & Hb & _ & Hl).
  destruct (Hl v Hlast) as [Hv Hst].
  exists s, statuses. split; [exact Ep|].
  change (bar s = StatusBar.ticks (List.length vs)) in Hb.
  split; [|split; assumption].
  rewrite Hst. unfold status_message. rewrite Hb.
  destruct vs as [|x vs']; [discriminate|]. reflexivity.
Qed.

Lemma X13_witness :
  exists s statuses,
    poll {| message := "Listing files..."; success := "Done" |}
      (map Some [4; 4; 9]) init ∅ = Some (s, statuses) /\
    statuses
    = {[ 9 := "Listing files..." +:+ " " +:+
              StatusBar.frame (StatusBar.state (StatusBar.ticks (List.length [4; 4; 9]))) ]} /\
    last_view s = Some 9 /\
    bar s = StatusBar.ticks (List.length [4; 4; 9]).
Proof.
  apply (X13_only_the_active_view_carries_the_status
           {| message := "Listing files..."; success := "Done" |} [4; 4; 9] 9).
  - repeat constructor; discriminate.
  - reflexivity.
Defined.

(** X14: when the worker thread has ended.  After any number of polls
    with the thread alive (none included), the poll that finds it ended
    succeeds, leaves the success text of the task on the view active
    then and a status on no other view, schedules no further poll
    whatever the delay, and its last call schedules, 2000 ms later, the
    erasure on that same view, after which no view carries the key. *)
Theorem X14_the_last_poll_leaves_the_success_text_and_cleans_up
    (tk : task) (vs : list Z) (a : Z) :
  Forall (fun v => v <> 0) vs ->
  a <> 0 ->
  exists s statuses s' calls,
    poll tk (map Some vs) init ∅ = Some (s, statuses) /\
    update_status_message tk s (Some a) false = Some (s', calls) /\
    fold_left apply_call calls statuses = {[ a := success tk ]} /\
    last calls = Some (set_timeout_cleanup a 2000) /\
    Forall (fun c => forall delay, c <> set_timeout_update delay) calls /\
    apply_call (fold_left apply_call calls statuses) (erase_status a) = ∅.
Proof.
  intros Hvs Ha.
  destruct (poll_settled tk vs init ∅ init_settled Hvs)
    as (s & statuses & Ep & _ & [Hr Hv] & _).
  exists s, statuses. unfold update_status_message. cbn [need_refresh]. rewrite Hr.
  match goal with |- context [show_status_message ?s1 _ ?msg] =>
    destruct (show_settled s1 statuses a msg (conj eq_refl Hv) Ha)
      as (s2 & c & Es & _ & Hl & _ & Hf); rewrite Es end.
  cbn [mbind option_bind negb]. rewrite Hl. cbn [mbind option_bind].
  eexists _, _. split; [exact Ep|]. split; [reflexivity|].
  rewrite fold_left_app, Hf. cbn [fold_left apply_call].
  rewrite insert_singleton_eq, delete_singleton_eq, last_app.
  repeat split.
  apply Forall_app. split; [|repeat constructor; intros delay; discriminate].
  unfold show_status_message in Es.
  destruct (bool_decide _); injection Es as _ <-;
    [destruct (last_view _) as [x|]; [destruct (x =? 0)|]|];
    repeat constructor; intros delay; discriminate.
Qed.

Lemma X14_witness :
  exists s statuses s' calls,
    poll {| message := "Listing files..."; success := "Done" |}
      (map Some [4; 9]) init ∅ = Some (s, statuses) /\
    update_status_message {| message := "Listing files..."; success := "Done" |}
      s (Some 4) false = Some (s', calls) /\
    fold_left apply_call calls statuses = {[ 4 := "Done" ]} /\
    last calls = Some (set_timeout_cleanup 4 2000) /\
    Forall (fun c => forall delay, c <> set_timeout_update delay) calls /\
    apply_call (fold_left apply_call calls statuses) (erase_status 4) = ∅.
Proof.
  apply (X14_the_last_poll_leaves_the_success_text_and_cleans_up
           {| message := "Listing files..."; success := "Done" |} [4; 9] 4).
  - repeat constructor; discriminate.
  - discriminate.
Defined.

End StatusThreadFacts.

(** ** The frames of the animation *)

Module FrameFacts.
Import StatusBar StatusBarFacts.

(** X15: every frame that [update_status_bar] renders is ten characters
    wide, with the marker '=' in the column after the left bracket that
    [state] gives, and from one update to the next the marker moves by
    exactly one column. *)
Theorem X15_frames_are_ten_wide_and_move_by_one_column (n : nat) :
  String.length (status (ticks (S n))) = 10%nat /\
  String.get (S (Z.to_nat (state (ticks (S n))))) (status (ticks (S n)))
  = Some "="%char /\
  Z.abs (state (ticks (S n)) - state (ticks n)) = 1.
Proof.
  change (ticks (S n)) with (update_status_bar (ticks n)).
  pose proof (ticks_reachable n) as Hr.
  destruct (ticks n) as [p d f]. unfold reachable in Hr. cbn [state step] in Hr.
  destruct Hr as [[-> Hp] | [-> Hp]].
  - assert (p = 1 \/ p = 2 \/ p = 3 \/ p = 4 \/ p = 5 \/ p = 6 \/ p = 7)
      as Hc by lia.
    repeat (destruct Hc as [-> | Hc]; [repeat split|]). subst p; repeat split.
  - assert (p = 0 \/ p = 1 \/ p = 2 \/ p = 3 \/ p = 4 \/ p = 5 \/ p = 6)
      as Hc by lia.
    repeat (destruct Hc as [-> | Hc]; [repeat split|]). subst p; repeat split.
Qed.

End FrameFacts.

(** ** Opening the browser *)

Module OpeningFacts.
Import NavigationFacts.

(** X16: what [QuickPanelFileBrowser(window, path)] does to the table of
    saved paths and to the editor.  For a path that is neither a file nor
    a directory the table is unchanged, one error message is shown and
    there is no panel.  Otherwise the entry of the window is reset to the
    empty list, also when listing the directory then raises, and on
    success exactly one panel is shown.  The entries of other windows are
    never touched. *)
Theorem X16_opening_resets_only_the_entry_of_its_window `{Host}
    (b : Browser) (fs : FileSystem) (window : Z) (path : string) (w : World) :
  exists w1 r,
    new_browser b fs window path w = (w1, r) /\
    (forall other, other <> window -> path_list w1 !! other = path_list w !! other) /\
    (isfile fs path = false -> isdir fs path = false ->
       path_list w1 = path_list w /\ r = Py.Ok None /\
       exists msg, trace w1 = trace w ++ [error_message msg]) /\
    (isfile fs path = true \/ isdir fs path = true ->
       path_list w1 !! window = Some [] /\
       match r with
       | Py.Ok (Some (self, p)) =>
           window_id self = window /\
           init_path self = (if isfile fs path then PosixPath.dirname path else path) /\
           trace w1 = trace w ++ [show_quick_panel_call (items p)]
       | Py.Ok None => False
       | Py.Raise _ => trace w1 = trace w
       end).
Proof.
  exists (fst (new_browser b fs window path w)), (snd (new_browser b fs window path w)).
  split; [destruct (new_browser b fs window path w); reflexivity|].
  unfold new_browser.
  set (w0 := {| path_list := <[window := []]> (path_list w); trace := trace w |}).
  assert (forall self : Session,
            window_id self = window ->
            let res := match browse b self fs (init_path self) w0 with
                       | Py.Ok (w2, p) => (w2, Py.Ok (Some (self, p)))
                       | Py.Raise e => (w0, Py.Raise e)
                       end in
            (forall other, other <> window ->
               path_list (fst res) !! other = path_list w !! other) /\
            path_list (fst res) !! window = Some [] /\
            match snd res with
            | Py.Ok (Some (self', p)) =>
                window_id self' = window /\
                init_path self' = init_path self /\
                trace (fst res) = trace w ++ [show_quick_panel_call (items p)]
            | Py.Ok None => False
            | Py.Raise _ => trace (fst res) = trace w
            end) as Hstart.
  { intros self Hid. cbn zeta.
    destruct (browse b self fs (init_path self) w0) as [[w2 p]|e] eqn:Eb;
      cbn [fst snd].
    - apply browse_shape in Eb as (? & ? & ? & ? & _ & _ & _ & _ & _ & ->).
      cbn [emit path_list trace w0]. repeat split; try assumption.
      + intros other Hne. apply lookup_insert_ne. congruence.
      + apply lookup_insert_eq.
    - cbn [path_list trace w0]. repeat split.
      + intros other Hne. apply lookup_insert_ne. congruence.
      + apply lookup_insert_eq. }
  destruct (isfile fs path) eqn:Ef.
  - destruct (Hstart {| window_id := window; init_path := PosixPath.dirname path |}
                eq_refl) as (Ho & Hw & Hr).
    cbn [init_path window_id] in *.
    split; [exact Ho|]. split; [discriminate|]. intros _. split; [exact Hw | exact Hr].
  - destruct (isdir fs path) eqn:Ed; cbn [negb].
    + destruct (Hstart {| window_id := window; init_path := path |} eq_refl)
        as (Ho & Hw & Hr).
      cbn [init_path window_id] in *.
      split; [exact Ho|]. split; [discriminate|]. intros _.
      split; [exact Hw | exact Hr].
    + cbn [fst snd emit path_list trace].
      split; [reflexivity|]. split; [|intros [?|?]; discriminate].
      intros _ _. repeat split. eauto.
Qed.

End OpeningFacts.

(** ** Unix-style paths on Windows *)

Module UnixStyleFacts.
Import StrFacts.

Lemma has_char_app (c : ascii) (a d : string) :
  has_char c (a +:+ d) = has_char c a || has_char c d.
Proof.
  induction a as [|x a IH]; [reflexivity|].
  rewrite append_cons. cbn [has_char]. rewrite IH. apply orb_assoc.
Qed.

Lemma replace_removes (old : ascii) (new s : string) :
  has_char old new = false -> has_char old (Py.replace old new s) = false.
Proof.
  intros Hn. induction s as [|c s IH]; [reflexivity|].
  cbn [Py.replace]. rewrite has_char_app, IH, orb_false_r.
  destruct (Ascii.eqb c old) eqn:E; [exact Hn|].
  cbn [has_char]. rewrite E. reflexivity.
Qed.

Lemma replace_without (old : ascii) (new s : string) :
  has_char old s = false -> Py.replace old new s = s.
Proof.
  induction s as [|c s IH]; [reflexivity|]. cbn [has_char Py.replace].
  intros [Hc Hs]%orb_false_iff. rewrite Hc, IH by exact Hs. reflexivity.
Qed.

Lemma replace_length (old new : ascii) (s : string) :
  String.length (Py.replace old (String new "") s) = String.length s.
Proof.
  induction s as [|c s IH]; [reflexivity|]. cbn [Py.replace].
  destruct (Ascii.eqb c old); rewrite append_cons, append_nil_l;
    cbn [String.length]; rewrite IH; reflexivity.
Qed.

(** X17: on Windows with unix-style paths (the default there),
    [initialize] installs a [normalize_path] whose result holds no
    backslash and is as long as its argument, which is idempotent and
    leaves a path without backslashes as it is, and a [join_path] that
    puts one '/' between the path and the leaf, whatever they are. *)
Theorem X17_unix_style_paths_hold_no_backslash `{Host}
    (settings : Settings) (b : Browser) (ev : list event) (path leaf : string) :
  is_windows = true ->
  default true (use_unix_style_path settings) = true ->
  initialize settings = Some (b, ev) ->
  has_char "\" (normalize_path b path) = false /\
  String.length (normalize_path b path) = String.length path /\
  normalize_path b (normalize_path b path) = normalize_path b path /\
  (has_char "\" path = false -> normalize_path b path = path) /\
  join_path b path leaf = path +:+ "/" +:+ leaf.
Proof.
  intros Hw Hu Hi. unfold initialize in Hi.
  destruct (PatternFacts.pat2regex_total
              (default [] (file_exclude_patterns settings))) as (r1 & e1 & E1).
  destruct (PatternFacts.pat2regex_total
              (default [] (folder_exclude_patterns settings))) as (r2 & e2 & E2).
  rewrite E1, E2, Hw, Hu in Hi. cbn in Hi. injection Hi as <- _.
  cbn [normalize_path join_path].
  assert (has_char "\" (Py.replace "\" "/" path) = false) as Hnone
    by (apply replace_removes; reflexivity).
  repeat split.
  - exact Hnone.
  - apply replace_length.
  - apply replace_without, Hnone.
  - apply replace_without.
Qed.

Lemma X17_witness :
  has_char "\" (normalize_path unix_style_browser "C:\proj\src") = false /\
  String.length (normalize_path unix_style_browser "C:\proj\src")
  = String.length "C:\proj\src" /\
  normalize_path unix_style_browser (normalize_path unix_style_browser "C:\proj\src")
  = normalize_path unix_style_browser "C:\proj\src" /\
  (has_char "\" "C:\proj\src" = false ->
   normalize_path unix_style_browser "C:\proj\src" = "C:\proj\src") /\
  join_path unix_style_browser "C:\proj\src" "main.py"
  = "C:\proj\src" +:+ "/" +:+ "main.py".
Proof.
  apply (@X17_unix_style_paths_hold_no_backslash windows_host no_settings
           unix_style_browser [] "C:\proj\src" "main.py"); reflexivity.
Defined.

End UnixStyleFacts.

(** ** Opening the browser on a file *)

Module DirnameFacts.
Import StrFacts PathFacts AscentFacts.

Lemma rfind_from_app (c : ascii) (a d : string) (i acc : Z) :
  Py.rfind_from c (a +:+ d) i acc
  = Py.rfind_from c d (i + Z.of_nat (String.length a)) (Py.rfind_from c a i acc).
Proof.
  revert i acc. induction a as [|x a IH]; intros i acc.
  - rewrite append_nil_l. cbn [String.length Py.rfind_from]. f_equal. lia.
  - rewrite append_cons. cbn [Py.rfind_from String.length]. rewrite IH.
    f_equal. lia.
Qed.

Lemma rfind_from_without (c : ascii) (s : string) (i acc : Z) :
  has_char c s = false -> Py.rfind_from c s i acc = acc.
Proof.
  revert i acc. induction s as [|x s IH]; intros i acc; [reflexivity|].
  cbn [has_char Py.rfind_from]. intros [Hx Hs]%orb_false_iff.
  rewrite Hx. apply IH, Hs.
Qed.

Lemma substring_prefix (a d : string) :
  String.substring 0 (String.length a) (a +:+ d) = a.
Proof.
  induction a as [|x a IH]; [destruct d; reflexivity|].
  rewrite append_cons. cbn [String.length String.substring]. f_equal. exact IH.
Qed.

Lemma rstrip_snoc (c : ascii) (s : string) :
  Py.rstrip c (s +:+ String c "") = Py.rstrip c s.
Proof.
  induction s as [|x s IH].
  - rewrite append_nil_l. cbn [Py.rstrip]. rewrite Ascii.eqb_refl. reflexivity.
  - rewrite append_cons. cbn [Py.rstrip]. rewrite IH. reflexivity.
Qed.

Lemma rstrip_repeat (c : ascii) (n : nat) : Py.rstrip c (Py.repeat_char c n) = "".
Proof.
  induction n as [|n IH]; [reflexivity|].
  cbn [Py.repeat_char Py.rstrip]. rewrite IH, Ascii.eqb_refl. reflexivity.
Qed.

Lemma rstrip_keeps (s : string) :
  Py.endswith s "/" = false -> Py.rstrip "/" s = s.
Proof.
  induction s as [|x s IH]; [reflexivity|].
  cbn [Py.endswith Py.rstrip]. intros [Hx Hs]%orb_false_iff.
  rewrite (IH Hs). destruct s as [|y s']; [|reflexivity].
  destruct (Ascii.eqb_spec x "/") as [->|_]; [discriminate Hx | reflexivity].
Qed.

Lemma repeat_char_snoc (c : ascii) (n : nat) :
  Py.repeat_char c n +:+ String c "" = Py.repeat_char c (S n).
Proof.
  induction n as [|n IH]; [reflexivity|].
  cbn [Py.repeat_char]. rewrite append_cons, IH. reflexivity.
Qed.

Lemma repeat_char_length (c : ascii) (n : nat) :
  String.length (Py.repeat_char c n) = n.
Proof. induction n as [|n IH]; [reflexivity|]. cbn. f_equal. exact IH. Qed.

(** [dirname] of a path that ends in a slash and a leaf. *)
Lemma dirname_leaf (q leaf : string) :
  has_char "/" leaf = false ->
  PosixPath.dirname (q +:+ "/" +:+ leaf)
  = if PosixPath.nonempty (q +:+ "/")
       && negb (String.eqb (q +:+ "/")
                  (Py.repeat_char "/" (String.length (q +:+ "/"))))
    then Py.rstrip "/" (q +:+ "/")
    else q +:+ "/".
Proof.
  intros Hleaf. unfold PosixPath.dirname, Py.rfind, PosixPath.sep.
  rewrite rfind_from_app.
  change ("/" +:+ leaf) with (String "/" leaf). cbn [Py.rfind_from].
  change (Ascii.eqb "/" "/") with true. cbn iota.
  rewrite rfind_from_without by exact Hleaf.
  unfold Py.slice_to.
  replace (Z.to_nat (0 + Z.of_nat (String.length q) + 1))
    with (String.length (q +:+ "/")) by (rewrite append_length; cbn; lia).
  change (String "/" leaf) with ("/" +:+ leaf).
  rewrite <- (append_assoc q "/" leaf), substring_prefix. reflexivity.
Qed.

Lemma dirname_abs_of (k : nat) (comps : list string) (leaf : string) :
  components comps -> is_component leaf = true ->
  PosixPath.dirname (abs_of (S k) (comps ++ [leaf])) = abs_of (S k) comps.
Proof.
  intros Hc Hl. pose proof (component_no_sep _ Hl) as Hns.
  destruct (decide (comps = [])) as [-> | Hne].
  - unfold abs_of. cbn [app Py.join String.concat].
    rewrite <- (repeat_char_snoc "/" k), append_assoc, append_nil_r.
    rewrite dirname_leaf by exact Hns.
    rewrite repeat_char_snoc, repeat_char_length, String.eqb_refl, andb_false_r.
    reflexivity.
  - unfold abs_of. rewrite join_app by (assumption || discriminate).
    cbn [Py.join String.concat]. fold (Py.join "/" comps).
    rewrite <- append_assoc. fold (abs_of (S k) comps).
    rewrite dirname_leaf by exact Hns.
    assert (Py.rstrip "/" (abs_of (S k) comps +:+ "/") = abs_of (S k) comps) as Hr.
    { rewrite rstrip_snoc. apply rstrip_keeps. unfold abs_of.
      rewrite endswith_app by (apply join_nonempty; assumption).
      apply endswith_join; assumption. }
    rewrite Hr.
    replace (PosixPath.nonempty (abs_of (S k) comps +:+ "/")) with true.
    2:{ symmetry. unfold PosixPath.nonempty. apply negb_true_iff, String.eqb_neq.
        intros E. apply (f_equal String.length) in E.
        rewrite append_length in E. cbn in E. lia. }
    replace (String.eqb (abs_of (S k) comps +:+ "/") _) with false; [reflexivity|].
    symmetry. apply String.eqb_neq. intros E.
    apply (f_equal (Py.rstrip "/")) in E. rewrite Hr, rstrip_repeat in E.
    exact (abs_of_nonempty _ _ E).
Qed.

(** X18: opening the browser on a file is opening it on the directory
    that holds the file.  For a file path made of [k + 1] slashes and
    components, the last one naming the file, whose directory is a
    directory and not a file: the constructor gives the same session,
    the same panel and the same world as for the directory itself. *)
Theorem X18_opening_on_a_file_opens_its_directory `{Host}
    (b : Browser) (fs : FileSystem) (window : Z) (w : World)
    (k : nat) (comps : list string) (leaf : string) :
  components comps -> is_component leaf = true ->
  isfile fs (abs_of (S k) (comps ++ [leaf])) = true ->
  isfile fs (abs_of (S k) comps) = false ->
  isdir fs (abs_of (S k) comps) = true ->
  new_browser b fs window (abs_of (S k) (comps ++ [leaf])) w
  = new_browser b fs window (abs_of (S k) comps) w.
Proof.
  intros Hc Hl Hfile Hnotfile Hdir. unfold new_browser.
  rewrite Hfile, Hnotfile, Hdir. cbn [negb].
  rewrite dirname_abs_of by assumption. reflexivity.
Qed.

Lemma X18_witness :
  @new_browser posix_host default_browser locked_fs 1
    (abs_of 1 (["proj"] ++ ["main.py"])) empty_world
  = @new_browser posix_host default_browser locked_fs 1 (abs_of 1 ["proj"])
      empty_world.
Proof.
  apply (@X18_opening_on_a_file_opens_its_directory posix_host default_browser
           locked_fs 1 empty_world 0 ["proj"] "main.py").
  - repeat constructor.
  - reflexivity.
  - reflexivity.
  - reflexivity.
  - reflexivity.
Defined.

End DirnameFacts.

(** ** Pruned folders *)

Module PruningFacts.
Import StrFacts PathFacts ListingFacts WalkFacts.

(** What [os.walk] yields after the triple of the directory itself comes
    from a subdirectory that was kept. *)
Lemma walk_tail_inv (keep : string -> bool) (top : string)
    (es : list (string * fsnode)) x :
  In x (tl (walk keep top (Directory es))) ->
  exists name child,
    In (name, child) es /\ is_dir child && keep name = true /\
    In x (walk keep (PosixPath.join top [name]) child).
Proof.
  induction es as [|[n c] es IH]; cbn [walk tl]; [intros []|].
  intros Hin. apply in_app_or in Hin as [Hin | Hin].
  - destruct (is_dir c && keep n) eqn:E; [|contradiction].
    exists n, c. split; [left; reflexivity|]. split; [exact E | exact Hin].
  - destruct (IH Hin) as (name & child & H1 & H2 & H3).
    exists name, child. split; [right; exact H1|]. split; assumption.
Qed.

(** Every triple that [walk] yields is that of a directory to which kept
    names lead from the starting point. *)
Lemma walk_chain (keep : string -> bool) (tree : fsnode) :
  forall top root dirs files,
    In (root, dirs, files) (walk keep top tree) ->
    exists kept entries,
      descends tree kept (Directory entries) /\
      Forall (fun d => keep d = true) kept /\
      root = PosixPath.join top kept /\
      files = map fst (List.filter (fun e => negb (is_dir (snd e))) entries).
Proof.
  induction tree as [| |entries IH] using fsnode_induction;
    intros top root dirs files Hin; try contradiction.
  cbn [walk] in Hin. destruct Hin as [[= <- _ <-] | Hin].
  { exists [], entries. repeat split; constructor. }
  destruct (walk_tail_inv keep top entries _ Hin)
    as (name & child & Hentry & Hk & Hx).
  apply andb_true_iff in Hk as [_ Hkeep].
  rewrite Forall_forall in IH.
  destruct (IH (name, child) (proj2 (list_elem_of_In _ _) Hentry) _ _ _ _ Hx)
    as (kept & entries' & Hd & Hkept & -> & ->).
  exists (name :: kept), entries'. repeat split.
  - eapply descends_into; eassumption.
  - constructor; assumption.
Qed.

Lemma list_file_member `{Host} (b : Browser) (self : Session)
    (root : string) acc (file : string) acc' :
  list_file b self root acc file = Py.Ok acc' ->
  fst acc' = fst acc \/
  fst acc' = fst acc ++ [normalize_path b (PosixPath.join root [file])].
Proof.
  unfold list_file.
  destruct (exclude_file b file); [intros [= <-]; now left|].
  destruct (in_list _ _); [intros [= <-]; now left|].
  destruct (relative_path _ _ _); cbn [Py.bind]; [|discriminate].
  destruct (action_tags _ _ _ _); cbn [Py.bind]; [|discriminate].
  destruct (getitem _ _); cbn [Py.bind]; [|discriminate].
  intros [= <-]. now right.
Qed.

(** The paths of the panel that [list_files] shows, for any browser. *)
Lemma list_files_members `{Host} (b : Browser) (self : Session) (tree : fsnode)
    (top : string) (w w' : World) (p : Panel) :
  list_files b self tree top w = Py.Ok (w', p) ->
  forall x, In x (paths p) ->
    exists root dirs files f,
      In (root, dirs, files) (walk (fun d => negb (exclude_folder b d)) top tree) /\
      In f files /\ x = normalize_path b (PosixPath.join root [f]).
Proof.
  unfold list_files.
  destruct (for_each _ _ _) as [r|] eqn:E; cbn [Py.bind]; [|discriminate].
  intros [= <- <-]. cbn [paths show_quick_panel snd].
  set (triples := walk _ top tree) in *.
  set (P := fun s : list string * list QuickPanelItem =>
              forall x, In x (fst s) ->
                exists root dirs files f,
                  In (root, dirs, files) triples /\ In f files /\
                  x = normalize_path b (PosixPath.join root [f])).
  eapply (for_each_inv _ P); [| |exact E].
  - intros x [].
  - intros s [[root dirs] files] s' Hin Hs Hstep.
    eapply (for_each_inv _ P); [exact Hs| |exact Hstep].
    intros s1 f s2 Hf Hs1 Hstep1 x Hx.
    apply list_file_member in Hstep1 as [Es | Es]; rewrite Es in Hx;
      [now apply Hs1|].
    apply in_app_or in Hx as [Hx | [<-|[]]]; [now apply Hs1|].
    exists root, dirs, files, f. auto.
Qed.

(** C2, as stated, fails: the name of the starting directory is never
    tested.  With "node_modules" excluded, the deep listing started at
    "/proj/node_modules" shows "/proj/node_modules/index.js", a file
    beneath a directory whose name matches. *)
Lemma C2_counterexample :
  ~ (forall (b : Browser) (self : Session) (tree : fsnode) (top : string)
            (w w' : World) (p : Panel) (dir d rest : string),
       tree_of_names tree ->
       @list_files posix_host b self tree top w = Py.Ok (w', p) ->
       exclude_folder b d = true ->
       ~ In (dir +:+ "/" +:+ d +:+ "/" +:+ rest) (paths p)).
Proof.
  intros Hclaim.
  pose (tree := Directory [("index.js", NotDir)]).
  destruct (@list_files posix_host sample_browser sample_session tree
              "/proj/node_modules" empty_world) as [[w' p]|] eqn:El;
    [|vm_compute in El; discriminate].
  apply (Hclaim sample_browser sample_session tree "/proj/node_modules"
           empty_world w' p "/proj" "node_modules" "index.js").
  - cbn. tauto.
  - exact El.
  - reflexivity.
  - vm_compute in El. injection El as _ <-. left. reflexivity.
Qed.

(** C2 (amended): every file of the deep listing is reached from the
    starting directory through directories none of whose names the
    folder-exclusion matcher accepts, whatever the starting directory,
    the matcher and the depth: each listed path is that of a file [f] in
    a directory to which names [kept], all of them not excluded, lead
    from the starting point.  Hence, for a tree of names and where
    [normalize_path] leaves paths as [os.path.join] builds them, no
    listed path has the form top/ds/d/rest with d, below the starting
    directory, a name that the matcher accepts.  The name of the starting
    directory itself is not tested. *)
Theorem C2_listed_files_are_reached_through_kept_folders `{Host}
    (b : Browser) (self : Session) (tree : fsnode) (top : string)
    (w w' : World) (p : Panel) :
  list_files b self tree top w = Py.Ok (w', p) ->
  (forall x, In x (paths p) ->
     exists kept entries f,
       descends tree kept (Directory entries) /\
       Forall (fun d => exclude_folder b d = false) kept /\
       In (f, NotDir) entries /\
       x = normalize_path b (PosixPath.join top (kept ++ [f]))) /\
  (tree_of_names tree ->
   (forall path, normalize_path b path = path) ->
   forall (ds : list string) (d rest : string),
     names (ds ++ [d]) ->
     exclude_folder b d = true ->
     ~ In (PosixPath.join top (ds ++ [d]) +:+ "/" +:+ rest) (paths p)).
Proof.
  intros Hl. split.
  - intros x Hx.
    destruct (list_files_members b self tree top w w' p Hl x Hx)
      as (root & dirs & files & f & Htriple & Hf & ->).
    destruct (walk_chain _ tree _ _ _ _ Htriple)
      as (kept & entries & Hd & Hkept & -> & ->).
    apply in_map_iff in Hf as ([f' child] & Ef & Hf). cbn [fst] in Ef. subst f'.
    apply filter_In in Hf as [Hin Hnd]. cbn [snd] in Hnd.
    exists kept, entries, f. split; [exact Hd|]. split; [|split].
    + eapply Forall_impl; [exact Hkept|]. cbn beta. intros d Hk.
      apply negb_true_iff, Hk.
    + destruct child; [exact Hin | discriminate | discriminate].
    + unfold PosixPath.join. rewrite fold_left_app. reflexivity.
  - intros Htree Hn ds d rest Hchain Hex.
    exact (nothing_beneath_a_pruned_folder b self Hn tree top w w' p ds d rest
             Htree Hl Hchain Hex).
Qed.

Lemma C2_witness :
  exists w' p,
    @list_files posix_host sample_browser sample_session sample_tree "/proj"
      empty_world = Py.Ok (w', p) /\
    paths p = ["/proj/main.py"; "/proj/src/util.py"] /\
    (forall x, In x (paths p) ->
       exists kept entries f,
         descends sample_tree kept (Directory entries) /\
         Forall (fun d => exclude_folder sample_browser d = false) kept /\
         In (f, NotDir) entries /\
         x = normalize_path sample_browser (PosixPath.join "/proj" (kept ++ [f]))) /\
    (tree_of_names sample_tree ->
     (forall path, normalize_path sample_browser path = path) ->
     forall (ds : list string) (d rest : string),
       names (ds ++ [d]) ->
       exclude_folder sample_browser d = true ->
       ~ In (PosixPath.join "/proj" (ds ++ [d]) +:+ "/" +:+ rest) (paths p)).
Proof.
  eexists _, _.
  match goal with |- ?A /\ _ => assert (Hl : A) by (vm_compute; reflexivity) end.
  split; [exact Hl|]. split; [reflexivity|].
  exact (@C2_listed_files_are_reached_through_kept_folders posix_host
           sample_browser sample_session sample_tree "/proj" empty_world _ _ Hl).
Defined.

End PruningFacts.
